(** * Hi-PoC balance system: a shallow embedding of the write pipeline

    The development follows the TypeScript sources module by module:
    [types/index.ts], [cache/memory.ts], [services/balance.ts],
    [services/leader-election.ts], [services/mysql-writer.ts],
    [utils/error-handler.ts], [consumer/batch-consumer.ts],
    [db/consumer-offset.ts], [services/outbox.ts] and [api/rest/server.ts],
    then [cache/redis.ts], [workers/redis-updater.ts], [utils/metrics.ts]
    and the start of the consumer in [index.ts].

    Modelling conventions.
    - A [Decimal] (decimal.js value, DECIMAL(36,18) column) is an exact
      integer number of smallest units; rounding to a finite precision and
      column overflow are outside the model.
    - The relational tables are lists of rows in insertion order; every
      statement of the sources is a function on those lists that enforces
      the unique keys of [scripts/init-mysql.sql] the way the statement
      does (plain INSERT fails, INSERT IGNORE skips, ON DUPLICATE KEY
      UPDATE rewrites).  String comparison is exact.  The foreign keys to
      [accounts] are taken to be satisfied.
    - Exceptions are values: a computation returns [Ok a] or [Throw e].
      The process-wide singletons (pool, cache, leader election, retry
      map) are the fields of one [World] that every operation threads.
    - What the outside decides (the clock, a failing statement, a fresh
      event id) is given by an [Env]. *)

From Stdlib Require Import ZArith List String Bool Lia.
From stdpp Require Import base option gmap strings.

Local Open Scope string_scope.
Local Open Scope list_scope.
Local Open Scope Z_scope.

(** ** types/index.ts *)

Inductive TransactionType := DEPOSIT | WITHDRAW | FREEZE | UNFREEZE | TRANSFER.

Inductive TransactionStatus := INIT | PROCESSING | SUCCESS | FAILED.

Inductive OutboxStatus := PENDING | SENT | OUTBOX_FAILED.

Definition Decimal := Z.

Record Balance := mkBalance {
  accountId : Z;
  currencyCode : string;
  available : Decimal;
  frozen : Decimal;
  version : Z;
  updatedAt : Z
}.

Record BalanceChangeRequest := mkRequest {
  req_transactionId : string;
  req_accountId : Z;
  req_userId : string;
  req_currencyCode : string;
  req_type : TransactionType;
  req_amount : Decimal
}.

(** Every exception of the sources is raised with [new Error(...)]; the
    constructors below keep the message template and its arguments. *)
Inductive Error :=
| BalanceNotFound (account : Z) (currency : string)
| InsufficientBalance (availableBefore requested : Decimal)
| InsufficientBalanceToFreeze (availableBefore requested : Decimal)
| InsufficientFrozenBalance (frozenBefore requested : Decimal)
| UnknownTransactionType
| CacheInsufficientBalance (wouldBe : Decimal)
| CacheInsufficientFrozen (wouldBe : Decimal)
| CacheBalanceNotFound (account : Z) (currency : string)
| LostLeaderLock
| DuplicateEntry (key : string)
| DuplicateEvent (transactionId : string)
| DecimalError
| ConnectionError.

(** [error.constructor.name]: the sources, decimal.js and the database
    driver all raise plain [Error] objects. *)
Definition constructor_name (e : Error) : string := "Error".

(** [errorMessage.includes(needle)] for the two needles the sources test. *)
Definition includes_Duplicate_entry (e : Error) : bool :=
  match e with DuplicateEntry _ => true | _ => false end.

Definition includes_Duplicate (e : Error) : bool :=
  match e with DuplicateEntry _ | DuplicateEvent _ => true | _ => false end.

Record BalanceChangeResult := mkResult {
  res_transactionId : string;
  res_accountId : Z;
  res_currencyCode : string;
  res_success : bool;
  res_availableBefore : Decimal;
  res_availableAfter : Decimal;
  res_frozenBefore : Decimal;
  res_frozenAfter : Decimal;
  res_errorMessage : option Error;
  res_timestamp : Z
}.

(** ** scripts/init-mysql.sql: the rows of the five tables *)

Record BalanceRow := mkBalanceRow {
  ab_account_id : Z;
  ab_currency_code : string;
  ab_available : Decimal;
  ab_frozen : Decimal;
  ab_version : Z;
  ab_updated_at : Z
}.

Record LedgerRow := mkLedgerRow {
  bt_account_id : Z;
  bt_currency_code : string;
  bt_transaction_id : string;
  bt_type : TransactionType;
  bt_amount : Decimal;
  bt_available_before : Decimal;
  bt_available_after : Decimal;
  bt_frozen_before : Decimal;
  bt_frozen_after : Decimal;
  bt_status : TransactionStatus;
  bt_error_message : option Error
}.

Record OutboxRow := mkOutboxRow {
  ob_event_id : string;
  ob_topic : string;
  ob_partition_key : string;
  ob_payload : BalanceChangeRequest;
  ob_status : OutboxStatus;
  ob_error_message : option Error
}.

(** [leader_locks] has the single row [id = 1]. *)
Record LeaderLockRow := mkLeaderLockRow {
  ll_consumer_id : string;
  ll_acquired_at : Z;
  ll_expires_at : Z
}.

Record OffsetRow := mkOffsetRow {
  co_consumer_group : string;
  co_topic : string;
  co_partition : Z;
  co_offset : Z
}.

Record DB := mkDB {
  account_balances : list BalanceRow;
  balance_transactions : list LedgerRow;
  outbox_events : list OutboxRow;
  leader_locks : option LeaderLockRow;
  consumer_offsets : list OffsetRow
}.

Definition with_account_balances (d : DB) (l : list BalanceRow) : DB :=
  mkDB l (balance_transactions d) (outbox_events d) (leader_locks d) (consumer_offsets d).

Definition with_balance_transactions (d : DB) (l : list LedgerRow) : DB :=
  mkDB (account_balances d) l (outbox_events d) (leader_locks d) (consumer_offsets d).

Definition with_outbox_events (d : DB) (l : list OutboxRow) : DB :=
  mkDB (account_balances d) (balance_transactions d) l (leader_locks d) (consumer_offsets d).

Definition with_leader_locks (d : DB) (l : option LeaderLockRow) : DB :=
  mkDB (account_balances d) (balance_transactions d) (outbox_events d) l (consumer_offsets d).

Definition with_consumer_offsets (d : DB) (l : list OffsetRow) : DB :=
  mkDB (account_balances d) (balance_transactions d) (outbox_events d) (leader_locks d) l.

Definition empty_db : DB := mkDB [] [] [] None [].

(** ** The log (Kafka) as the sources see it *)

(** A record of the [balance-changes] topic.  [msg_value] is the result of
    [JSON.parse] on the value followed by the conversion of [amount]:
    [None] stands for a value that does not parse. *)
Record Message := mkMessage {
  msg_offset : Z;
  msg_key : string;
  msg_value : option BalanceChangeRequest
}.

Record DLQMessage := mkDLQ {
  dlq_originalOffset : option Z;
  dlq_originalKey : string;
  dlq_originalValue : BalanceChangeRequest;
  dlq_error : Error;
  dlq_retryCount : nat
}.

Record Subscription := mkSubscription {
  sub_topic : string;
  sub_fromBeginning : bool
}.

(** The calls to [logger] that later statements refer to. *)
Inductive LogEvent :=
| LogParseFailed (offset : Z)
| LogDuplicateSkipped (transactionId : string)
| LogWillBeRetried (transactionId : string) (retryCount : nat)
| LogSentToDLQ (transactionId : string) (retryCount : nat)
| LogBatchWritten (count : nat)
| LogBatchWriteFailed (e : Error)
| LogLeaderLockLostInTransaction (consumerId : string)
| LogLeaderLockLost (consumerId : string)
| LogDuplicateEvent (eventId transactionId : string).

(** ** The process state *)

Record LeaderElectionState := mkLeaderElection {
  consumerId : string;
  isLeader : bool
}.

Record World := mkWorld {
  w_db : DB;
  (* cache/memory.ts: Map keyed by `${accountId}:${currencyCode}` *)
  w_cache : gmap (Z * string) Balance;
  (* BatchConsumer.retryMap and BatchConsumer.running *)
  w_retryMap : gmap string nat;
  w_running : bool;
  w_subscription : option Subscription;
  (* leader-election.ts: the singleton and the module-level flag *)
  w_leaderElectionInstance : option LeaderElectionState;
  w_leaderElectionEnabled : bool;
  (* the log client: offsets handed to resolveOffset, records produced *)
  w_resolved : list Z;
  w_topic : list (string * BalanceChangeRequest);
  w_dlq : list DLQMessage;
  (* workers/redis-updater: balances enqueued for the snapshot *)
  w_redisQueue : list Balance;
  w_log : list LogEvent
}.

Record Env := mkEnv {
  env_now : Z;
  (* config.consumer.retry.maxRetries *)
  env_maxRetries : nat;
  (* the SELECT of deduplicateMessages fails *)
  env_dedupFault : bool;
  (* a statement of the batch transaction fails *)
  env_writeFault : bool;
  (* producer.send fails *)
  env_kafkaFault : bool;
  (* the INSERT into outbox_events fails for a reason other than a duplicate *)
  env_outboxFault : bool;
  (* generateEventId() *)
  env_eventId : string;
  (* `consumer-${process.pid}-${Date.now()}` *)
  env_consumerId : string;
  (* config.leaderElection.lockTTL *)
  env_lockTTL : Z;
  (* new Decimal(s) on a string: None when decimal.js rejects it *)
  env_decimal_of_string : string -> option Decimal
}.

Definition set_db (d : DB) (w : World) : World :=
  mkWorld d (w_cache w) (w_retryMap w) (w_running w) (w_subscription w)
    (w_leaderElectionInstance w) (w_leaderElectionEnabled w) (w_resolved w)
    (w_topic w) (w_dlq w) (w_redisQueue w) (w_log w).

Definition set_cache (c : gmap (Z * string) Balance) (w : World) : World :=
  mkWorld (w_db w) c (w_retryMap w) (w_running w) (w_subscription w)
    (w_leaderElectionInstance w) (w_leaderElectionEnabled w) (w_resolved w)
    (w_topic w) (w_dlq w) (w_redisQueue w) (w_log w).

Definition set_retryMap (r : gmap string nat) (w : World) : World :=
  mkWorld (w_db w) (w_cache w) r (w_running w) (w_subscription w)
    (w_leaderElectionInstance w) (w_leaderElectionEnabled w) (w_resolved w)
    (w_topic w) (w_dlq w) (w_redisQueue w) (w_log w).

Definition set_running (b : bool) (w : World) : World :=
  mkWorld (w_db w) (w_cache w) (w_retryMap w) b (w_subscription w)
    (w_leaderElectionInstance w) (w_leaderElectionEnabled w) (w_resolved w)
    (w_topic w) (w_dlq w) (w_redisQueue w) (w_log w).

Definition set_subscription (s : option Subscription) (w : World) : World :=
  mkWorld (w_db w) (w_cache w) (w_retryMap w) (w_running w) s
    (w_leaderElectionInstance w) (w_leaderElectionEnabled w) (w_resolved w)
    (w_topic w) (w_dlq w) (w_redisQueue w) (w_log w).

Definition set_leaderElectionInstance (l : option LeaderElectionState) (w : World) : World :=
  mkWorld (w_db w) (w_cache w) (w_retryMap w) (w_running w) (w_subscription w)
    l (w_leaderElectionEnabled w) (w_resolved w)
    (w_topic w) (w_dlq w) (w_redisQueue w) (w_log w).

Definition set_leaderElectionEnabled (b : bool) (w : World) : World :=
  mkWorld (w_db w) (w_cache w) (w_retryMap w) (w_running w) (w_subscription w)
    (w_leaderElectionInstance w) b (w_resolved w)
    (w_topic w) (w_dlq w) (w_redisQueue w) (w_log w).

Definition set_resolved (r : list Z) (w : World) : World :=
  mkWorld (w_db w) (w_cache w) (w_retryMap w) (w_running w) (w_subscription w)
    (w_leaderElectionInstance w) (w_leaderElectionEnabled w) r
    (w_topic w) (w_dlq w) (w_redisQueue w) (w_log w).

Definition set_topic (t : list (string * BalanceChangeRequest)) (w : World) : World :=
  mkWorld (w_db w) (w_cache w) (w_retryMap w) (w_running w) (w_subscription w)
    (w_leaderElectionInstance w) (w_leaderElectionEnabled w) (w_resolved w)
    t (w_dlq w) (w_redisQueue w) (w_log w).

Definition set_dlq (q : list DLQMessage) (w : World) : World :=
  mkWorld (w_db w) (w_cache w) (w_retryMap w) (w_running w) (w_subscription w)
    (w_leaderElectionInstance w) (w_leaderElectionEnabled w) (w_resolved w)
    (w_topic w) q (w_redisQueue w) (w_log w).

Definition set_redisQueue (q : list Balance) (w : World) : World :=
  mkWorld (w_db w) (w_cache w) (w_retryMap w) (w_running w) (w_subscription w)
    (w_leaderElectionInstance w) (w_leaderElectionEnabled w) (w_resolved w)
    (w_topic w) (w_dlq w) q (w_log w).

Definition set_log (l : list LogEvent) (w : World) : World :=
  mkWorld (w_db w) (w_cache w) (w_retryMap w) (w_running w) (w_subscription w)
    (w_leaderElectionInstance w) (w_leaderElectionEnabled w) (w_resolved w)
    (w_topic w) (w_dlq w) (w_redisQueue w) l.

Definition empty_world : World :=
  mkWorld empty_db ∅ ∅ false None None false [] [] [] [] [].

(** ** Computations: state passing with exceptions *)

Inductive result (A : Type) :=
| Ok (a : A)
| Throw (e : Error).

Arguments Ok {A} a.
Arguments Throw {A} e.

Definition M (A : Type) : Type := World -> World * result A.

Definition ret {A} (a : A) : M A := fun w => (w, Ok a).

Definition throw {A} (e : Error) : M A := fun w => (w, Throw e).

Definition bind {A B} (m : M A) (k : A -> M B) : M B :=
  fun w => match m w with
           | (w', Ok a) => k a w'
           | (w', Throw e) => (w', Throw e)
           end.

(** [try { m } catch (e) { h e }]: the state reached when the exception was
    raised is kept. *)
Definition try_catch {A} (m : M A) (h : Error -> M A) : M A :=
  fun w => match m w with
           | (w', Ok a) => (w', Ok a)
           | (w', Throw e) => h e w'
           end.

Definition gets {A} (f : World -> A) : M A := fun w => (w, Ok (f w)).

Definition modify (f : World -> World) : M unit := fun w => (f w, Ok tt).

Definition logger (ev : LogEvent) : M unit :=
  modify (fun w => set_log (w_log w ++ [ev]) w).

Notation "'let*' x ':=' c 'in' k" := (bind c (fun x => k))
  (at level 10, x name, c at level 100, k at level 200).

Notation "c '>>' k" := (bind c (fun _ => k))
  (at level 62, right associativity).

(** [for (const x of l) { body x }] *)
Fixpoint for_each {A} (l : list A) (body : A -> M unit) : M unit :=
  match l with
  | [] => ret tt
  | x :: l' => body x >> for_each l' body
  end.

(** ** cache/memory.ts *)

Module BalanceCache.

Definition getKey (account : Z) (currency : string) : Z * string :=
  (account, currency).

Definition get (account : Z) (currency : string) : M (option Balance) :=
  gets (fun w => w_cache w !! getKey account currency).

Definition set (account : Z) (currency : string) (balance : Balance) : M unit :=
  modify (fun w => set_cache (<[getKey account currency := balance]> (w_cache w)) w).

Definition update (now : Z) (account : Z) (currency : string)
  (availableDelta frozenDelta : Decimal) : M Balance :=
  let* current := gets (fun w => w_cache w !! getKey account currency) in
  match current with
  | Some current =>
      let newAvailable := available current + availableDelta in
      let newFrozen := frozen current + frozenDelta in
      if newAvailable <? 0 then throw (CacheInsufficientBalance newAvailable)
      else if newFrozen <? 0 then throw (CacheInsufficientFrozen newFrozen)
      else
        let updated := mkBalance (accountId current) (currencyCode current)
                         newAvailable newFrozen (version current + 1) now in
        modify (fun w => set_cache (<[getKey account currency := updated]> (w_cache w)) w)
        >> ret updated
  | None => throw (CacheBalanceNotFound account currency)
  end.

End BalanceCache.

(** ** services/balance.ts *)

Module BalanceService.

Definition same_key (account : Z) (currency : string) (r : BalanceRow) : bool :=
  (ab_account_id r =? account) && String.eqb (ab_currency_code r) currency.

(** SELECT ... FROM account_balances WHERE account_id = ? AND currency_code = ?
    and, when a row comes back, [cache.set]. *)
Definition loadBalanceFromDB (account : Z) (currency : string) : M (option Balance) :=
  let* rows := gets (fun w => List.filter (same_key account currency) (account_balances (w_db w))) in
  match rows with
  | [] => ret None
  | r :: _ =>
      let balance := mkBalance (ab_account_id r) (ab_currency_code r) (ab_available r)
                       (ab_frozen r) (ab_version r) (ab_updated_at r) in
      BalanceCache.set account currency balance >> ret (Some balance)
  end.

Definition getBalance (account : Z) (currency : string) : M (option Balance) :=
  loadBalanceFromDB account currency.

(** INSERT INTO balance_transactions ... VALUES (...) on the pool, outside
    any transaction; a duplicate-entry failure is swallowed.  The call is
    not awaited in the sources: it is taken to complete at once. *)
Definition recordTransaction (request : BalanceChangeRequest)
  (availableBefore availableAfter frozenBefore frozenAfter : Decimal)
  (status : TransactionStatus) (errorMessage : option Error) : M unit :=
  modify (fun w =>
    let d := w_db w in
    if existsb (fun r => String.eqb (bt_transaction_id r) (req_transactionId request))
         (balance_transactions d)
    then w
    else set_db (with_balance_transactions d
           (balance_transactions d ++
            [mkLedgerRow (req_accountId request) (req_currencyCode request)
               (req_transactionId request) (req_type request) (req_amount request)
               availableBefore availableAfter frozenBefore frozenAfter status errorMessage])) w).

Definition is_deposit (t : TransactionType) : bool :=
  match t with DEPOSIT => true | _ => false end.

(** Step 3 of [updateBalance]: the [switch] on the request type. *)
Definition computeAfter (request : BalanceChangeRequest)
  (availableBefore frozenBefore : Decimal) : M (Decimal * Decimal) :=
  match req_type request with
  | DEPOSIT => ret (availableBefore + req_amount request, frozenBefore)
  | WITHDRAW =>
      let availableAfter := availableBefore - req_amount request in
      if availableAfter <? 0
      then throw (InsufficientBalance availableBefore (req_amount request))
      else ret (availableAfter, frozenBefore)
  | FREEZE =>
      let availableAfter := availableBefore - req_amount request in
      let frozenAfter := frozenBefore + req_amount request in
      if availableAfter <? 0
      then throw (InsufficientBalanceToFreeze availableBefore (req_amount request))
      else ret (availableAfter, frozenAfter)
  | UNFREEZE =>
      let availableAfter := availableBefore + req_amount request in
      let frozenAfter := frozenBefore - req_amount request in
      if frozenAfter <? 0
      then throw (InsufficientFrozenBalance frozenBefore (req_amount request))
      else ret (availableAfter, frozenAfter)
  | TRANSFER => throw UnknownTransactionType
  end.

Definition updateBalance (env : Env) (request : BalanceChangeRequest) : M BalanceChangeResult :=
  (* 1 *)
  let* loaded := getBalance (req_accountId request) (req_currencyCode request) in
  (* 2 *)
  let* currentBalance :=
    match loaded with
    | Some b => ret b
    | None =>
        if is_deposit (req_type request) && (0 <=? req_amount request)
        then
          let b := mkBalance (req_accountId request) (req_currencyCode request) 0 0 0 (env_now env) in
          BalanceCache.set (req_accountId request) (req_currencyCode request) b >> ret b
        else throw (BalanceNotFound (req_accountId request) (req_currencyCode request))
    end in
  let availableBefore := available currentBalance in
  let frozenBefore := frozen currentBalance in
  (* 3 *)
  let* after := computeAfter request availableBefore frozenBefore in
  let availableAfter := fst after in
  let frozenAfter := snd after in
  (* 4, 5 *)
  try_catch
    (BalanceCache.update (env_now env) (req_accountId request) (req_currencyCode request)
       (availableAfter - availableBefore) (frozenAfter - frozenBefore) >>
     recordTransaction request availableBefore availableAfter frozenBefore frozenAfter SUCCESS None >>
     ret (mkResult (req_transactionId request) (req_accountId request) (req_currencyCode request)
            true availableBefore availableAfter frozenBefore frozenAfter None (env_now env)))
    (fun error =>
     recordTransaction request availableBefore availableBefore frozenBefore frozenBefore
       FAILED (Some error) >>
     ret (mkResult (req_transactionId request) (req_accountId request) (req_currencyCode request)
            false availableBefore availableBefore frozenBefore frozenBefore (Some error)
            (env_now env))).

End BalanceService.

(** ** services/leader-election.ts *)

Module LeaderElection.

(** [getLeaderElection()]: the singleton is created on first use. *)
Definition getLeaderElection (env : Env) : M LeaderElectionState :=
  let* inst := gets w_leaderElectionInstance in
  match inst with
  | Some le => ret le
  | None =>
      let le := mkLeaderElection (env_consumerId env) false in
      modify (set_leaderElectionInstance (Some le)) >> ret le
  end.

Definition set_isLeader (b : bool) : M unit :=
  modify (fun w =>
    match w_leaderElectionInstance w with
    | Some le => set_leaderElectionInstance (Some (mkLeaderElection (consumerId le) b)) w
    | None => w
    end).

(** INSERT ... ON DUPLICATE KEY UPDATE with the three [IF(expires_at < NOW(), ...)];
    the result is the new table and [affectedRows]. *)
Definition upsert_lock (now ttl : Z) (self : string) (current : option LeaderLockRow)
  : option LeaderLockRow * Z :=
  match current with
  | None => (Some (mkLeaderLockRow self now (now + ttl)), 1)
  | Some row =>
      if ll_expires_at row <? now
      then (Some (mkLeaderLockRow self now (now + ttl)), 2)
      else (Some row, 0)
  end.

Definition acquireLock (env : Env) : M bool :=
  let* le := getLeaderElection env in
  let* locks := gets (fun w => leader_locks (w_db w)) in
  let r := upsert_lock (env_now env) (env_lockTTL env) (consumerId le) locks in
  modify (fun w => set_db (with_leader_locks (w_db w) (fst r)) w) >>
  if 0 <? snd r
  then
    match fst r with
    | Some row =>
        if String.eqb (ll_consumer_id row) (consumerId le)
        then set_isLeader true >> ret true
        else ret false
    | None => ret false
    end
  else ret false.

Definition renewLock (env : Env) : M bool :=
  let* le := getLeaderElection env in
  if negb (isLeader le) then ret false
  else
    let* locks := gets (fun w => leader_locks (w_db w)) in
    match locks with
    | Some row =>
        if String.eqb (ll_consumer_id row) (consumerId le) && (env_now env <? ll_expires_at row)
        then
          modify (fun w => set_db (with_leader_locks (w_db w)
            (Some (mkLeaderLockRow (ll_consumer_id row) (ll_acquired_at row)
                     (env_now env + env_lockTTL env)))) w) >>
          ret true
        else set_isLeader false >> logger (LogLeaderLockLost (consumerId le)) >> ret false
    | None => set_isLeader false >> logger (LogLeaderLockLost (consumerId le)) >> ret false
    end.

(** SELECT consumer_id FROM leader_locks
    WHERE id = 1 AND consumer_id = ? AND expires_at > NOW() *)
Definition checkLockInTransaction (env : Env) : M bool :=
  let* le := getLeaderElection env in
  let* locks := gets (fun w => leader_locks (w_db w)) in
  let isLeaderNow :=
    match locks with
    | Some row => String.eqb (ll_consumer_id row) (consumerId le) && (env_now env <? ll_expires_at row)
    | None => false
    end in
  (if negb isLeaderNow && isLeader le
   then logger (LogLeaderLockLostInTransaction (consumerId le)) >> set_isLeader false
   else ret tt) >>
  ret isLeaderNow.

Definition releaseLock (env : Env) : M unit :=
  let* le := getLeaderElection env in
  if negb (isLeader le) then ret tt
  else
    modify (fun w =>
      match leader_locks (w_db w) with
      | Some row =>
          if String.eqb (ll_consumer_id row) (consumerId le)
          then set_db (with_leader_locks (w_db w) None) w
          else w
      | None => w
      end) >>
    set_isLeader false.

Definition isCurrentLeader (le : LeaderElectionState) : bool := isLeader le.

Definition enableLeaderElection : M unit := modify (set_leaderElectionEnabled true).

Definition disableLeaderElection : M unit := modify (set_leaderElectionEnabled false).

(** leaderElectionEnabled && leaderElectionInstance !== null
    && leaderElectionInstance.isCurrentLeader() *)
Definition isLeaderElectionEnabled : M bool :=
  gets (fun w =>
    w_leaderElectionEnabled w &&
    match w_leaderElectionInstance w with
    | Some le => isCurrentLeader le
    | None => false
    end).

End LeaderElection.

(** ** services/mysql-writer.ts *)

Record Update := mkUpdate {
  u_request : BalanceChangeRequest;
  u_availableBefore : Decimal;
  u_availableAfter : Decimal;
  u_frozenBefore : Decimal;
  u_frozenAfter : Decimal;
  u_status : TransactionStatus
}.

Module MySQLBatchWriter.

(** A row of the temporary table [temp_balance_updates]. *)
Record TempRow := mkTempRow {
  t_account_id : Z;
  t_currency_code : string;
  t_available_delta : Decimal;
  t_frozen_delta : Decimal;
  t_transaction_id : string;
  t_type : TransactionType;
  t_amount : Decimal;
  t_available_before : Decimal;
  t_available_after : Decimal;
  t_frozen_before : Decimal;
  t_frozen_after : Decimal;
  t_status : TransactionStatus
}.

(** Steps 2 and 3: one staged row per update, in order. *)
Definition values (update : Update) : TempRow :=
  let availableDelta := u_availableAfter update - u_availableBefore update in
  let frozenDelta := u_frozenAfter update - u_frozenBefore update in
  mkTempRow (req_accountId (u_request update)) (req_currencyCode (u_request update))
    availableDelta frozenDelta
    (req_transactionId (u_request update)) (req_type (u_request update))
    (req_amount (u_request update))
    (u_availableBefore update) (u_availableAfter update)
    (u_frozenBefore update) (u_frozenAfter update) (u_status update).

Definition joins (ab : BalanceRow) (t : TempRow) : bool :=
  (ab_account_id ab =? t_account_id t) && String.eqb (ab_currency_code ab) (t_currency_code t).

(** The join condition together with the WHERE clause of step 5.1. *)
Definition updatable (ab : BalanceRow) (t : TempRow) : bool :=
  joins ab t
  && (0 <=? ab_available ab + t_available_delta t)
  && (0 <=? ab_frozen ab + t_frozen_delta t).

(** Step 5.1, UPDATE account_balances ab JOIN temp_balance_updates t ... :
    a multiple-table UPDATE changes each row of [ab] at most once, even
    when several staged rows join it; the staged row used is the first
    one, in staging order, that passes the WHERE clause. *)
Definition update_existing (now : Z) (temp : list TempRow) (ab : BalanceRow) : BalanceRow :=
  match List.find (updatable ab) temp with
  | Some t =>
      mkBalanceRow (ab_account_id ab) (ab_currency_code ab)
        (ab_available ab + t_available_delta t)
        (ab_frozen ab + t_frozen_delta t)
        (ab_version ab + 1) now
  | None => ab
  end.

(** Step 5.2, INSERT IGNORE ... SELECT ... LEFT JOIN ... WHERE ab.id IS NULL:
    the rows selected are the staged rows without a balance row whose
    after-values are not negative ... *)
Definition missing (balances : list BalanceRow) (t : TempRow) : bool :=
  negb (existsb (fun ab => joins ab t) balances)
  && (0 <=? t_available_after t)
  && (0 <=? t_frozen_after t).

(** ... and each is inserted with version 0 unless the unique key
    (account_id, currency_code) is already taken (IGNORE). *)
Definition insert_ignore (now : Z) (balances : list BalanceRow) (t : TempRow) : list BalanceRow :=
  if existsb (fun ab => joins ab t) balances
  then balances
  else balances ++ [mkBalanceRow (t_account_id t) (t_currency_code t)
                      (t_available_after t) (t_frozen_after t) 0 now].

Definition insert_missing (now : Z) (temp : list TempRow) (balances : list BalanceRow)
  : list BalanceRow :=
  fold_left (insert_ignore now) (List.filter (missing balances) temp) balances.

(** Step 6, INSERT INTO balance_transactions ... SELECT ... FROM temp
    ON DUPLICATE KEY UPDATE status = VALUES(status): the unique key is
    transaction_id. *)
Definition insert_ledger (ledger : list LedgerRow) (t : TempRow) : list LedgerRow :=
  if existsb (fun r => String.eqb (bt_transaction_id r) (t_transaction_id t)) ledger
  then
    map (fun r =>
           if String.eqb (bt_transaction_id r) (t_transaction_id t)
           then mkLedgerRow (bt_account_id r) (bt_currency_code r) (bt_transaction_id r)
                  (bt_type r) (bt_amount r) (bt_available_before r) (bt_available_after r)
                  (bt_frozen_before r) (bt_frozen_after r) (t_status t) (bt_error_message r)
           else r) ledger
  else
    ledger ++ [mkLedgerRow (t_account_id t) (t_currency_code t) (t_transaction_id t)
                 (t_type t) (t_amount t) (t_available_before t) (t_available_after t)
                 (t_frozen_before t) (t_frozen_after t) (t_status t) None].

(** beginTransaction ... commit, with rollback of the tables in [catch]. *)
Definition transaction {A} (body : M A) : M A :=
  fun w =>
    match body w with
    | (w', Ok a) => (w', Ok a)
    | (w', Throw e) => (set_db (w_db w) w', Throw e)
    end.

Definition batchWriteBalanceUpdates (env : Env) (updates : list Update)
  (leaderCheckCallback : option (M unit)) : M unit :=
  match updates with
  | [] => ret tt
  | _ =>
      transaction
        ((* 1 - 3 *)
         let temp := map values updates in
         (* 4 *)
         match leaderCheckCallback with
         | Some callback => callback
         | None => ret tt
         end >>
         (* 5.1 *)
         (if env_writeFault env then throw ConnectionError else ret tt) >>
         modify (fun w => set_db (with_account_balances (w_db w)
           (map (update_existing (env_now env) temp) (account_balances (w_db w)))) w) >>
         (* 5.2 *)
         modify (fun w => set_db (with_account_balances (w_db w)
           (insert_missing (env_now env) temp (account_balances (w_db w)))) w) >>
         (* 6 *)
         modify (fun w => set_db (with_balance_transactions (w_db w)
           (fold_left insert_ledger temp (balance_transactions (w_db w)))) w) >>
         logger (LogBatchWritten (length updates)))
  end.

End MySQLBatchWriter.

(** ** utils/error-handler.ts *)

Module ErrorHandler.

Definition nonRetryableErrors : list string :=
  ["ValidationError"; "AuthenticationError"; "AuthorizationError"; "InvalidFormatError"].

Definition shouldRetry (env : Env) (retryCount : nat) (error : Error) : bool :=
  if (env_maxRetries env <=? retryCount)%nat then false
  else if existsb (String.eqb (constructor_name error)) nonRetryableErrors then false
  else true.

Definition sendToDLQ (message : DLQMessage) : M unit :=
  modify (fun w => set_dlq (w_dlq w ++ [message]) w) >>
  logger (LogSentToDLQ (req_transactionId (dlq_originalValue message)) (dlq_retryCount message)).

(** The result is the [shouldRetry] field of the object returned. *)
Definition handleRetryableError (env : Env) (request : BalanceChangeRequest)
  (offset : option Z) (error : Error) (retryCount : nat) : M bool :=
  if negb (shouldRetry env retryCount error)
  then sendToDLQ (mkDLQ offset (req_userId request) request error retryCount) >> ret false
  else ret true.

Definition handleError (env : Env) (request : BalanceChangeRequest)
  (offset : option Z) (error : Error) (retryCount : nat) : M bool :=
  handleRetryableError env request offset error retryCount.

End ErrorHandler.

(** ** db/consumer-offset.ts *)

Module ConsumerOffsetManager.

Definition same_offset_key (consumerGroup topic : string) (partition : Z) (r : OffsetRow) : bool :=
  String.eqb (co_consumer_group r) consumerGroup
  && String.eqb (co_topic r) topic
  && (co_partition r =? partition).

Definition getOffset (consumerGroup topic : string) (partition : Z) : M (option Z) :=
  gets (fun w =>
    match List.filter (same_offset_key consumerGroup topic partition) (consumer_offsets (w_db w)) with
    | [] => None
    | r :: _ => Some (co_offset r)
    end).

(** INSERT ... ON DUPLICATE KEY UPDATE `offset` = VALUES(`offset`) *)
Definition updateOffset (consumerGroup topic : string) (partition offset : Z) : M unit :=
  modify (fun w =>
    let rows := consumer_offsets (w_db w) in
    set_db (with_consumer_offsets (w_db w)
      (if existsb (same_offset_key consumerGroup topic partition) rows
       then map (fun r => if same_offset_key consumerGroup topic partition r
                          then mkOffsetRow (co_consumer_group r) (co_topic r) (co_partition r) offset
                          else r) rows
       else rows ++ [mkOffsetRow consumerGroup topic partition offset])) w).

End ConsumerOffsetManager.

(** ** consumer/batch-consumer.ts *)

#[global] Instance TransactionType_eq_dec : EqDecision TransactionType.
Proof. solve_decision. Defined.

#[global] Instance BalanceChangeRequest_eq_dec : EqDecision BalanceChangeRequest.
Proof. solve_decision. Defined.

Module BatchConsumer.

(** config.kafka.topics.balanceChanges and config.kafka.consumerGroup *)
Definition balanceChanges : string := "balance-changes".
Definition consumerGroup : string := "balance-consumer-group".

Definition is_INIT (s : TransactionStatus) : bool :=
  match s with INIT => true | _ => false end.

Definition is_SUCCESS (s : TransactionStatus) : bool :=
  match s with SUCCESS => true | _ => false end.

(** The parsing loop of [deduplicateMessages]: unparsable values are
    logged and left out. *)
Fixpoint parseMessages (messages : list Message) : M (list BalanceChangeRequest) :=
  match messages with
  | [] => ret []
  | message :: rest =>
      match msg_value message with
      | Some request =>
          let* requests := parseMessages rest in
          ret (request :: requests)
      | None =>
          logger (LogParseFailed (msg_offset message)) >> parseMessages rest
      end
  end.

(** SELECT transaction_id FROM balance_transactions
    WHERE transaction_id IN (...) AND status != 'INIT' *)
Definition processedIds (transactionIds : list string) (ledger : list LedgerRow) : list string :=
  map bt_transaction_id
    (List.filter (fun r => existsb (String.eqb (bt_transaction_id r)) transactionIds
                           && negb (is_INIT (bt_status r))) ledger).

(** The last loop of [deduplicateMessages]: it runs over [requests], the
    parsed records themselves. *)
Fixpoint filterProcessed (processed : list string) (requests : list BalanceChangeRequest)
  : M (list BalanceChangeRequest) :=
  match requests with
  | [] => ret []
  | request :: rest =>
      if existsb (String.eqb (req_transactionId request)) processed
      then logger (LogDuplicateSkipped (req_transactionId request)) >> filterProcessed processed rest
      else
        let* uniqueRequests := filterProcessed processed rest in
        ret (request :: uniqueRequests)
  end.

Definition deduplicateMessages (env : Env) (messages : list Message)
  : M (list BalanceChangeRequest) :=
  let* requests := parseMessages messages in
  (* the Set of transaction ids serves the query only *)
  let transactionIds := remove_dups (map req_transactionId requests) in
  match transactionIds with
  | [] => ret []
  | _ =>
      (if env_dedupFault env then throw ConnectionError else ret tt) >>
      let* ledger := gets (fun w => balance_transactions (w_db w)) in
      filterProcessed (processedIds transactionIds ledger) requests
  end.

(** messages.find(m => m.value.toString() === JSON.stringify(request)) *)
Definition matchingMessage (messages : list Message) (request : BalanceChangeRequest)
  : option Message :=
  List.find (fun m => bool_decide (msg_value m = Some request)) messages.

(** The body of the loop of step 2 for one request; [updates] is the array
    built so far. *)
Definition processRequest (env : Env) (messages : list Message)
  (request : BalanceChangeRequest) (updates : list Update) : M (list Update) :=
  try_catch
    (let* result := BalanceService.updateBalance env request in
     modify (fun w => set_retryMap (delete (req_transactionId request) (w_retryMap w)) w) >>
     ret (updates ++
          [mkUpdate request (res_availableBefore result) (res_availableAfter result)
             (res_frozenBefore result) (res_frozenAfter result)
             (if res_success result then SUCCESS else FAILED)]))
    (fun error =>
     let offset := msg_offset <$> matchingMessage messages request in
     let* retryCount := gets (fun w => default 0%nat (w_retryMap w !! req_transactionId request)) in
     let* shouldRetry := ErrorHandler.handleError env request offset error retryCount in
     if shouldRetry
     then
       modify (fun w => set_retryMap
                 (<[req_transactionId request := S retryCount]> (w_retryMap w)) w) >>
       logger (LogWillBeRetried (req_transactionId request) (S retryCount)) >>
       ret updates
     else
       ret (updates ++ [mkUpdate request 0 0 0 0 FAILED])).

Fixpoint processRequests (env : Env) (messages : list Message)
  (requests : list BalanceChangeRequest) (updates : list Update) : M (list Update) :=
  match requests with
  | [] => ret updates
  | request :: rest =>
      let* updates' := processRequest env messages request updates in
      processRequests env messages rest updates'
  end.

(** The callback handed to the writer when [isLeaderElectionEnabled()]. *)
Definition leaderCheck (env : Env) : M unit :=
  let* isLeader := LeaderElection.checkLockInTransaction env in
  if negb isLeader then throw LostLeaderLock else ret tt.

(** Step 4: the balances of the successful updates go to the snapshot
    updater. *)
Definition enqueueRedis (update : Update) : M unit :=
  if is_SUCCESS (u_status update)
  then
    let* balance := BalanceCache.get (req_accountId (u_request update))
                      (req_currencyCode (u_request update)) in
    match balance with
    | Some b => modify (fun w => set_redisQueue (w_redisQueue w ++ [b]) w)
    | None => ret tt
    end
  else ret tt.

(** The first statements of the [try] of step 3, up to the awaited call of
    the writer: the callback exists only when [isLeaderElectionEnabled()]. *)
Definition commitUpdates (env : Env) (updates : list Update) : M unit :=
  let* enabled := LeaderElection.isLeaderElectionEnabled in
  let leaderCheckCallback := if enabled then Some (leaderCheck env) else None in
  MySQLBatchWriter.batchWriteBalanceUpdates env updates leaderCheckCallback.

(** Step 3 (and 4) of [processBatch]: the write and its [catch], which
    logs and does not rethrow. *)
Definition writeUpdates (env : Env) (updates : list Update) : M unit :=
  match updates with
  | [] => ret tt
  | _ =>
      try_catch
        (commitUpdates env updates >> for_each updates enqueueRedis)
        (fun error => logger (LogBatchWriteFailed error))
  end.

Definition processBatch (env : Env) (messages : list Message) (partition : Z) : M unit :=
  match messages with
  | [] => ret tt
  | _ =>
      (* 1 *)
      let* uniqueRequests := deduplicateMessages env messages in
      match uniqueRequests with
      | [] => ret tt
      | _ =>
          (* 2 *)
          let* updates := processRequests env messages uniqueRequests [] in
          (* 3 *)
          writeUpdates env updates
      end
  end.

Definition resolveOffset (offset : Z) : M unit :=
  modify (fun w => set_resolved (w_resolved w ++ [offset]) w).

(** The [eachBatch] handler that [pollLoop] gives to [consumer.run]. *)
Definition eachBatch (env : Env) (messages : list Message) (partition : Z) : M unit :=
  let* running := gets w_running in
  if negb running then ret tt
  else
    match messages with
    | [] => ret tt
    | _ =>
        processBatch env messages partition >>
        for_each messages (fun msg => resolveOffset (msg_offset msg))
    end.

(** [start()]: subscribe and mark the consumer as running. *)
Definition start : M unit :=
  let* running := gets w_running in
  if running then ret tt
  else
    modify (set_subscription (Some (mkSubscription balanceChanges true))) >>
    modify (set_running true).

Definition stop : M unit :=
  modify (set_running false) >> modify (set_subscription None).

End BatchConsumer.

(** ** services/outbox.ts *)

Module OutboxService.

Definition set_outbox_status (eventId : string) (status : OutboxStatus)
  (error : option Error) (rows : list OutboxRow) : list OutboxRow :=
  map (fun r =>
         if String.eqb (ob_event_id r) eventId
         then mkOutboxRow (ob_event_id r) (ob_topic r) (ob_partition_key r) (ob_payload r)
                status (match error with Some e => Some e | None => ob_error_message r end)
         else r) rows.

(** [sendToKafka]: publish, then mark the row SENT; on a producer failure
    mark it FAILED and rethrow. *)
Definition sendToKafka (env : Env) (eventId : string) (request : BalanceChangeRequest) : M unit :=
  if env_kafkaFault env
  then
    modify (fun w => set_db (with_outbox_events (w_db w)
      (set_outbox_status eventId OUTBOX_FAILED (Some ConnectionError) (outbox_events (w_db w)))) w) >>
    throw ConnectionError
  else
    modify (fun w => set_topic (w_topic w ++ [(req_userId request, request)]) w) >>
    modify (fun w => set_db (with_outbox_events (w_db w)
      (set_outbox_status eventId SENT None (outbox_events (w_db w)))) w).

(** INSERT INTO outbox_events (event_id, topic, partition_key, payload, status):
    the only unique key of the table is event_id. *)
Definition insertOutboxEvent (env : Env) (eventId : string) (request : BalanceChangeRequest)
  : M unit :=
  if env_outboxFault env then throw ConnectionError
  else
    let* rows := gets (fun w => outbox_events (w_db w)) in
    if existsb (fun r => String.eqb (ob_event_id r) eventId) rows
    then throw (DuplicateEntry eventId)
    else
      modify (fun w => set_db (with_outbox_events (w_db w)
        (rows ++ [mkOutboxRow eventId BatchConsumer.balanceChanges (req_userId request)
                    request PENDING None])) w).

Definition createBalanceChange (env : Env) (request : BalanceChangeRequest) : M string :=
  let eventId := env_eventId env in
  try_catch
    ((* 1 *)
     insertOutboxEvent env eventId request >>
     (* 2: not awaited, its failure is logged only *)
     try_catch (sendToKafka env eventId request) (fun _ => ret tt) >>
     ret eventId)
    (fun error =>
     if includes_Duplicate_entry error
     then
       logger (LogDuplicateEvent eventId (req_transactionId request)) >>
       throw (DuplicateEvent (req_transactionId request))
     else throw error).

End OutboxService.

(** ** api/rest/server.ts *)

Module RESTServer.

(** The [amount] of a JSON body: a number or a string. *)
Inductive JsAmount :=
| AmountNumber (n : Z)
| AmountString (s : string).

Record Body := mkBody {
  transaction_id : option string;
  account_id : option Z;
  user_id : option string;
  currency_code : option string;
  type : option Z;
  amount : option JsAmount
}.

Inductive Response :=
| Status200 (transaction_id event_id : string)
| Status400 (error : string)
| Status409 (error : Error)
| Status500 (error : Error).

(** The JavaScript [!v] on the three shapes of field. *)
Definition not_string (v : option string) : bool :=
  match v with
  | None => true
  | Some s => String.eqb s EmptyString
  end.

Definition not_number (v : option Z) : bool :=
  match v with
  | None => true
  | Some n => n =? 0
  end.

Definition not_amount (v : option JsAmount) : bool :=
  match v with
  | None => true
  | Some (AmountNumber n) => n =? 0
  | Some (AmountString s) => String.eqb s EmptyString
  end.

Definition transactionTypeMap (type : Z) : option TransactionType :=
  if type =? 0 then Some DEPOSIT
  else if type =? 1 then Some WITHDRAW
  else if type =? 2 then Some FREEZE
  else if type =? 3 then Some UNFREEZE
  else if type =? 4 then Some TRANSFER
  else None.

(** [new Decimal(amount)] *)
Definition newDecimal (env : Env) (amount : JsAmount) : M Decimal :=
  match amount with
  | AmountNumber n => ret n
  | AmountString s =>
      match env_decimal_of_string env s with
      | Some d => ret d
      | None => throw DecimalError
      end
  end.

Definition changeBalance (env : Env) (body : Body) : M Response :=
  match transaction_id body, account_id body, user_id body, currency_code body,
        type body, amount body with
  | Some transaction_id, Some account_id, Some user_id, Some currency_code,
    Some type, Some amount =>
      if not_string (Some transaction_id) || not_number (Some account_id)
         || not_string (Some user_id) || not_string (Some currency_code)
         || not_amount (Some amount)
      then ret (Status400 "Missing required fields")
      else
        match transactionTypeMap type with
        | None => ret (Status400 "Invalid transaction type")
        | Some transactionType =>
            try_catch
              (let* decimal := newDecimal env amount in
               let request := mkRequest transaction_id account_id user_id currency_code
                                transactionType decimal in
               let* eventId := OutboxService.createBalanceChange env request in
               ret (Status200 transaction_id eventId))
              (fun error =>
               if includes_Duplicate error
               then ret (Status409 error)
               else ret (Status500 error))
        end
  | _, _, _, _, _, _ => ret (Status400 "Missing required fields")
  end.

End RESTServer.

(** * Reasoning about computations *)

(** [preserves P m]: running [m] from a state in [P] ends in a state in
    [P], whether [m] returns or throws. *)
Definition preserves {A} (P : World -> Prop) (m : M A) : Prop :=
  forall w, P w -> P (fst (m w)).

(** ** Non-negativity of the committed rows and of the working set *)

Definition row_non_negative (r : BalanceRow) : Prop :=
  0 <= ab_available r /\ 0 <= ab_frozen r.

Definition balance_non_negative (b : Balance) : Prop :=
  0 <= available b /\ 0 <= frozen b.

Definition non_negative (w : World) : Prop :=
  Forall row_non_negative (account_balances (w_db w))
  /\ map_Forall (fun _ b => balance_non_negative b) (w_cache w).

(** ** What [updateBalance] does to an existing balance *)

Definition balance_of_row (r : BalanceRow) : Balance :=
  mkBalance (ab_account_id r) (ab_currency_code r) (ab_available r) (ab_frozen r)
    (ab_version r) (ab_updated_at r).

(** [row] is the row that the SELECT of [loadBalanceFromDB] returns for the
    request. *)
Definition existing_balance (w : World) (request : BalanceChangeRequest) (row : BalanceRow)
  : Prop :=
  head (List.filter (BalanceService.same_key (req_accountId request) (req_currencyCode request))
          (account_balances (w_db w))) = Some row.



(** ** The two halves of [processBatch] *)


(** ** Inputs used by the examples *)

Definition example_env : Env :=
  mkEnv 1000 3 false false false false "1000-e1" "consumer-A" 5000 (fun _ => None).

Definition example_request (transactionId : string) (type : TransactionType)
  (amount : Decimal) : BalanceChangeRequest :=
  mkRequest transactionId 1 "user-1" "USDT" type amount.

(** A store that holds the balance (100, 0) of account 1 in USDT, at
    version 1, seen by a worker that has not started ... *)
Definition stored_world : World :=
  set_db (with_account_balances empty_db [mkBalanceRow 1 "USDT" 100 0 1 0]) empty_world.

(** ... and by a running worker. *)
Definition funded_world : World := set_running true stored_world.

(** A running worker over an empty store. *)
Definition fresh_world : World := set_running true empty_world.

(** The records of the topic as the consumer receives them: the offset is
    the position in the log. *)
Definition records_of_topic (topic : list (string * BalanceChangeRequest)) : list Message :=
  imap (fun i record => mkMessage (Z.of_nat i) (fst record) (Some (snd record))) topic.

Definition example_body (transactionId : string) (type : Z) (amount : Z) : RESTServer.Body :=
  RESTServer.mkBody (Some transactionId) (Some 1) (Some "user-1") (Some "USDT") (Some type)
    (Some (RESTServer.AmountNumber amount)).

Definition second_env : Env :=
  mkEnv 2000 3 false false false false "2000-e2" "consumer-A" 5000 (fun _ => None).

(** ** More inputs: a failing store, and a lease that changes hands *)


Definition boot_env : Env :=
  mkEnv 0 3 false false false false "0-e0" "consumer-A" 5000 (fun _ => None).

Definition rival_env : Env :=
  mkEnv 6000 3 false false false false "6000-e0" "consumer-B" 5000 (fun _ => None).

Definition renew_env : Env :=
  mkEnv 6100 3 false false false false "6100-e0" "consumer-A" 5000 (fun _ => None).

Definition late_env : Env :=
  mkEnv 6200 3 false false false false "6200-e1" "consumer-A" 5000 (fun _ => None).

(** Worker A boots as in [index.ts]: it acquires the lock at time 0, marks
    leader election as enabled and starts the consumer. *)
Definition leader_world : World :=
  fst ((LeaderElection.acquireLock boot_env >>
        LeaderElection.enableLeaderElection >>
        BatchConsumer.start) stored_world).

(** Another process runs [acquireLock] against the same database. *)
Definition other_worker_acquires (env : Env) (d : DB) : DB :=
  w_db (fst (LeaderElection.acquireLock env (set_db d empty_world))).

(** At time 6000 the lease of A (TTL 5000) has expired and worker B takes
    it; A has not noticed yet. *)
Definition taken_over_world : World :=
  set_db (other_worker_acquires rival_env (w_db leader_world)) leader_world.

(** At time 6100 the renewal timer of A fires; [renewLock] fails and clears
    [isLeader]. *)
Definition deposed_world : World :=
  fst (LeaderElection.renewLock renew_env taken_over_world).

Definition deposit_5 : Message :=
  mkMessage 3 "user-1" (Some (example_request "t7" DEPOSIT 5)).

(** * More of the sources *)

(** ** cache/memory.ts: the batch operations *)

Module BalanceCacheBatch.

(** An element of the argument of [batchUpdate]; [frozenDelta] is optional. *)
Record CacheUpdate := mkCacheUpdate {
  cu_accountId : Z;
  cu_currencyCode : string;
  cu_availableDelta : Decimal;
  cu_frozenDelta : option Decimal
}.

(** [batchUpdate]: the loop calls [update] for each element and pushes the
    balance it returns; an exception of [update] is rethrown as it is.
    [results] is the array built so far. *)
Fixpoint batchUpdate (now : Z) (updates : list CacheUpdate) (results : list Balance)
  : M (list Balance) :=
  match updates with
  | [] => ret results
  | update :: rest =>
      let* balance :=
        BalanceCache.update now (cu_accountId update) (cu_currencyCode update)
          (cu_availableDelta update) (default 0 (cu_frozenDelta update)) in
      batchUpdate now rest (results ++ [balance])
  end.

(** [batchSet]: every balance is stored under its own key. *)
Definition batchSet (balances : list Balance) : M unit :=
  for_each balances
    (fun balance => BalanceCache.set (accountId balance) (currencyCode balance) balance).

(** [delete]: the result tells whether the key was present. *)
Definition delete (account : Z) (currency : string) : M bool :=
  let* present := gets (fun w => bool_decide (is_Some (w_cache w !! BalanceCache.getKey account currency))) in
  modify (fun w => set_cache (base.delete (BalanceCache.getKey account currency) (w_cache w)) w) >>
  ret present.

End BalanceCacheBatch.

(** ** services/balance.ts: the remaining operations *)

Module BalanceQueries.


(** The rows of SELECT ... WHERE account_id IN (...) AND currency_code IN (...). *)
Definition selected (accountIds : list Z) (currencyCodes : list string) (r : BalanceRow) : bool :=
  existsb (Z.eqb (ab_account_id r)) accountIds
  && existsb (String.eqb (ab_currency_code r)) currencyCodes.

(** [loadBalancesToCache]: with an empty list the statement reads [IN ()],
    which the server rejects; the driver's error is logged and rethrown
    ([ConnectionError] stands for every failure of the driver). *)
Definition loadBalancesToCache (accountIds : list Z) (currencyCodes : list string) : M nat :=
  match accountIds, currencyCodes with
  | [], _ | _, [] => throw ConnectionError
  | _, _ =>
      let* rows := gets (fun w => List.filter (selected accountIds currencyCodes)
                                    (account_balances (w_db w))) in
      let balances :=
        map (fun r => mkBalance (ab_account_id r) (ab_currency_code r) (ab_available r)
                        (ab_frozen r) (ab_version r) (ab_updated_at r)) rows in
      BalanceCacheBatch.batchSet balances >> ret (length balances)
  end.

End BalanceQueries.

(** ** db/consumer-offset.ts: the listing *)

Module ConsumerOffsetListing.

Definition getAllOffsets (consumerGroup topic : string) : M (list OffsetRow) :=
  gets (fun w =>
    List.filter (fun r => String.eqb (co_consumer_group r) consumerGroup
                          && String.eqb (co_topic r) topic)
      (consumer_offsets (w_db w))).

End ConsumerOffsetListing.

(** ** index.ts: how the consumer is brought up *)

Module Main.


End Main.

(** ** cache/redis.ts: the snapshot store and its last-write-wins script *)

Module RedisCache.

(** The [value] field of a hash: the JSON text of available, frozen and
    version, kept as the three fields. *)
Record Snapshot := mkSnapshot {
  snap_available : Decimal;
  snap_frozen : Decimal;
  snap_version : Z
}.

(** An element of the argument of [batchUpdateBalances]. *)
Record RedisUpdate := mkRedisUpdate {
  ru_accountId : Z;
  ru_currencyCode : string;
  ru_balance : Snapshot;
  ru_timestamp : Z
}.

(** The key `${accountId}:${currencyCode}`. *)
Definition key (update : RedisUpdate) : Z * string :=
  (ru_accountId update, ru_currencyCode update).

(** [tonumber(current[2] or 0)]: the stored timestamp, 0 for a missing hash. *)
Definition stored_timestamp (store : gmap (Z * string) (Snapshot * Z)) (k : Z * string) : Z :=
  match store !! k with
  | Some (_, timestamp) => timestamp
  | None => 0
  end.

(** LWW_SCRIPT: HMSET and 1 when the stored timestamp is strictly below the
    new one, else 0. *)
Definition LWW_SCRIPT (k : Z * string) (new_value : Snapshot) (new_timestamp : Z)
  (store : gmap (Z * string) (Snapshot * Z)) : gmap (Z * string) (Snapshot * Z) * Z :=
  if stored_timestamp store k <? new_timestamp
  then (<[k := (new_value, new_timestamp)]> store, 1)
  else (store, 0).

(** The pipeline of [batchUpdateBalances]: one script call per update, in
    order; the result counts the calls that answered 1. *)
Fixpoint batchUpdateBalances (updates : list RedisUpdate)
  (store : gmap (Z * string) (Snapshot * Z)) : gmap (Z * string) (Snapshot * Z) * nat :=
  match updates with
  | [] => (store, 0%nat)
  | update :: rest =>
      let r := LWW_SCRIPT (key update) (ru_balance update) (ru_timestamp update) store in
      let r' := batchUpdateBalances rest (fst r) in
      (fst r', ((if (snd r =? 1)%Z then 1 else 0) + snd r')%nat)
  end.

(** [getBalance]: the stored value and timestamp, or null. *)
Definition getBalance (account : Z) (currency : string)
  (store : gmap (Z * string) (Snapshot * Z)) : option (Snapshot * Z) :=
  store !! (account, currency).

End RedisCache.

(** ** workers/redis-updater.ts *)

Module RedisUpdater.

(** An element of [updateQueue]. *)
Record QueuedUpdate := mkQueuedUpdate {
  qu_accountId : Z;
  qu_currencyCode : string;
  qu_balance : Balance
}.

(** The worker thread: the message is mapped to updates (the timestamp is
    the balance's [updatedAt]) and written with [batchUpdateBalances]; the
    answer posted back holds [processed] and [updated]. *)
Definition redisUpdates (updates : list QueuedUpdate) : list RedisCache.RedisUpdate :=
  map (fun update =>
         RedisCache.mkRedisUpdate (qu_accountId update) (qu_currencyCode update)
           (RedisCache.mkSnapshot (available (qu_balance update)) (frozen (qu_balance update))
              (version (qu_balance update)))
           (updatedAt (qu_balance update))) updates.

Definition onMessage (updates : list QueuedUpdate)
  (store : gmap (Z * string) (RedisCache.Snapshot * Z))
  : gmap (Z * string) (RedisCache.Snapshot * Z) * (nat * nat) :=
  let r := RedisCache.batchUpdateBalances (redisUpdates updates) store in
  (fst r, (length updates, snd r)).

(** The pool of the main thread.  [initializeWorkers] creates either
    [workerCount] workers or, in development without the compiled file,
    none: [initialized] tells which. *)
Record Pool := mkPool {
  initialized : bool;
  workerCount : Z;
  updateQueue : list QueuedUpdate
}.

(** [this.workers.length] *)
Definition workers (pool : Pool) : nat :=
  if initialized pool then Z.to_nat (workerCount pool) else 0%nat.

Definition enqueue (account : Z) (currency : string) (balance : Balance) (pool : Pool) : Pool :=
  mkPool (initialized pool) (workerCount pool)
    (updateQueue pool ++ [mkQueuedUpdate account currency balance]).

Definition batchEnqueue (updates : list QueuedUpdate) (pool : Pool) : Pool :=
  mkPool (initialized pool) (workerCount pool) (updateQueue pool ++ updates).

(** The first loop of [flush]: [shardedUpdates[accountId % workerCount]]
    receives the update.  The remainder has the sign of the account id;
    an index that is no element of the array (a negative one, or NaN when
    [workerCount] is 0) makes [push] fail with a TypeError: [None]. *)
Fixpoint distribute (workerCount : Z) (queue : list QueuedUpdate)
  (shardedUpdates : list (list QueuedUpdate)) : option (list (list QueuedUpdate)) :=
  match queue with
  | [] => Some shardedUpdates
  | update :: rest =>
      let shardIndex := Z.rem (qu_accountId update) workerCount in
      if (workerCount =? 0) || (shardIndex <? 0)
      then None
      else
        match shardedUpdates !! Z.to_nat shardIndex with
        | Some shard =>
            distribute workerCount rest
              (<[Z.to_nat shardIndex := shard ++ [update]]> shardedUpdates)
        | None => None
        end
  end.

(** The second loop of [flush]: worker [i] is sent its shard unless the
    shard is empty. *)
Definition postMessages (workers : nat) (shardedUpdates : list (list QueuedUpdate))
  : list (nat * list QueuedUpdate) :=
  omap (fun i =>
          match shardedUpdates !! i with
          | Some (update :: shard) => Some (i, update :: shard)
          | _ => None
          end) (seq 0 workers).

(** [flush]: the pool afterwards and the messages posted; [None] when the
    first loop throws (the queue is then as it was). *)
Definition flush (pool : Pool) : option (Pool * list (nat * list QueuedUpdate)) :=
  match updateQueue pool with
  | [] => Some (pool, [])
  | _ =>
      match distribute (workerCount pool) (updateQueue pool)
              (replicate (Z.to_nat (workerCount pool)) []) with
      | Some shardedUpdates =>
          Some (mkPool (initialized pool) (workerCount pool) [],
                postMessages (workers pool) shardedUpdates)
      | None => None
      end
  end.

End RedisUpdater.

(** ** utils/metrics.ts: the histograms *)

Module Metrics.

(** The double quote of a label value. *)
Definition quote : string := String (Ascii.ascii_of_nat 34) EmptyString.

(** [getKey]: the name alone without labels, else name{k="v",...}. *)
Definition getKey (name : string) (labels : list (string * string)) : string :=
  match labels with
  | [] => name
  | _ =>
      (name ++ "{" ++
       String.concat "," (map (fun kv => fst kv ++ "=" ++ quote ++ snd kv ++ quote) labels)
       ++ "}")%string
  end.

(** [incrementCounter]: [counters.get(key) || 0] plus the value. *)
Definition incrementCounter (name : string) (labels : list (string * string)) (value : Z)
  (counters : gmap string Z) : gmap string Z :=
  let k := getKey name labels in
  <[k := default 0 (counters !! k) + value]> counters.

(** [observeHistogram]: push, and drop the oldest value past 1000. *)
Definition observeHistogram (name : string) (labels : list (string * string)) (value : Z)
  (histograms : gmap string (list Z)) : gmap string (list Z) :=
  let k := getKey name labels in
  let values := default [] (histograms !! k) ++ [value] in
  <[k := if (1000 <? length values)%nat then tail values else values]> histograms.

End Metrics.

(** ** Notions used by the statements on the lease *)

(** The leader election object a call works on: the singleton, or the one
    that [getLeaderElection] creates. *)
Definition instance_of (env : Env) (w : World) : LeaderElectionState :=
  default (mkLeaderElection (env_consumerId env) false) (w_leaderElectionInstance w).

(** The lock row is held by [holder] and has not expired at [now], in the
    sense of the WHERE clauses of [renewLock] and [checkLockInTransaction]. *)
Definition held_by (holder : string) (now : Z) (locks : option LeaderLockRow) : bool :=
  match locks with
  | Some row => String.eqb (ll_consumer_id row) holder && (now <? ll_expires_at row)
  | None => false
  end.

(** The lock row can be taken at [now], in the sense of the upsert of
    [acquireLock]: there is none, or it expired strictly before [now]. *)
Definition takeable (now : Z) (locks : option LeaderLockRow) : bool :=
  match locks with
  | Some row => ll_expires_at row <? now
  | None => true
  end.

Definition rival_world : World :=
  set_db (with_leader_locks empty_db (Some (mkLeaderLockRow "consumer-B" 500 5500)))
    (set_leaderElectionInstance (Some (mkLeaderElection "consumer-A" true)) empty_world).

(** ** Notions used by the statements on tables and working set *)

(** The unique key of [consumer_offsets]. *)
Definition offset_key (r : OffsetRow) : string * string * Z :=
  (co_consumer_group r, co_topic r, co_partition r).

(** The unique key of [account_balances]. *)
Definition balance_key (r : BalanceRow) : Z * string :=
  (ab_account_id r, ab_currency_code r).

(** The only way [updateBalance] writes a table: the ledger is as before,
    or has one more row, at the end, for a transaction id it did not hold,
    and every other table is as before. *)
Definition ledger_extended_for (request : BalanceChangeRequest) (d d' : DB) : Prop :=
  account_balances d' = account_balances d
  /\ outbox_events d' = outbox_events d
  /\ leader_locks d' = leader_locks d
  /\ consumer_offsets d' = consumer_offsets d
  /\ (balance_transactions d' = balance_transactions d
      \/ exists row,
           bt_transaction_id row = req_transactionId request
           /\ existsb (fun r => String.eqb (bt_transaction_id r) (req_transactionId request))
                (balance_transactions d) = false
           /\ balance_transactions d' = balance_transactions d ++ [row]).

Definition offsets_world : World :=
  set_db (with_consumer_offsets empty_db
            [mkOffsetRow "balance-consumer-group" "balance-changes" 0 41;
             mkOffsetRow "balance-consumer-group" "balance-changes" 1 17]) empty_world.

(** ** More inputs: a working set that holds a balance *)

(** The working set holds the balance (100, 0) of account 1 in USDT. *)
Definition cached_world : World :=
  set_cache {[ (1, "USDT") := mkBalance 1 "USDT" 100 0 1 0 ]} empty_world.


(** ** Notions used by the statements on the commit *)

(** What a commit that succeeds writes: steps 5.1, 5.2 and 6 of
    [batchWriteBalanceUpdates] on the tables. *)
Definition committed (env : Env) (updates : list Update) (d : DB) : DB :=
  let temp := map MySQLBatchWriter.values updates in
  with_balance_transactions
    (with_account_balances d
       (MySQLBatchWriter.insert_missing (env_now env) temp
          (map (MySQLBatchWriter.update_existing (env_now env) temp) (account_balances d))))
    (fold_left MySQLBatchWriter.insert_ledger temp (balance_transactions d)).

(** The commit runs the leader check and the check fails:
    [isLeaderElectionEnabled()] holds and the lock row is not a live row of
    this worker. *)
Definition fenced_out (env : Env) (w : World) : bool :=
  w_leaderElectionEnabled w
  && isLeader (instance_of env w)
  && negb (held_by (consumerId (instance_of env w)) (env_now env) (leader_locks (w_db w))).

(** A balance row before and after a commit: the key is kept, and the row
    is as it was or its version is one higher. *)
Definition balance_row_step (r r' : BalanceRow) : Prop :=
  balance_key r' = balance_key r /\ (r' = r \/ ab_version r' = ab_version r + 1).



(** The key of the balance an update works on. *)
Definition update_key (u : Update) : Z * string :=
  (req_accountId (u_request u), req_currencyCode (u_request u)).

(** ** Notions used by the statements on the consumer *)

(** The ledger holds a row past INIT for the transaction id of [request]:
    the test of the SELECT of [deduplicateMessages] for one id. *)
Definition processed (ledger : list LedgerRow) (request : BalanceChangeRequest) : bool :=
  existsb (fun r => String.eqb (bt_transaction_id r) (req_transactionId request)
                    && negb (BatchConsumer.is_INIT (bt_status r))) ledger.

(** An environment in which the ledger query of [deduplicateMessages] fails. *)
Definition unreachable_env : Env :=
  mkEnv 1000 3 true true false false "1000-e1" "consumer-A" 5000 (fun _ => None).

(** ** Notions used by the statements on the REST handler *)


(** ** Notions used by the statements on the snapshot updater *)

(** The updates of [queue] that [flush] puts into shard [i]. *)
Definition shard_of (workerCount : Z) (i : nat) (queue : list RedisUpdater.QueuedUpdate)
  : list RedisUpdater.QueuedUpdate :=
  List.filter (fun update =>
                 Nat.eqb (Z.to_nat (Z.rem (RedisUpdater.qu_accountId update) workerCount)) i)
    queue.

Section Combinators.

Variable P : World -> Prop.

Lemma preserves_ret {A} (a : A) : preserves P (ret a).
Proof. intros w H. exact H. Qed.

Lemma preserves_throw {A} (e : Error) : preserves P (@throw A e).
Proof. intros w H. exact H. Qed.

Lemma preserves_gets {A} (f : World -> A) : preserves P (gets f).
Proof. intros w H. exact H. Qed.

Lemma preserves_modify (f : World -> World) :
  (forall w, P w -> P (f w)) -> preserves P (modify f).
Proof. intros Hf w H. apply Hf, H. Qed.

Lemma preserves_bind {A B} (m : M A) (k : A -> M B) :
  preserves P m -> (forall a, preserves P (k a)) -> preserves P (bind m k).
Proof.
  intros Hm Hk w H. unfold bind.
  specialize (Hm w H). destruct (m w) as [w' [a|e]]; simpl in *.
  - apply Hk, Hm.
  - exact Hm.
Qed.

Lemma preserves_try_catch {A} (m : M A) (h : Error -> M A) :
  preserves P m -> (forall e, preserves P (h e)) -> preserves P (try_catch m h).
Proof.
  intros Hm Hh w H. unfold try_catch.
  specialize (Hm w H). destruct (m w) as [w' [a|e]]; simpl in *.
  - exact Hm.
  - apply Hh, Hm.
Qed.

Lemma preserves_for_each {A} (l : list A) (body : A -> M unit) :
  (forall x, preserves P (body x)) -> preserves P (for_each l body).
Proof.
  intros Hb. induction l as [|x l IH]; simpl.
  - apply preserves_ret.
  - apply preserves_bind; [apply Hb | intros _; exact IH].
Qed.

End Combinators.

(** One step of a proof of [preserves]: peel the outermost construct. *)
Ltac preserves_step :=
  lazymatch goal with
  | |- preserves _ (ret _) => apply preserves_ret
  | |- preserves _ (throw _) => apply preserves_throw
  | |- preserves _ (gets _) => apply preserves_gets
  | |- preserves _ (bind _ _) => apply preserves_bind; [|intros ?]
  | |- preserves _ (try_catch _ _) => apply preserves_try_catch; [|intros ?]
  | |- preserves _ (for_each _ _) => apply preserves_for_each; intros ?
  | |- preserves _ (if ?b then _ else _) => destruct b
  | |- preserves _ (match ?x with _ => _ end) => destruct x
  end.

(** ** The consumer pipeline keeps whatever its elementary steps keep *)

Section Pipeline.

Variable P : World -> Prop.

(** The bookkeeping fields. *)
Hypothesis P_log : forall l w, P w -> P (set_log l w).
Hypothesis P_retryMap : forall r w, P w -> P (set_retryMap r w).
Hypothesis P_dlq : forall q w, P w -> P (set_dlq q w).
Hypothesis P_redisQueue : forall q w, P w -> P (set_redisQueue q w).
Hypothesis P_leader : forall l w, P w -> P (set_leaderElectionInstance l w).

(** The elementary steps on the working set and on the tables. *)
Hypothesis P_load : forall account currency,
  preserves P (BalanceService.loadBalanceFromDB account currency).
Hypothesis P_set_zero : forall account currency now,
  preserves P (BalanceCache.set account currency (mkBalance account currency 0 0 0 now)).
Hypothesis P_update : forall now account currency availableDelta frozenDelta,
  preserves P (BalanceCache.update now account currency availableDelta frozenDelta).
Hypothesis P_ledger : forall l w,
  P w -> P (set_db (with_balance_transactions (w_db w) l) w).
Hypothesis P_update_existing : forall now temp w,
  P w -> P (set_db (with_account_balances (w_db w)
              (map (MySQLBatchWriter.update_existing now temp) (account_balances (w_db w)))) w).
Hypothesis P_insert_missing : forall now temp w,
  P w -> P (set_db (with_account_balances (w_db w)
              (MySQLBatchWriter.insert_missing now temp (account_balances (w_db w)))) w).
Hypothesis P_rollback : forall w w', P w -> P w' -> P (set_db (w_db w) w').

Lemma logger_preserves ev : preserves P (logger ev).
Proof. apply preserves_modify. intros w H. apply P_log, H. Qed.

Lemma recordTransaction_preserves request ab aa fb fa status msg :
  preserves P (BalanceService.recordTransaction request ab aa fb fa status msg).
Proof.
  apply preserves_modify. intros w H. cbv beta zeta.
  match goal with |- context [if ?b then _ else _] => destruct b end;
    [exact H | apply P_ledger, H].
Qed.

Lemma computeAfter_preserves request ab fb :
  preserves P (BalanceService.computeAfter request ab fb).
Proof. unfold BalanceService.computeAfter. repeat preserves_step. Qed.

Lemma updateBalance_preserves env request :
  preserves P (BalanceService.updateBalance env request).
Proof.
  unfold BalanceService.updateBalance, BalanceService.getBalance.
  preserves_step; [apply P_load|].
  preserves_step.
  { repeat preserves_step. apply P_set_zero. }
  preserves_step; [apply computeAfter_preserves|].
  preserves_step.
  - preserves_step; [apply P_update|].
    preserves_step; [apply recordTransaction_preserves|]. preserves_step.
  - preserves_step; [apply recordTransaction_preserves|]. preserves_step.
Qed.

Lemma sendToDLQ_preserves message : preserves P (ErrorHandler.sendToDLQ message).
Proof.
  unfold ErrorHandler.sendToDLQ. preserves_step.
  - apply preserves_modify. intros w H. apply P_dlq, H.
  - apply logger_preserves.
Qed.

Lemma handleError_preserves env request offset error retryCount :
  preserves P (ErrorHandler.handleError env request offset error retryCount).
Proof.
  unfold ErrorHandler.handleError, ErrorHandler.handleRetryableError.
  preserves_step.
  - preserves_step; [apply sendToDLQ_preserves | preserves_step].
  - preserves_step.
Qed.

Lemma processRequest_preserves env messages request updates :
  preserves P (BatchConsumer.processRequest env messages request updates).
Proof.
  unfold BatchConsumer.processRequest. preserves_step.
  - preserves_step; [apply updateBalance_preserves|].
    preserves_step; [|preserves_step].
    apply preserves_modify. intros w H. apply P_retryMap, H.
  - preserves_step; [preserves_step|].
    preserves_step; [apply handleError_preserves|].
    preserves_step; [|preserves_step].
    preserves_step.
    + apply preserves_modify. intros w H. apply P_retryMap, H.
    + preserves_step; [apply logger_preserves | preserves_step].
Qed.

Lemma processRequests_preserves env messages requests updates :
  preserves P (BatchConsumer.processRequests env messages requests updates).
Proof.
  revert updates. induction requests as [|request rest IH]; intros updates; simpl.
  - preserves_step.
  - preserves_step; [apply processRequest_preserves | apply IH].
Qed.

Lemma parseMessages_preserves messages : preserves P (BatchConsumer.parseMessages messages).
Proof.
  induction messages as [|message rest IH]; simpl.
  - preserves_step.
  - preserves_step.
    + preserves_step; [exact IH | preserves_step].
    + preserves_step; [apply logger_preserves | exact IH].
Qed.

Lemma filterProcessed_preserves processed requests :
  preserves P (BatchConsumer.filterProcessed processed requests).
Proof.
  induction requests as [|request rest IH]; simpl.
  - preserves_step.
  - preserves_step.
    + preserves_step; [apply logger_preserves | exact IH].
    + preserves_step; [exact IH | preserves_step].
Qed.

Lemma deduplicateMessages_preserves env messages :
  preserves P (BatchConsumer.deduplicateMessages env messages).
Proof.
  unfold BatchConsumer.deduplicateMessages.
  preserves_step; [apply parseMessages_preserves|].
  preserves_step; [preserves_step|].
  preserves_step; [preserves_step; preserves_step|].
  preserves_step; [preserves_step|]. apply filterProcessed_preserves.
Qed.

Lemma getLeaderElection_preserves env : preserves P (LeaderElection.getLeaderElection env).
Proof.
  unfold LeaderElection.getLeaderElection.
  preserves_step; [preserves_step|]. preserves_step; [preserves_step|].
  preserves_step; [|preserves_step].
  apply preserves_modify. intros w H. apply P_leader, H.
Qed.

Lemma set_isLeader_preserves b : preserves P (LeaderElection.set_isLeader b).
Proof.
  apply preserves_modify. intros w H.
  destruct (w_leaderElectionInstance w); [apply P_leader, H | exact H].
Qed.

Lemma checkLockInTransaction_preserves env :
  preserves P (LeaderElection.checkLockInTransaction env).
Proof.
  unfold LeaderElection.checkLockInTransaction.
  preserves_step; [apply getLeaderElection_preserves|].
  preserves_step; [preserves_step|].
  preserves_step; [|preserves_step].
  preserves_step; [|preserves_step].
  preserves_step; [apply logger_preserves | apply set_isLeader_preserves].
Qed.

Lemma leaderCheck_preserves env : preserves P (BatchConsumer.leaderCheck env).
Proof.
  unfold BatchConsumer.leaderCheck.
  preserves_step; [apply checkLockInTransaction_preserves|].
  preserves_step; preserves_step.
Qed.

Lemma transaction_preserves {A} (body : M A) :
  preserves P body -> preserves P (MySQLBatchWriter.transaction body).
Proof.
  intros Hb w H. unfold MySQLBatchWriter.transaction.
  specialize (Hb w H). destruct (body w) as [w' [a|e]]; simpl in *.
  - exact Hb.
  - apply P_rollback; assumption.
Qed.

Lemma batchWriteBalanceUpdates_preserves env updates callback :
  (forall cb, callback = Some cb -> preserves P cb) ->
  preserves P (MySQLBatchWriter.batchWriteBalanceUpdates env updates callback).
Proof.
  intros Hcb. unfold MySQLBatchWriter.batchWriteBalanceUpdates.
  destruct updates as [|u updates]; [preserves_step|].
  apply transaction_preserves.
  preserves_step.
  { destruct callback as [cb|]; [apply Hcb; reflexivity | preserves_step]. }
  preserves_step; [preserves_step; preserves_step|].
  preserves_step.
  { apply preserves_modify. intros w H. apply P_update_existing, H. }
  preserves_step.
  { apply preserves_modify. intros w H. apply P_insert_missing, H. }
  preserves_step.
  { apply preserves_modify. intros w H. apply P_ledger, H. }
  apply logger_preserves.
Qed.

Lemma commitUpdates_preserves env updates :
  preserves P (BatchConsumer.commitUpdates env updates).
Proof.
  unfold BatchConsumer.commitUpdates.
  preserves_step; [unfold LeaderElection.isLeaderElectionEnabled; preserves_step|].
  apply batchWriteBalanceUpdates_preserves.
  intros cb Hcb. destruct a; inversion Hcb. apply leaderCheck_preserves.
Qed.

Lemma enqueueRedis_preserves update : preserves P (BatchConsumer.enqueueRedis update).
Proof.
  unfold BatchConsumer.enqueueRedis, BalanceCache.get.
  preserves_step; [|preserves_step].
  preserves_step; [preserves_step|].
  preserves_step; [|preserves_step].
  apply preserves_modify. intros w H. apply P_redisQueue, H.
Qed.

Lemma writeUpdates_preserves env updates :
  preserves P (BatchConsumer.writeUpdates env updates).
Proof.
  unfold BatchConsumer.writeUpdates.
  destruct updates as [|u updates]; [preserves_step|].
  preserves_step; [|apply logger_preserves].
  preserves_step; [apply commitUpdates_preserves|].
  preserves_step. apply enqueueRedis_preserves.
Qed.

Lemma processBatch_preserves env messages partition :
  preserves P (BatchConsumer.processBatch env messages partition).
Proof.
  unfold BatchConsumer.processBatch.
  destruct messages as [|m messages]; [preserves_step|].
  preserves_step; [apply deduplicateMessages_preserves|].
  destruct a as [|r rs]; [preserves_step|].
  preserves_step; [apply processRequests_preserves | apply writeUpdates_preserves].
Qed.

Hypothesis P_resolved : forall r w, P w -> P (set_resolved r w).

Lemma eachBatch_preserves env messages partition :
  preserves P (BatchConsumer.eachBatch env messages partition).
Proof.
  unfold BatchConsumer.eachBatch.
  preserves_step; [preserves_step|].
  preserves_step; [preserves_step|].
  destruct messages as [|m messages]; [preserves_step|].
  preserves_step; [apply processBatch_preserves|].
  preserves_step. apply preserves_modify. intros w H. apply P_resolved, H.
Qed.

End Pipeline.

(** ** Non-negativity is kept by every elementary step *)

Lemma non_negative_empty : non_negative empty_world.
Proof. split; [constructor | apply map_Forall_empty]. Qed.

Lemma non_negative_cache_insert w key b :
  non_negative w -> balance_non_negative b ->
  non_negative (set_cache (<[key := b]> (w_cache w)) w).
Proof.
  intros [Hdb Hc] Hb. split; [exact Hdb|].
  simpl. apply map_Forall_insert_2; assumption.
Qed.

Lemma non_negative_balances w l :
  non_negative w -> Forall row_non_negative l ->
  non_negative (set_db (with_account_balances (w_db w) l) w).
Proof. intros [_ Hc] Hl. split; assumption. Qed.

Lemma loadBalanceFromDB_non_negative account currency :
  preserves non_negative (BalanceService.loadBalanceFromDB account currency).
Proof.
  intros w H. unfold BalanceService.loadBalanceFromDB, bind, gets.
  destruct (List.filter _ _) as [|r rows] eqn:E; simpl; [exact H|].
  apply non_negative_cache_insert; [exact H|].
  assert (Hin : In r (account_balances (w_db w))).
  { eapply proj1, List.filter_In. rewrite E. left. reflexivity. }
  destruct H as [Hdb _]. rewrite List.Forall_forall in Hdb. exact (Hdb r Hin).
Qed.

Lemma cache_update_non_negative now account currency availableDelta frozenDelta :
  preserves non_negative (BalanceCache.update now account currency availableDelta frozenDelta).
Proof.
  intros w H. unfold BalanceCache.update, bind, gets.
  destruct (w_cache w !! _) as [current|]; simpl; [|exact H].
  destruct (_ <? 0) eqn:Ha; simpl; [exact H|].
  destruct (frozen current + frozenDelta <? 0) eqn:Hf; simpl; [exact H|].
  apply non_negative_cache_insert; [exact H|].
  split; simpl; lia.
Qed.

Lemma update_existing_non_negative now temp r :
  row_non_negative r -> row_non_negative (MySQLBatchWriter.update_existing now temp r).
Proof.
  intros Hr. unfold MySQLBatchWriter.update_existing.
  destruct (List.find _ temp) as [t|] eqn:F; [|exact Hr].
  apply List.find_some in F. destruct F as [_ F].
  unfold MySQLBatchWriter.updatable in F.
  apply andb_prop in F. destruct F as [F Hf].
  apply andb_prop in F. destruct F as [_ Ha].
  split; simpl; lia.
Qed.

Lemma insert_ignore_non_negative now ts : forall balances,
  Forall (fun t => 0 <= MySQLBatchWriter.t_available_after t
                   /\ 0 <= MySQLBatchWriter.t_frozen_after t) ts ->
  Forall row_non_negative balances ->
  Forall row_non_negative (fold_left (MySQLBatchWriter.insert_ignore now) ts balances).
Proof.
  induction ts as [|t ts IH]; intros balances Hts Hb; simpl; [exact Hb|].
  inversion Hts as [|? ? Ht Hts']; subst.
  apply IH; [exact Hts'|].
  unfold MySQLBatchWriter.insert_ignore.
  destruct (existsb _ balances); [exact Hb|].
  apply Forall_app. split; [exact Hb|].
  constructor; [|constructor]. exact Ht.
Qed.

Lemma insert_missing_non_negative now temp balances :
  Forall row_non_negative balances ->
  Forall row_non_negative (MySQLBatchWriter.insert_missing now temp balances).
Proof.
  intros Hb. unfold MySQLBatchWriter.insert_missing.
  apply insert_ignore_non_negative; [|exact Hb].
  apply List.Forall_forall. intros t Ht.
  apply List.filter_In in Ht. destruct Ht as [_ Ht].
  unfold MySQLBatchWriter.missing in Ht.
  apply andb_prop in Ht. destruct Ht as [Ht Hf].
  apply andb_prop in Ht. destruct Ht as [_ Ha].
  split; lia.
Qed.

Lemma set_zero_non_negative account currency now :
  preserves non_negative
    (BalanceCache.set account currency (mkBalance account currency 0 0 0 now)).
Proof.
  intros w H. apply non_negative_cache_insert; [exact H | split; simpl; lia].
Qed.

Lemma update_existing_step_non_negative now temp w :
  non_negative w ->
  non_negative (set_db (with_account_balances (w_db w)
    (map (MySQLBatchWriter.update_existing now temp) (account_balances (w_db w)))) w).
Proof.
  intros H. apply non_negative_balances; [exact H|].
  destruct H as [Hdb _]. apply List.Forall_forall. intros r Hr.
  apply in_map_iff in Hr. destruct Hr as [r0 [<- Hr0]].
  apply update_existing_non_negative.
  rewrite List.Forall_forall in Hdb. exact (Hdb r0 Hr0).
Qed.

Lemma insert_missing_step_non_negative now temp w :
  non_negative w ->
  non_negative (set_db (with_account_balances (w_db w)
    (MySQLBatchWriter.insert_missing now temp (account_balances (w_db w)))) w).
Proof.
  intros H. apply non_negative_balances; [exact H|].
  apply insert_missing_non_negative. exact (proj1 H).
Qed.

Lemma rollback_non_negative w w' :
  non_negative w -> non_negative w' -> non_negative (set_db (w_db w) w').
Proof. intros [Hdb _] [_ Hc]. split; assumption. Qed.

(** Discharges the premises of the lemmas of section [Pipeline] for
    [non_negative]. *)
Ltac non_negative_leaf :=
  first
    [ apply loadBalanceFromDB_non_negative
    | apply set_zero_non_negative
    | apply cache_update_non_negative
    | apply update_existing_step_non_negative
    | apply insert_missing_step_non_negative
    | apply rollback_non_negative
    | (intros; assumption) ].

Lemma updateBalance_non_negative env request :
  preserves non_negative (BalanceService.updateBalance env request).
Proof. apply updateBalance_preserves; non_negative_leaf. Qed.

Lemma leaderCheck_non_negative env :
  preserves non_negative (BatchConsumer.leaderCheck env).
Proof. apply leaderCheck_preserves; non_negative_leaf. Qed.

Lemma batchWriteBalanceUpdates_non_negative env updates callback :
  (forall cb, callback = Some cb -> preserves non_negative cb) ->
  preserves non_negative (MySQLBatchWriter.batchWriteBalanceUpdates env updates callback).
Proof. intros H. apply batchWriteBalanceUpdates_preserves; first [exact H | non_negative_leaf]. Qed.

Lemma eachBatch_non_negative env messages partition :
  preserves non_negative (BatchConsumer.eachBatch env messages partition).
Proof. apply eachBatch_preserves; non_negative_leaf. Qed.

Lemma createBalanceChange_non_negative env request :
  preserves non_negative (OutboxService.createBalanceChange env request).
Proof.
  unfold OutboxService.createBalanceChange, OutboxService.insertOutboxEvent,
    OutboxService.sendToKafka, logger.
  repeat first
    [ preserves_step
    | apply preserves_modify; intros w H; exact H ].
Qed.

Lemma changeBalance_non_negative env body :
  preserves non_negative (RESTServer.changeBalance env body).
Proof.
  unfold RESTServer.changeBalance, RESTServer.newDecimal.
  repeat first
    [ apply createBalanceChange_non_negative
    | preserves_step ].
Qed.

(** C3. For every committed balance row and after every operation (an
    update of the working set, a single mutation through [updateBalance],
    a batch commit with or without the leader check, a whole consumed
    batch, a request on the REST surface),
    available >= 0 and frozen >= 0, in the table and in the working set: no
    operation drives a field of a balance negative. *)
Theorem balances_never_negative (env : Env) (w : World) :
  non_negative w ->
  (forall account currency availableDelta frozenDelta,
     non_negative (fst (BalanceCache.update (env_now env) account currency
                          availableDelta frozenDelta w)))
  /\ (forall request, non_negative (fst (BalanceService.updateBalance env request w)))
  /\ (forall updates,
        non_negative (fst (MySQLBatchWriter.batchWriteBalanceUpdates env updates None w))
        /\ non_negative (fst (MySQLBatchWriter.batchWriteBalanceUpdates env updates
                                (Some (BatchConsumer.leaderCheck env)) w)))
  /\ (forall messages partition,
        non_negative (fst (BatchConsumer.eachBatch env messages partition w)))
  /\ (forall body, non_negative (fst (RESTServer.changeBalance env body w))).
Proof.
  intros H. split; [|split; [|split; [|split]]].
  - intros account currency availableDelta frozenDelta.
    apply cache_update_non_negative, H.
  - intros request. apply updateBalance_non_negative, H.
  - intros updates. split.
    + apply batchWriteBalanceUpdates_non_negative; [|exact H].
      intros cb Hcb. discriminate Hcb.
    + apply batchWriteBalanceUpdates_non_negative; [|exact H].
      intros cb Hcb. inversion Hcb. apply leaderCheck_non_negative.
  - intros messages partition. apply eachBatch_non_negative, H.
  - intros body. apply changeBalance_non_negative, H.
Qed.

Lemma balances_never_negative_witness :
  non_negative funded_world
  /\ non_negative
       (fst (BatchConsumer.eachBatch example_env
               [mkMessage 0 "user-1" (Some (example_request "t2" WITHDRAW 150));
                mkMessage 1 "user-1" (Some (example_request "t3" FREEZE 40))] 0 funded_world)).
Proof.
  assert (H : non_negative funded_world).
  { split; [|apply map_Forall_empty].
    constructor; [|constructor]. split; simpl; lia. }
  split; [exact H|].
  exact (proj1 (proj2 (proj2 (proj2 (balances_never_negative example_env funded_world H)))) _ _).
Defined.

(** ** [updateBalance] on a stored balance *)

Lemma loadBalanceFromDB_existing w request row :
  existing_balance w request row ->
  BalanceService.loadBalanceFromDB (req_accountId request) (req_currencyCode request) w
  = (set_cache (<[(req_accountId request, req_currencyCode request) := balance_of_row row]>
                 (w_cache w)) w,
     Ok (Some (balance_of_row row))).
Proof.
  unfold existing_balance, BalanceService.loadBalanceFromDB, bind, gets.
  destruct (List.filter _ _) as [|r rows]; simpl; intros E; [discriminate E|].
  inversion E. reflexivity.
Qed.

Lemma recordTransaction_ok request ab aa fb fa status msg w :
  snd (BalanceService.recordTransaction request ab aa fb fa status msg w) = Ok tt.
Proof. reflexivity. Qed.



(** Running a sequence whose first part is known. *)
Lemma bind_ok {A B} (m : M A) (k : A -> M B) w w' a :
  m w = (w', Ok a) -> bind m k w = k a w'.
Proof. intros E. unfold bind. rewrite E. reflexivity. Qed.

Lemma bind_throw {A B} (m : M A) (k : A -> M B) w w' e :
  m w = (w', Throw e) -> bind m k w = (w', Throw e).
Proof. intros E. unfold bind. rewrite E. reflexivity. Qed.

Lemma try_catch_ok {A} (m : M A) (h : Error -> M A) w w' a :
  m w = (w', Ok a) -> try_catch m h w = (w', Ok a).
Proof. intros E. unfold try_catch. rewrite E. reflexivity. Qed.

Lemma try_catch_throw {A} (m : M A) (h : Error -> M A) w w' e :
  m w = (w', Throw e) -> try_catch m h w = h e w'.
Proof. intros E. unfold try_catch. rewrite E. reflexivity. Qed.






(** ** Fields that the pipeline never writes *)

Section Frame.

Variable P : World -> Prop.

Hypothesis P_log : forall l w, P w -> P (set_log l w).
Hypothesis P_retryMap : forall r w, P w -> P (set_retryMap r w).
Hypothesis P_dlq : forall q w, P w -> P (set_dlq q w).
Hypothesis P_redisQueue : forall q w, P w -> P (set_redisQueue q w).
Hypothesis P_leader : forall l w, P w -> P (set_leaderElectionInstance l w).
Hypothesis P_cache : forall c w, P w -> P (set_cache c w).
Hypothesis P_balances : forall l w, P w -> P (set_db (with_account_balances (w_db w) l) w).
Hypothesis P_ledger : forall l w, P w -> P (set_db (with_balance_transactions (w_db w) l) w).
Hypothesis P_rollback : forall w w', P w -> P w' -> P (set_db (w_db w) w').

Lemma loadBalanceFromDB_frame account currency :
  preserves P (BalanceService.loadBalanceFromDB account currency).
Proof.
  unfold BalanceService.loadBalanceFromDB, BalanceCache.set.
  preserves_step; [preserves_step|].
  preserves_step; [preserves_step|].
  preserves_step; [|preserves_step].
  apply preserves_modify. intros w H. apply P_cache, H.
Qed.

Lemma cache_set_frame account currency balance :
  preserves P (BalanceCache.set account currency balance).
Proof. apply preserves_modify. intros w H. apply P_cache, H. Qed.

Lemma cache_update_frame now account currency availableDelta frozenDelta :
  preserves P (BalanceCache.update now account currency availableDelta frozenDelta).
Proof.
  unfold BalanceCache.update.
  preserves_step; [preserves_step|].
  preserves_step; [|preserves_step].
  preserves_step; [preserves_step|].
  preserves_step; [preserves_step|].
  preserves_step; [|preserves_step].
  apply preserves_modify. intros w H. apply P_cache, H.
Qed.


Lemma processBatch_frame env messages partition :
  preserves P (BatchConsumer.processBatch env messages partition).
Proof.
  apply processBatch_preserves;
    first [ exact P_log | exact P_retryMap | exact P_dlq | exact P_redisQueue
          | exact P_leader | exact P_ledger | exact P_rollback
          | apply loadBalanceFromDB_frame | intros; apply cache_set_frame
          | apply cache_update_frame | intros; apply P_balances; assumption ].
Qed.

Lemma batchWriteBalanceUpdates_frame env updates callback :
  (forall cb, callback = Some cb -> preserves P cb) ->
  preserves P (MySQLBatchWriter.batchWriteBalanceUpdates env updates callback).
Proof.
  intros H. apply batchWriteBalanceUpdates_preserves;
    first [ exact H | exact P_log | exact P_ledger | exact P_rollback
          | intros; apply P_balances; assumption ].
Qed.

Lemma leaderCheck_frame env : preserves P (BatchConsumer.leaderCheck env).
Proof. apply leaderCheck_preserves; first [ exact P_log | exact P_leader ]. Qed.


Hypothesis P_resolved : forall r w, P w -> P (set_resolved r w).

Lemma eachBatch_frame env messages partition :
  preserves P (BatchConsumer.eachBatch env messages partition).
Proof.
  apply eachBatch_preserves;
    first [ exact P_log | exact P_retryMap | exact P_dlq | exact P_redisQueue
          | exact P_leader | exact P_ledger | exact P_rollback | exact P_resolved
          | apply loadBalanceFromDB_frame | intros; apply cache_set_frame
          | apply cache_update_frame | intros; apply P_balances; assumption ].
Qed.

End Frame.

(** ** Offsets: what the poll loop resolves and what the tables keep *)



Lemma processBatch_resolved env messages partition w :
  w_resolved (fst (BatchConsumer.processBatch env messages partition w)) = w_resolved w.
Proof.
  apply (processBatch_frame (fun w' => w_resolved w' = w_resolved w));
    try (intros; assumption). reflexivity.
Qed.

Lemma resolve_all messages : forall w,
  for_each messages (fun msg => BatchConsumer.resolveOffset (msg_offset msg)) w
  = (set_resolved (w_resolved w ++ map msg_offset messages) w, Ok tt).
Proof.
  induction messages as [|m ms IH]; intros w; simpl.
  - rewrite app_nil_r. destruct w. reflexivity.
  - erewrite bind_ok; [|reflexivity]. rewrite IH. simpl.
    rewrite <- app_assoc. reflexivity.
Qed.







(** ** The stored consumer offsets *)

Lemma eachBatch_consumer_offsets env messages partition w :
  consumer_offsets (w_db (fst (BatchConsumer.eachBatch env messages partition w)))
  = consumer_offsets (w_db w).
Proof.
  apply (eachBatch_frame (fun w' => consumer_offsets (w_db w') = consumer_offsets (w_db w)));
    try (intros; assumption). reflexivity.
Qed.

Lemma batchWriteBalanceUpdates_consumer_offsets env updates callback w :
  callback = None \/ callback = Some (BatchConsumer.leaderCheck env) ->
  consumer_offsets (w_db (fst (MySQLBatchWriter.batchWriteBalanceUpdates env updates callback w)))
  = consumer_offsets (w_db w).
Proof.
  intros Hcb.
  apply (batchWriteBalanceUpdates_frame
           (fun w' => consumer_offsets (w_db w') = consumer_offsets (w_db w)));
    try (intros; assumption); [|reflexivity].
  intros cb E. destruct Hcb as [-> | ->]; inversion E.
  apply leaderCheck_frame; intros; assumption.
Qed.

Lemma eachBatch_resolved env messages partition w :
  match BatchConsumer.eachBatch env messages partition w with
  | (w', Ok _) =>
      w_resolved w' = w_resolved w ++ (if w_running w then map msg_offset messages else [])
  | (w', Throw _) => w_resolved w' = w_resolved w
  end.
Proof.
  unfold BatchConsumer.eachBatch.
  erewrite bind_ok; [|reflexivity].
  destruct (w_running w); cbv beta iota zeta delta [negb].
  - destruct messages as [|m messages].
    + simpl. rewrite app_nil_r. reflexivity.
    + pose proof (processBatch_resolved env (m :: messages) partition w) as Hr.
      unfold bind at 1.
      destruct (BatchConsumer.processBatch env (m :: messages) partition w) as [w1 [[]|e]];
        cbn [fst] in Hr.
      * rewrite resolve_all. cbn. rewrite Hr. reflexivity.
      * exact Hr.
  - simpl. rewrite app_nil_r. reflexivity.
Qed.

(** C8, as the code has it.  The commit transaction of a batch, with or
    without the leader check, and the whole handling of a batch leave the
    stored consumer offsets as they were.  Offsets advance on the log
    client only: when the handler returns, the poll loop has resolved the
    offset of every record of the batch, the last one included.  On start
    the worker subscribes to the topic from the beginning, whatever the
    table of stored offsets holds. *)
Theorem stored_offset_is_never_written (env : Env) (messages : list Message) (partition : Z)
  (updates : list Update) (offsets : list OffsetRow) (w : World) :
  consumer_offsets (w_db (fst (MySQLBatchWriter.batchWriteBalanceUpdates env updates None w)))
  = consumer_offsets (w_db w)
  /\ consumer_offsets (w_db (fst (MySQLBatchWriter.batchWriteBalanceUpdates env updates
                                    (Some (BatchConsumer.leaderCheck env)) w)))
     = consumer_offsets (w_db w)
  /\ consumer_offsets (w_db (fst (BatchConsumer.eachBatch env messages partition w)))
     = consumer_offsets (w_db w)
  /\ match BatchConsumer.eachBatch env messages partition w with
     | (w', Ok _) =>
         w_resolved w' = w_resolved w ++ (if w_running w then map msg_offset messages else [])
     | (w', Throw _) => w_resolved w' = w_resolved w
     end
  /\ w_subscription (fst (BatchConsumer.start w))
     = (if w_running w then w_subscription w
        else Some (mkSubscription BatchConsumer.balanceChanges true))
  /\ fst (BatchConsumer.start (set_db (with_consumer_offsets (w_db w) offsets) w))
     = set_db (with_consumer_offsets (w_db w) offsets) (fst (BatchConsumer.start w)).
Proof.
  split; [|split; [|split; [|split; [|split]]]].
  - apply batchWriteBalanceUpdates_consumer_offsets. left. reflexivity.
  - apply batchWriteBalanceUpdates_consumer_offsets. right. reflexivity.
  - apply eachBatch_consumer_offsets.
  - apply eachBatch_resolved.
  - unfold BatchConsumer.start, bind, gets. simpl. destruct (w_running w); reflexivity.
  - unfold BatchConsumer.start, bind, gets. simpl. destruct (w_running w); reflexivity.
Qed.

(** C8, as stated, fails: a batch whose last record has offset 3 is
    committed (the balance row is updated, the ledger row written), and
    the stored offset of (group, topic, partition 0) is still absent. *)
Lemma committed_batch_stores_no_offset :
  w_log (fst (BatchConsumer.eachBatch example_env [deposit_5] 0 funded_world))
  = [LogBatchWritten 1]
  /\ account_balances (w_db (fst (BatchConsumer.eachBatch example_env [deposit_5] 0 funded_world)))
     = [mkBalanceRow 1 "USDT" 105 0 2 1000]
  /\ snd (ConsumerOffsetManager.getOffset BatchConsumer.consumerGroup
            BatchConsumer.balanceChanges 0
            (fst (BatchConsumer.eachBatch example_env [deposit_5] 0 funded_world)))
     = Ok None
  /\ snd (ConsumerOffsetManager.getOffset BatchConsumer.consumerGroup
            BatchConsumer.balanceChanges 0
            (fst (BatchConsumer.eachBatch example_env [deposit_5] 0 funded_world)))
     <> Ok (Some 3).
Proof. vm_compute. repeat split. discriminate. Qed.

(** ** The leader check of a commit *)

(** Without a callback the writer runs no check at all: the leader lock
    table plays no part in the outcome. *)
Lemma commitUpdates_unfenced env updates w :
  snd (LeaderElection.isLeaderElectionEnabled w) = Ok false ->
  BatchConsumer.commitUpdates env updates w
  = MySQLBatchWriter.batchWriteBalanceUpdates env updates None w.
Proof.
  intros H. unfold LeaderElection.isLeaderElectionEnabled, gets in H.
  cbn [snd] in H. injection H as H'.
  unfold BatchConsumer.commitUpdates.
  erewrite bind_ok; [|reflexivity]. rewrite H'. reflexivity.
Qed.

(** C1 at a failing input.  Worker A has been leader (it acquired the lock
    and leader election is enabled for it); its lease expired, worker B
    holds the lock until time 11000, and the renewal of A has cleared
    [isLeader].  At time 6200 a batch of A is committed all the same: the
    balance row and the ledger row are written and no check is logged.
    As long as [isLeader] is still set, the same batch in the same store
    is rolled back by the check. *)
Theorem commit_without_fence_after_lease_loss :
  snd (LeaderElection.acquireLock boot_env stored_world) = Ok true
  /\ w_leaderElectionEnabled deposed_world = true
  /\ w_leaderElectionInstance deposed_world = Some (mkLeaderElection "consumer-A" false)
  /\ leader_locks (w_db deposed_world) = Some (mkLeaderLockRow "consumer-B" 6000 11000)
  /\ snd (LeaderElection.isLeaderElectionEnabled deposed_world) = Ok false
  /\ account_balances (w_db (fst (BatchConsumer.eachBatch late_env [deposit_5] 0 deposed_world)))
     = [mkBalanceRow 1 "USDT" 105 0 2 6200]
  /\ map bt_transaction_id
       (balance_transactions (w_db (fst (BatchConsumer.eachBatch late_env [deposit_5] 0
                                           deposed_world))))
     = ["t7"]
  /\ w_log (fst (BatchConsumer.eachBatch late_env [deposit_5] 0 deposed_world))
     = [LogLeaderLockLost "consumer-A"; LogBatchWritten 1]
  /\ account_balances (w_db (fst (BatchConsumer.eachBatch late_env [deposit_5] 0
                                    taken_over_world)))
     = [mkBalanceRow 1 "USDT" 100 0 1 0]
  /\ w_log (fst (BatchConsumer.eachBatch late_env [deposit_5] 0 taken_over_world))
     = [LogLeaderLockLostInTransaction "consumer-A"; LogBatchWriteFailed LostLeaderLock].
Proof. vm_compute. repeat split. Qed.

(** ** Records of one batch with the same transaction id *)

Lemma filterProcessed_nil requests w :
  BatchConsumer.filterProcessed [] requests w = (w, Ok requests).
Proof.
  induction requests as [|r rs IH]; simpl; [reflexivity|].
  erewrite bind_ok; [|exact IH]. reflexivity.
Qed.


(** ** The outbox and the REST surface *)

(** The insert into the outbox fails on a duplicate only when the event id
    itself is taken; the transaction id of the request is not consulted. *)
Lemma createBalanceChange_fresh_event env request w :
  env_outboxFault env = false ->
  existsb (fun r => String.eqb (ob_event_id r) (env_eventId env)) (outbox_events (w_db w))
  = false ->
  snd (OutboxService.createBalanceChange env request w) = Ok (env_eventId env).
Proof.
  intros Hfault Hfresh.
  unfold OutboxService.createBalanceChange, OutboxService.insertOutboxEvent,
    OutboxService.sendToKafka.
  unfold try_catch at 1. unfold bind at 1. rewrite Hfault.
  unfold bind at 1. unfold gets at 1. rewrite Hfresh.
  unfold modify at 1. unfold bind at 1.
  unfold try_catch. destruct (env_kafkaFault env); reflexivity.
Qed.

(** C5 at a failing input.  The request "t1" is accepted, published and
    processed: its ledger row is in a terminal state.  The same request is
    submitted again: the REST surface answers 200 with a new event id, a
    second outbox row and a second record exist.  The consumer then drops
    the second record as a duplicate: balance and ledger stay. *)
Theorem repeated_transaction_is_accepted_again :
  let w1 := fst (RESTServer.changeBalance example_env (example_body "t1" 0 100) fresh_world) in
  let w2 := fst (BatchConsumer.eachBatch example_env (records_of_topic (w_topic w1)) 0 w1) in
  let w3 := fst (RESTServer.changeBalance second_env (example_body "t1" 0 100) w2) in
  let w4 := fst (BatchConsumer.eachBatch second_env
                   (skipn 1 (records_of_topic (w_topic w3))) 0 w3) in
  snd (RESTServer.changeBalance example_env (example_body "t1" 0 100) fresh_world)
  = Ok (RESTServer.Status200 "t1" "1000-e1")
  /\ map (fun r => (bt_transaction_id r, bt_status r)) (balance_transactions (w_db w2))
     = [("t1", SUCCESS)]
  /\ snd (RESTServer.changeBalance second_env (example_body "t1" 0 100) w2)
     = Ok (RESTServer.Status200 "t1" "2000-e2")
  /\ map (fun r => (ob_event_id r, req_transactionId (ob_payload r))) (outbox_events (w_db w3))
     = [("1000-e1", "t1"); ("2000-e2", "t1")]
  /\ map (fun r => req_transactionId (snd r)) (w_topic w3) = ["t1"; "t1"]
  /\ w_log w4 = [LogBatchWritten 1; LogDuplicateSkipped "t1"]
  /\ account_balances (w_db w4) = account_balances (w_db w2)
  /\ balance_transactions (w_db w4) = balance_transactions (w_db w2).
Proof. vm_compute. repeat split. Qed.

(** ** Rejected records *)

(** Every exception is a plain [Error]: below the retry limit the error
    handler asks for a retry, whatever was thrown. *)
Lemma shouldRetry_below_limit env retryCount error :
  (retryCount < env_maxRetries env)%nat ->
  ErrorHandler.shouldRetry env retryCount error = true.
Proof.
  intros H. unfold ErrorHandler.shouldRetry.
  destruct (Nat.leb_spec (env_maxRetries env) retryCount) as [Hle|_]; [lia|].
  reflexivity.
Qed.

(** C6 at a failing input.  From (100, 0) a withdraw of 150 is rejected for
    insufficient funds, and a withdraw on an account without balance is
    rejected as unknown: no ledger row is recorded for either, each is
    marked for a retry, nothing goes to the dead-letter topic, and the
    offsets are resolved.  A rejection raised by the working set (a
    deposit of -150) does record a failed ledger row. *)
Theorem rejected_record_leaves_no_ledger_row :
  let insufficient := mkMessage 0 "user-1" (Some (example_request "t2" WITHDRAW 150)) in
  let unknown := mkMessage 1 "user-2" (Some (mkRequest "t3" 2 "user-2" "USDT" WITHDRAW 10)) in
  let overdrawn := mkMessage 2 "user-1" (Some (example_request "t4" DEPOSIT (-150))) in
  let w' := fst (BatchConsumer.eachBatch example_env [insufficient; unknown] 0 funded_world) in
  let w'' := fst (BatchConsumer.eachBatch example_env [overdrawn] 0 funded_world) in
  snd (BalanceService.updateBalance example_env (example_request "t2" WITHDRAW 150) funded_world)
  = Throw (InsufficientBalance 100 150)
  /\ balance_transactions (w_db w') = []
  /\ account_balances (w_db w') = account_balances (w_db funded_world)
  /\ w_retryMap w' !! "t2" = Some 1%nat
  /\ w_retryMap w' !! "t3" = Some 1%nat
  /\ w_dlq w' = []
  /\ w_log w' = [LogWillBeRetried "t2" 1; LogWillBeRetried "t3" 1]
  /\ w_resolved w' = [0; 1]
  /\ map (fun r => (bt_transaction_id r, bt_status r)) (balance_transactions (w_db w''))
     = [("t4", FAILED)].
Proof. vm_compute. repeat split. Qed.

(** ** The first deposit *)

(** C9 at a failing input.  A deposit of 100 on the unknown (1, USDT)
    succeeds: one ledger row in state SUCCESS, before 0 and after 100, and
    a committed balance with available 100 and frozen 0.  The committed row
    carries version 0, and so does the balance a query returns; the
    working set carries version 1. *)
Theorem first_deposit_is_stored_at_version_zero :
  let w' := fst (BatchConsumer.eachBatch example_env
                   [mkMessage 0 "user-1" (Some (example_request "t1" DEPOSIT 100))] 0
                   fresh_world) in
  account_balances (w_db w') = [mkBalanceRow 1 "USDT" 100 0 0 1000]
  /\ snd (BalanceService.getBalance 1 "USDT" w') = Ok (Some (mkBalance 1 "USDT" 100 0 0 1000))
  /\ w_cache w' !! (1, "USDT") = Some (mkBalance 1 "USDT" 100 0 1 1000)
  /\ balance_transactions (w_db w')
     = [mkLedgerRow 1 "USDT" "t1" DEPOSIT 100 0 100 0 0 SUCCESS None].
Proof. vm_compute. repeat split. Qed.

(** ** Negative amounts *)

(** C10.  The REST surface accepts every negative amount: the answer is
    200 with the event id.  In particular a deposit of -5 on the balance
    (100, 0) is accepted, published, applied and committed: available
    goes from 100 down to 95, the ledger row is in state SUCCESS, and
    nothing is rejected, retried or sent to the dead-letter topic. *)
Theorem negative_amount_is_accepted_and_applied :
  (forall p : positive,
     snd (RESTServer.changeBalance example_env (example_body "t9" 0 (Z.neg p)) funded_world)
     = Ok (RESTServer.Status200 "t9" "1000-e1"))
  /\ exists (body : RESTServer.Body) (request : BalanceChangeRequest),
       RESTServer.amount body = Some (RESTServer.AmountNumber (-5))
       /\ req_type request = DEPOSIT
       /\ req_amount request < 0
       /\ let w1 := fst (RESTServer.changeBalance example_env body funded_world) in
          let w2 := fst (BatchConsumer.eachBatch example_env (records_of_topic (w_topic w1)) 0 w1) in
          snd (RESTServer.changeBalance example_env body funded_world)
          = Ok (RESTServer.Status200 "t9" "1000-e1")
          /\ w_topic w1 = [("user-1", request)]
          /\ snd (BalanceService.updateBalance example_env request w1)
             = Ok (mkResult "t9" 1 "USDT" true 100 95 0 0 None 1000)
          /\ map ab_available (account_balances (w_db w1)) = [100]
          /\ map ab_available (account_balances (w_db w2)) = [95]
          /\ 95 < 100
          /\ map (fun r => (bt_transaction_id r, bt_amount r, bt_status r))
               (balance_transactions (w_db w2))
             = [("t9", -5, SUCCESS)]
          /\ w_log w2 = [LogBatchWritten 1]
          /\ w_dlq w2 = []
          /\ w_retryMap w2 = ∅.
Proof.
  split.
  - intros p. reflexivity.
  - exists (example_body "t9" 0 (-5)), (example_request "t9" DEPOSIT (-5)).
    vm_compute. repeat split.
Qed.

(** ** Two general facts behind the examples above *)

Lemma parseMessages_result messages : forall w,
  snd (BatchConsumer.parseMessages messages w) = Ok (omap msg_value messages).
Proof.
  induction messages as [|m ms IH]; intros w; simpl; [reflexivity|].
  destruct (msg_value m) as [request|]; simpl.
  - unfold bind. specialize (IH w).
    destruct (BatchConsumer.parseMessages ms w) as [w' [requests|e]]; simpl in *.
    + injection IH as ->. reflexivity.
    + discriminate IH.
  - unfold bind, logger, modify. apply IH.
Qed.

Lemma parseMessages_db messages w :
  w_db (fst (BatchConsumer.parseMessages messages w)) = w_db w.
Proof.
  apply (parseMessages_preserves (fun w' => w_db w' = w_db w)); [|reflexivity].
  intros l w0 H. exact H.
Qed.

(** [deduplicateMessages] drops a record only when its transaction id has a
    ledger row past INIT: when none of the ids of the batch has one, every
    parsed record is returned, however often its id occurs in the batch. *)
Lemma deduplicateMessages_keeps_repeats env messages w :
  env_dedupFault env = false ->
  BatchConsumer.processedIds
    (remove_dups (map req_transactionId (omap msg_value messages)))
    (balance_transactions (w_db w)) = [] ->
  snd (BatchConsumer.deduplicateMessages env messages w) = Ok (omap msg_value messages).
Proof.
  intros Hfault Hnone. unfold BatchConsumer.deduplicateMessages.
  pose proof (parseMessages_result messages w) as Hr.
  pose proof (parseMessages_db messages w) as Hdb.
  unfold bind at 1.
  destruct (BatchConsumer.parseMessages messages w) as [w1 [requests|e]];
    cbn [fst snd] in *; [|discriminate Hr].
  injection Hr as ->.
  destruct (remove_dups (map req_transactionId (omap msg_value messages))) as [|i ids] eqn:Hids.
  - destruct (omap msg_value messages) as [|r rs]; [reflexivity|].
    simpl in Hids. destruct (decide_rel _ _ _) as [Hin|_]; [|discriminate Hids].
    apply elem_of_remove_dups in Hin. rewrite Hids in Hin. inversion Hin.
  - rewrite Hfault. erewrite bind_ok; [|reflexivity].
    erewrite bind_ok; [|reflexivity].
    rewrite Hdb, Hnone. rewrite filterProcessed_nil. reflexivity.
Qed.

Lemma loadBalanceFromDB_returns account currency w :
  w_db (fst (BalanceService.loadBalanceFromDB account currency w)) = w_db w
  /\ w_retryMap (fst (BalanceService.loadBalanceFromDB account currency w)) = w_retryMap w
  /\ exists loaded, snd (BalanceService.loadBalanceFromDB account currency w) = Ok loaded.
Proof.
  unfold BalanceService.loadBalanceFromDB, bind, gets.
  destruct (List.filter _ _) as [|r rows]; simpl; eauto.
Qed.

(** When [updateBalance] throws, it has written nothing but the working
    set: the throw comes before any ledger row is recorded. *)
Lemma updateBalance_throws_early env request w w' e :
  BalanceService.updateBalance env request w = (w', Throw e) ->
  w_db w' = w_db w /\ w_retryMap w' = w_retryMap w.
Proof.
  unfold BalanceService.updateBalance, BalanceService.getBalance.
  destruct (loadBalanceFromDB_returns (req_accountId request) (req_currencyCode request) w)
    as (Hdb & Hretry & loaded & Hload).
  unfold bind at 1.
  destruct (BalanceService.loadBalanceFromDB _ _ w) as [w1 r1]; cbn [fst snd] in *.
  subst r1.
  assert (Hcurrent : forall w2 r2,
    (match loaded with
     | Some b => ret b
     | None =>
         if BalanceService.is_deposit (req_type request) && (0 <=? req_amount request)
         then BalanceCache.set (req_accountId request) (req_currencyCode request)
                (mkBalance (req_accountId request) (req_currencyCode request) 0 0 0 (env_now env))
              >> ret (mkBalance (req_accountId request) (req_currencyCode request) 0 0 0
                        (env_now env))
         else throw (BalanceNotFound (req_accountId request) (req_currencyCode request))
     end) w1 = (w2, r2) -> w_db w2 = w_db w1 /\ w_retryMap w2 = w_retryMap w1).
  { intros w2 r2. destruct loaded as [b|].
    - intros E. inversion E. split; reflexivity.
    - destruct (_ && _); intros E; inversion E; split; reflexivity. }
  unfold bind at 1.
  match goal with |- context [match ?m w1 with _ => _ end] =>
    destruct (Hcurrent (fst (m w1)) (snd (m w1)) (surjective_pairing _)) as [Hdb2 Hretry2];
    clear Hcurrent; destruct (m w1) as [w2 [current|e2]] end; cbn [fst snd] in *.
  - unfold bind at 1.
    destruct (BalanceService.computeAfter request (available current) (frozen current) w2)
      as [w3 [after|e3]] eqn:E3.
    + intros E. exfalso. revert E. unfold try_catch.
      match goal with |- context [match ?m w3 with _ => _ end] =>
        destruct (m w3) as [w4 [res|e4]] end; discriminate.
    + intros E. inversion E; subst.
      assert (w' = w2) as ->.
      { revert E3. unfold BalanceService.computeAfter.
        destruct (req_type request); simpl;
          repeat match goal with |- context [if ?b then _ else _] => destruct b end;
          intros E3; inversion E3; reflexivity. }
      split; congruence.
  - intros E. inversion E; subst. split; congruence.
Qed.

(** The general form of the rejected-record examples: whatever
    [updateBalance] throws, as long as the retry count of the transaction
    id is below the limit the record yields no update, the tables are left
    as they were, and only the retry count moves. *)
Lemma processRequest_counts_a_retry env messages request updates w w' e :
  BalanceService.updateBalance env request w = (w', Throw e) ->
  (default 0%nat (w_retryMap w !! req_transactionId request) < env_maxRetries env)%nat ->
  snd (BatchConsumer.processRequest env messages request updates w) = Ok updates
  /\ w_db (fst (BatchConsumer.processRequest env messages request updates w)) = w_db w
  /\ w_dlq (fst (BatchConsumer.processRequest env messages request updates w)) = w_dlq w'
  /\ w_retryMap (fst (BatchConsumer.processRequest env messages request updates w))
       !! req_transactionId request
     = Some (S (default 0%nat (w_retryMap w !! req_transactionId request))).
Proof.
  intros Hthrow Hlimit.
  destruct (updateBalance_throws_early _ _ _ _ _ Hthrow) as [Hdb Hretry].
  unfold BatchConsumer.processRequest.
  erewrite try_catch_throw; [|erewrite bind_throw; [reflexivity | exact Hthrow]].
  erewrite bind_ok; [|reflexivity].
  unfold ErrorHandler.handleError, ErrorHandler.handleRetryableError.
  rewrite Hretry. rewrite (shouldRetry_below_limit _ _ _ Hlimit).
  cbv beta iota zeta delta [negb].
  erewrite bind_ok; [|reflexivity]. cbv beta iota zeta.
  cbn. rewrite Hretry. split; [reflexivity|]. split; [exact Hdb|].
  split; [reflexivity|]. apply lookup_insert_eq.
Qed.

(** * The lease *)

Lemma getLeaderElection_run env w :
  LeaderElection.getLeaderElection env w
  = (set_leaderElectionInstance (Some (instance_of env w)) w, Ok (instance_of env w)).
Proof.
  unfold LeaderElection.getLeaderElection, instance_of, bind, gets.
  destruct w as [d c r run s [le|] en res t q rq l]; reflexivity.
Qed.


Lemma set_db_same w : set_db (w_db w) w = w.
Proof. destruct w. reflexivity. Qed.

Lemma acquireLock_run (env : Env) (w : World) :
  let self := consumerId (instance_of env w) in
  let locks := leader_locks (w_db w) in
  snd (LeaderElection.acquireLock env w) = Ok (takeable (env_now env) locks)
  /\ leader_locks (w_db (fst (LeaderElection.acquireLock env w)))
     = (if takeable (env_now env) locks
        then Some (mkLeaderLockRow self (env_now env) (env_now env + env_lockTTL env))
        else locks)
  /\ w_leaderElectionInstance (fst (LeaderElection.acquireLock env w))
     = Some (mkLeaderElection self
               (takeable (env_now env) locks || isLeader (instance_of env w))).
Proof.
  intros self locks. subst self locks.
  unfold LeaderElection.acquireLock.
  erewrite bind_ok; [|apply getLeaderElection_run].
  erewrite bind_ok; [|reflexivity].
  unfold LeaderElection.upsert_lock, takeable.
  cbn [w_db set_leaderElectionInstance].
  destruct (leader_locks (w_db w)) as [row|] eqn:Hlocks.
  - destruct (ll_expires_at row <? env_now env) eqn:Hexp.
    + cbn [fst snd]. erewrite bind_ok; [|reflexivity].
      cbn. rewrite String.eqb_refl. cbn.
      destruct (instance_of env w) as [cid lead]. repeat split.
    + cbn [fst snd]. erewrite bind_ok; [|reflexivity].
      cbn. destruct (instance_of env w) as [cid lead]. repeat split.
  - cbn [fst snd]. erewrite bind_ok; [|reflexivity].
    cbn. rewrite String.eqb_refl. cbn.
    destruct (instance_of env w) as [cid lead]. repeat split.
Qed.


Lemma renewLock_run env w :
  let le := instance_of env w in
  let locks := leader_locks (w_db w) in
  let ok := isLeader le && held_by (consumerId le) (env_now env) locks in
  snd (LeaderElection.renewLock env w) = Ok ok
  /\ leader_locks (w_db (fst (LeaderElection.renewLock env w)))
     = (if ok
        then (fun row => mkLeaderLockRow (ll_consumer_id row) (ll_acquired_at row)
                           (env_now env + env_lockTTL env)) <$> locks
        else locks)
  /\ w_leaderElectionInstance (fst (LeaderElection.renewLock env w))
     = Some (mkLeaderElection (consumerId le) ok).
Proof.
  intros le locks ok. subst le locks ok.
  unfold LeaderElection.renewLock, held_by.
  erewrite bind_ok; [|apply getLeaderElection_run].
  destruct (instance_of env w) as [cid lead]. cbn [isLeader consumerId].
  destruct lead; cbn [negb andb]; [|repeat split].
  erewrite bind_ok; [|reflexivity]. cbn [w_db set_leaderElectionInstance].
  destruct (leader_locks (w_db w)) as [row|] eqn:Hlocks.
  - destruct ((ll_consumer_id row =? cid)%string && (env_now env <? ll_expires_at row)) eqn:E;
      cbn; rewrite ?Hlocks, ?E; repeat split.
  - cbn; rewrite ?Hlocks; repeat split.
Qed.

Lemma checkLockInTransaction_run env w :
  let le := instance_of env w in
  let ok := held_by (consumerId le) (env_now env) (leader_locks (w_db w)) in
  snd (LeaderElection.checkLockInTransaction env w) = Ok ok
  /\ w_db (fst (LeaderElection.checkLockInTransaction env w)) = w_db w
  /\ w_leaderElectionInstance (fst (LeaderElection.checkLockInTransaction env w))
     = Some (mkLeaderElection (consumerId le) (isLeader le && ok)).
Proof.
  intros le ok. subst le ok.
  unfold LeaderElection.checkLockInTransaction, held_by.
  erewrite bind_ok; [|apply getLeaderElection_run].
  erewrite bind_ok; [|reflexivity]. cbn [w_db set_leaderElectionInstance].
  destruct (instance_of env w) as [cid lead]. cbn [isLeader consumerId].
  destruct (leader_locks (w_db w)) as [row|] eqn:Hlocks.
  - destruct ((ll_consumer_id row =? cid)%string && (env_now env <? ll_expires_at row)) eqn:E;
      destruct lead; cbn; rewrite ?Hlocks, ?E; repeat split.
  - destruct lead; cbn; rewrite ?Hlocks; repeat split.
Qed.

Lemma releaseLock_run env w :
  let le := instance_of env w in
  let locks := leader_locks (w_db w) in
  leader_locks (w_db (fst (LeaderElection.releaseLock env w)))
  = (if isLeader le
        && match locks with
           | Some row => String.eqb (ll_consumer_id row) (consumerId le)
           | None => false
           end
     then None else locks)
  /\ w_leaderElectionInstance (fst (LeaderElection.releaseLock env w))
     = Some (mkLeaderElection (consumerId le) false).
Proof.
  intros le locks. subst le locks.
  unfold LeaderElection.releaseLock.
  erewrite bind_ok; [|apply getLeaderElection_run].
  destruct (instance_of env w) as [cid lead]. cbn [isLeader consumerId].
  destruct lead; cbn [negb andb]; [|repeat split].
  unfold bind, modify, LeaderElection.set_isLeader. cbn.
  destruct (leader_locks (w_db w)) as [row|] eqn:Hlocks; [|cbn; rewrite ?Hlocks; repeat split].
  destruct (String.eqb _ _); cbn; rewrite ?Hlocks; repeat split.
Qed.

Lemma leaderCheck_run env w :
  snd (BatchConsumer.leaderCheck env w)
  = (if held_by (consumerId (instance_of env w)) (env_now env) (leader_locks (w_db w))
     then Ok tt else Throw LostLeaderLock).
Proof.
  unfold BatchConsumer.leaderCheck, bind.
  destruct (checkLockInTransaction_run env w) as (Hr & _ & _).
  destruct (LeaderElection.checkLockInTransaction env w) as [w' r]. cbn [snd] in Hr.
  subst r. destruct (held_by _ _ _); reflexivity.
Qed.

(** X2. A live lock row held by another consumer is out of reach of every
    operation of a worker: [acquireLock], [renewLock] and
    [checkLockInTransaction] answer false, the commit check throws, and
    none of them, nor [releaseLock], changes the row; [renewLock] and
    [checkLockInTransaction] leave [isLeader] cleared. *)
Theorem live_lease_of_another_is_untouched (env : Env) (w : World) (row : LeaderLockRow) :
  leader_locks (w_db w) = Some row ->
  ll_consumer_id row <> consumerId (instance_of env w) ->
  env_now env < ll_expires_at row ->
  (snd (LeaderElection.acquireLock env w) = Ok false
   /\ leader_locks (w_db (fst (LeaderElection.acquireLock env w))) = Some row)
  /\ (snd (LeaderElection.renewLock env w) = Ok false
      /\ leader_locks (w_db (fst (LeaderElection.renewLock env w))) = Some row
      /\ isLeader (instance_of env (fst (LeaderElection.renewLock env w))) = false)
  /\ (snd (LeaderElection.checkLockInTransaction env w) = Ok false
      /\ leader_locks (w_db (fst (LeaderElection.checkLockInTransaction env w))) = Some row
      /\ isLeader (instance_of env (fst (LeaderElection.checkLockInTransaction env w))) = false)
  /\ snd (BatchConsumer.leaderCheck env w) = Throw LostLeaderLock
  /\ leader_locks (w_db (fst (LeaderElection.releaseLock env w))) = Some row.
Proof.
  intros Hlocks Hother Hlive.
  assert (Hneq : String.eqb (ll_consumer_id row) (consumerId (instance_of env w)) = false)
    by (apply String.eqb_neq; exact Hother).
  assert (Hheld : held_by (consumerId (instance_of env w)) (env_now env)
                    (leader_locks (w_db w)) = false)
    by (rewrite Hlocks; unfold held_by; rewrite Hneq; reflexivity).
  assert (Htake : takeable (env_now env) (leader_locks (w_db w)) = false)
    by (rewrite Hlocks; unfold takeable; apply Z.ltb_ge; lia).
  split; [|split; [|split; [|split]]].
  - destruct (acquireLock_run env w) as (H1 & H2 & _).
    rewrite Htake in H1, H2. rewrite H1, H2, Hlocks. split; reflexivity.
  - destruct (renewLock_run env w) as (H1 & H2 & H3).
    rewrite Hheld, andb_false_r in H1, H2, H3.
    rewrite H1, H2, Hlocks. unfold instance_of at 1. rewrite H3. repeat split.
  - destruct (checkLockInTransaction_run env w) as (H1 & H2 & H3).
    rewrite Hheld in H1. rewrite Hheld, andb_false_r in H3.
    rewrite H1, H2, Hlocks. unfold instance_of at 1. rewrite H3. repeat split.
  - rewrite leaderCheck_run, Hheld. reflexivity.
  - destruct (releaseLock_run env w) as (H1 & _).
    rewrite H1, Hlocks, Hneq, andb_false_r. reflexivity.
Qed.

Lemma live_lease_of_another_is_untouched_witness :
  snd (LeaderElection.acquireLock example_env rival_world) = Ok false
  /\ snd (BatchConsumer.leaderCheck example_env rival_world) = Throw LostLeaderLock
  /\ leader_locks (w_db (fst (LeaderElection.releaseLock example_env rival_world)))
     = Some (mkLeaderLockRow "consumer-B" 500 5500).
Proof.
  destruct (live_lease_of_another_is_untouched example_env rival_world
              (mkLeaderLockRow "consumer-B" 500 5500))
    as ((H1 & _) & _ & _ & H4 & H5).
  - reflexivity.
  - vm_compute. discriminate.
  - vm_compute. reflexivity.
  - split; [exact H1 | split; [exact H4 | exact H5]].
Defined.

(** X3. The life of a lease.  Once [acquireLock] has taken the lock at time
    t, the in-transaction check and the renewal of the same worker answer
    true at every time before t + TTL and false from t + TTL on; a
    successful renewal at time t' moves the expiry to t' + TTL and keeps
    holder and acquisition time; after [releaseLock] the row is gone and
    the next [acquireLock], of any worker at any time, succeeds. *)
Theorem lease_life_cycle (env env' env'' : Env) (w : World) :
  takeable (env_now env) (leader_locks (w_db w)) = true ->
  let self := consumerId (instance_of env w) in
  let w1 := fst (LeaderElection.acquireLock env w) in
  let alive := env_now env' <? env_now env + env_lockTTL env in
  snd (LeaderElection.checkLockInTransaction env' w1) = Ok alive
  /\ snd (LeaderElection.renewLock env' w1) = Ok alive
  /\ leader_locks (w_db (fst (LeaderElection.renewLock env' w1)))
     = Some (mkLeaderLockRow self (env_now env)
               (if alive then env_now env' + env_lockTTL env'
                else env_now env + env_lockTTL env))
  /\ leader_locks (w_db (fst (LeaderElection.releaseLock env' w1))) = None
  /\ forall w2, w_db w2 = w_db (fst (LeaderElection.releaseLock env' w1)) ->
       snd (LeaderElection.acquireLock env'' w2) = Ok true.
Proof.
  intros Htake self w1 alive.
  destruct (acquireLock_run env w) as (_ & Hlocks & Hinst).
  rewrite Htake in Hlocks, Hinst. cbn [orb] in Hinst.
  fold w1 in Hlocks, Hinst. fold self in Hlocks, Hinst.
  assert (Hof : forall e, instance_of e w1 = mkLeaderElection self true)
    by (intros e; unfold instance_of; rewrite Hinst; reflexivity).
  assert (Hheld : held_by self (env_now env') (leader_locks (w_db w1)) = alive)
    by (rewrite Hlocks; unfold held_by; cbn; rewrite String.eqb_refl; reflexivity).
  split; [|split; [|split; [|split]]].
  - destruct (checkLockInTransaction_run env' w1) as (H & _).
    rewrite H, Hof. cbn [consumerId]. rewrite Hheld. reflexivity.
  - destruct (renewLock_run env' w1) as (H & _).
    rewrite H, Hof. cbn [consumerId isLeader andb]. rewrite Hheld. reflexivity.
  - destruct (renewLock_run env' w1) as (_ & H & _).
    rewrite H, Hof. cbn [consumerId isLeader andb]. rewrite Hheld, Hlocks.
    destruct alive; reflexivity.
  - destruct (releaseLock_run env' w1) as (H & _).
    rewrite H, Hof, Hlocks. cbn. rewrite String.eqb_refl. reflexivity.
  - intros w2 Hdb.
    destruct (acquireLock_run env'' w2) as (H & _). rewrite H, Hdb.
    destruct (releaseLock_run env' w1) as (Hr & _).
    rewrite Hr, Hof, Hlocks. cbn. rewrite String.eqb_refl. reflexivity.
Qed.

Lemma lease_life_cycle_witness :
  snd (LeaderElection.checkLockInTransaction renew_env
         (fst (LeaderElection.acquireLock boot_env stored_world))) = Ok false
  /\ snd (LeaderElection.checkLockInTransaction example_env
            (fst (LeaderElection.acquireLock boot_env stored_world))) = Ok true.
Proof.
  split.
  - apply (lease_life_cycle boot_env renew_env boot_env stored_world). reflexivity.
  - apply (lease_life_cycle boot_env example_env boot_env stored_world). reflexivity.
Defined.

(** X4. [renewLock] answers exactly the [isLeader] flag it leaves behind, so
    after a failed renewal the flag is cleared (the timer's test
    [!renewed && this.isLeader] never holds); it never changes the holder
    or the acquisition time of the row.  A worker whose flag is cleared
    deletes nothing with [releaseLock], not even a row of its own. *)
Theorem renewLock_answers_isLeader (env env' : Env) (w : World) :
  let w' := fst (LeaderElection.renewLock env w) in
  snd (LeaderElection.renewLock env w) = Ok (isLeader (instance_of env' w'))
  /\ ll_consumer_id <$> leader_locks (w_db w') = ll_consumer_id <$> leader_locks (w_db w)
  /\ ll_acquired_at <$> leader_locks (w_db w') = ll_acquired_at <$> leader_locks (w_db w)
  /\ (if isLeader (instance_of env' w')
      then ll_expires_at <$> leader_locks (w_db w') = Some (env_now env + env_lockTTL env)
      else leader_locks (w_db (fst (LeaderElection.releaseLock env' w')))
           = leader_locks (w_db w)).
Proof.
  intros w'. subst w'.
  destruct (renewLock_run env w) as (H1 & H2 & H3).
  set (ok := isLeader (instance_of env w)
             && held_by (consumerId (instance_of env w)) (env_now env) (leader_locks (w_db w)))
    in *.
  assert (Hof : instance_of env' (fst (LeaderElection.renewLock env w))
                = mkLeaderElection (consumerId (instance_of env w)) ok)
    by (unfold instance_of at 1; rewrite H3; reflexivity).
  rewrite Hof. cbn [isLeader]. split; [exact H1|].
  rewrite H2. destruct ok eqn:Hok.
  - split; [|split].
    + destruct (leader_locks (w_db w)); reflexivity.
    + destruct (leader_locks (w_db w)); reflexivity.
    + unfold ok in Hok. apply andb_prop in Hok. destruct Hok as [_ Hheld].
      unfold held_by in Hheld. destruct (leader_locks (w_db w)); [reflexivity|discriminate].
  - split; [reflexivity|]. split; [reflexivity|].
    destruct (releaseLock_run env' (fst (LeaderElection.renewLock env w))) as (Hr & _).
    rewrite Hr, Hof, H2. reflexivity.
Qed.



(** * The stored consumer offsets, read and written *)

Lemma same_offset_key_spec g t p r :
  ConsumerOffsetManager.same_offset_key g t p r = true <-> offset_key r = (g, t, p).
Proof.
  unfold ConsumerOffsetManager.same_offset_key, offset_key.
  rewrite !andb_true_iff, !String.eqb_eq, Z.eqb_eq.
  split; [intros [[-> ->] ->]; reflexivity | intros E; inversion E; auto].
Qed.

Lemma filter_rewritten_offsets g t p o g' t' p' rows :
  List.filter (ConsumerOffsetManager.same_offset_key g' t' p')
    (map (fun r => if ConsumerOffsetManager.same_offset_key g t p r
                   then mkOffsetRow (co_consumer_group r) (co_topic r) (co_partition r) o
                   else r) rows)
  = map (fun r => if ConsumerOffsetManager.same_offset_key g t p r
                  then mkOffsetRow (co_consumer_group r) (co_topic r) (co_partition r) o
                  else r)
      (List.filter (ConsumerOffsetManager.same_offset_key g' t' p') rows).
Proof.
  induction rows as [|r rows IH]; [reflexivity|]. cbn [map List.filter].
  assert (E : ConsumerOffsetManager.same_offset_key g' t' p'
                (if ConsumerOffsetManager.same_offset_key g t p r
                 then mkOffsetRow (co_consumer_group r) (co_topic r) (co_partition r) o
                 else r)
              = ConsumerOffsetManager.same_offset_key g' t' p' r)
    by (destruct (ConsumerOffsetManager.same_offset_key g t p r); reflexivity).
  rewrite E. destruct (ConsumerOffsetManager.same_offset_key g' t' p' r);
    cbn [map]; rewrite IH; reflexivity.
Qed.

(** X6. [updateOffset] then [getOffset]: the key written reads back the
    offset written, whether the row existed or not and whether the offset
    grows or shrinks; every other key reads as before; no other table is
    touched. *)
Theorem updateOffset_then_getOffset (g t : string) (p o : Z) (g' t' : string) (p' : Z)
  (w : World) :
  let w' := fst (ConsumerOffsetManager.updateOffset g t p o w) in
  snd (ConsumerOffsetManager.getOffset g' t' p' w')
  = (if String.eqb g' g && String.eqb t' t && (p' =? p)
     then Ok (Some o)
     else snd (ConsumerOffsetManager.getOffset g' t' p' w))
  /\ account_balances (w_db w') = account_balances (w_db w)
  /\ balance_transactions (w_db w') = balance_transactions (w_db w)
  /\ outbox_events (w_db w') = outbox_events (w_db w)
  /\ leader_locks (w_db w') = leader_locks (w_db w).
Proof.
  intros w'. subst w'. split; [|repeat split].
  unfold ConsumerOffsetManager.updateOffset, ConsumerOffsetManager.getOffset, modify, gets.
  cbn [fst snd w_db set_db consumer_offsets with_consumer_offsets].
  set (rows := consumer_offsets (w_db w)).
  destruct (String.eqb g' g && String.eqb t' t && (p' =? p)) eqn:Hkey.
  - apply andb_prop in Hkey. destruct Hkey as [Hkey Hp].
    apply andb_prop in Hkey. destruct Hkey as [Hg Ht].
    apply String.eqb_eq in Hg. apply String.eqb_eq in Ht. apply Z.eqb_eq in Hp. subst g' t' p'.
    destruct (existsb (ConsumerOffsetManager.same_offset_key g t p) rows) eqn:Hex.
    + rewrite filter_rewritten_offsets.
      apply existsb_exists in Hex. destruct Hex as (r & Hin & Hr).
      destruct (List.filter (ConsumerOffsetManager.same_offset_key g t p) rows) as [|r0 rs] eqn:Hf.
      * assert (Hin' : In r (List.filter (ConsumerOffsetManager.same_offset_key g t p) rows))
          by (apply List.filter_In; auto).
        rewrite Hf in Hin'. destruct Hin'.
      * assert (Hr0 : ConsumerOffsetManager.same_offset_key g t p r0 = true).
        { eapply proj2, List.filter_In. rewrite Hf. left. reflexivity. }
        cbn [map]. rewrite Hr0. reflexivity.
    + rewrite List.filter_app. cbn [List.filter].
      assert (Hnew : ConsumerOffsetManager.same_offset_key g t p (mkOffsetRow g t p o) = true)
        by (apply same_offset_key_spec; reflexivity).
      rewrite Hnew.
      assert (Hnone : List.filter (ConsumerOffsetManager.same_offset_key g t p) rows = []).
      { destruct (List.filter _ rows) as [|r0 rs] eqn:Hf; [reflexivity|].
        assert (Hr0 : In r0 (List.filter (ConsumerOffsetManager.same_offset_key g t p) rows))
          by (rewrite Hf; left; reflexivity).
        apply List.filter_In in Hr0. destruct Hr0 as [Hin Hr0].
        assert (existsb (ConsumerOffsetManager.same_offset_key g t p) rows = true)
          by (apply existsb_exists; eauto).
        congruence. }
      rewrite Hnone. reflexivity.
  - assert (Hnew : ConsumerOffsetManager.same_offset_key g' t' p' (mkOffsetRow g t p o) = false).
    { unfold ConsumerOffsetManager.same_offset_key. cbn.
      rewrite (String.eqb_sym g g'), (String.eqb_sym t t'), (Z.eqb_sym p p'). exact Hkey. }
    destruct (existsb (ConsumerOffsetManager.same_offset_key g t p) rows).
    + rewrite filter_rewritten_offsets.
      assert (Hid : forall l,
                 Forall (fun r => ConsumerOffsetManager.same_offset_key g' t' p' r = true) l ->
                 map (fun r => if ConsumerOffsetManager.same_offset_key g t p r
                               then mkOffsetRow (co_consumer_group r) (co_topic r)
                                      (co_partition r) o
                               else r) l = l).
      { induction l as [|r l IH]; intros Hl; [reflexivity|].
        inversion Hl as [|? ? Hr Hl']; subst. cbn [map]. rewrite (IH Hl').
        destruct (ConsumerOffsetManager.same_offset_key g t p r) eqn:E; [|reflexivity].
        exfalso. apply same_offset_key_spec in E. apply same_offset_key_spec in Hr.
        rewrite E in Hr. inversion Hr; subst.
        rewrite !String.eqb_refl, Z.eqb_refl in Hkey. discriminate Hkey. }
      rewrite Hid; [reflexivity|].
      apply List.Forall_forall. intros r Hr. apply List.filter_In in Hr. tauto.
    + rewrite List.filter_app. cbn [List.filter]. rewrite Hnew, app_nil_r. reflexivity.
Qed.

(** X7. [updateOffset] keeps the unique key of the table: when no two rows
    share (group, topic, partition), none do afterwards, and exactly one
    row carries the key written. *)
Theorem updateOffset_keeps_one_row_per_key (g t : string) (p o : Z) (w : World) :
  NoDup (map offset_key (consumer_offsets (w_db w))) ->
  let rows' := consumer_offsets (w_db (fst (ConsumerOffsetManager.updateOffset g t p o w))) in
  NoDup (map offset_key rows')
  /\ List.filter (ConsumerOffsetManager.same_offset_key g t p) rows' = [mkOffsetRow g t p o].
Proof.
  intros Hnd rows'. subst rows'.
  unfold ConsumerOffsetManager.updateOffset, modify.
  cbn [fst w_db set_db consumer_offsets with_consumer_offsets].
  set (rows := consumer_offsets (w_db w)) in *.
  destruct (existsb (ConsumerOffsetManager.same_offset_key g t p) rows) eqn:Hex.
  - assert (Hkeys : map offset_key
               (map (fun r => if ConsumerOffsetManager.same_offset_key g t p r
                              then mkOffsetRow (co_consumer_group r) (co_topic r)
                                     (co_partition r) o
                              else r) rows) = map offset_key rows).
    { rewrite map_map. apply map_ext. intros r.
      destruct (ConsumerOffsetManager.same_offset_key g t p r); reflexivity. }
    split; [rewrite Hkeys; exact Hnd|].
    rewrite filter_rewritten_offsets.
    clear Hkeys. induction rows as [|r rows IH]; [discriminate Hex|].
    cbn [map] in Hnd. inversion Hnd as [|? ? Hnotin Hnd']; subst.
    cbn [List.filter].
    destruct (ConsumerOffsetManager.same_offset_key g t p r) eqn:Hr.
    + cbn [map]. rewrite Hr.
      assert (Hnone : List.filter (ConsumerOffsetManager.same_offset_key g t p) rows = []).
      { destruct (List.filter _ rows) as [|r0 rs] eqn:Hf; [reflexivity|].
        assert (Hr0 : In r0 (List.filter (ConsumerOffsetManager.same_offset_key g t p) rows))
          by (rewrite Hf; left; reflexivity).
        apply List.filter_In in Hr0. destruct Hr0 as [Hin Hr0].
        exfalso. apply Hnotin. apply same_offset_key_spec in Hr.
        apply same_offset_key_spec in Hr0. rewrite Hr, <- Hr0.
        apply list_elem_of_In, in_map, Hin. }
      rewrite Hnone. cbn [map]. apply same_offset_key_spec in Hr.
      unfold offset_key in Hr. inversion Hr. reflexivity.
    + cbn [existsb] in Hex. rewrite Hr in Hex. cbn [orb] in Hex. apply IH; assumption.
  - split.
    + rewrite map_app. cbn [map]. apply NoDup_app. split; [exact Hnd|]. split.
      * intros k Hk Hk'. apply list_elem_of_In in Hk.
        apply in_map_iff in Hk. destruct Hk as (r & Hr & Hin).
        apply list_elem_of_singleton in Hk'. subst k.
        assert (existsb (ConsumerOffsetManager.same_offset_key g t p) rows = true).
        { apply existsb_exists. exists r. split; [exact Hin|].
          apply same_offset_key_spec. exact Hk'. }
        congruence.
      * apply NoDup_singleton.
    + rewrite List.filter_app. cbn [List.filter].
      assert (Hnew : ConsumerOffsetManager.same_offset_key g t p (mkOffsetRow g t p o) = true)
        by (apply same_offset_key_spec; reflexivity).
      rewrite Hnew.
      assert (Hnone : List.filter (ConsumerOffsetManager.same_offset_key g t p) rows = []).
      { destruct (List.filter _ rows) as [|r0 rs] eqn:Hf; [reflexivity|].
        assert (Hr0 : In r0 (List.filter (ConsumerOffsetManager.same_offset_key g t p) rows))
          by (rewrite Hf; left; reflexivity).
        apply List.filter_In in Hr0. destruct Hr0 as [Hin Hr0].
        assert (existsb (ConsumerOffsetManager.same_offset_key g t p) rows = true)
          by (apply existsb_exists; eauto).
        congruence. }
      rewrite Hnone. reflexivity.
Qed.

Lemma updateOffset_keeps_one_row_per_key_witness :
  NoDup (map offset_key
           (consumer_offsets
              (w_db (fst (ConsumerOffsetManager.updateOffset "balance-consumer-group"
                            "balance-changes" 1 5 offsets_world))))).
Proof.
  apply (updateOffset_keeps_one_row_per_key "balance-consumer-group" "balance-changes" 1 5
           offsets_world).
  apply (bool_decide_unpack _). vm_compute. reflexivity.
Defined.

(** * The balance service, beyond the stored balance *)

(** X8. [getBalance] answers from the table alone, whatever the working set
    holds: the balance of the stored row, or null.  On a hit the working
    set entry of the key is overwritten with the stored balance; on a miss
    the working set is left as it is, a stale entry included.  No table is
    written. *)
Theorem getBalance_reads_the_store (account : Z) (currency : string)
  (cache' : gmap (Z * string) Balance) (w : World) :
  let stored := head (List.filter (BalanceService.same_key account currency)
                        (account_balances (w_db w))) in
  snd (BalanceService.getBalance account currency (set_cache cache' w))
  = snd (BalanceService.getBalance account currency w)
  /\ snd (BalanceService.getBalance account currency w) = Ok (balance_of_row <$> stored)
  /\ w_db (fst (BalanceService.getBalance account currency w)) = w_db w
  /\ w_cache (fst (BalanceService.getBalance account currency w))
     = match stored with
       | Some row => <[(account, currency) := balance_of_row row]> (w_cache w)
       | None => w_cache w
       end.
Proof.
  intros stored. subst stored.
  unfold BalanceService.getBalance, BalanceService.loadBalanceFromDB, bind, gets.
  cbn [w_db set_cache fst snd].
  destruct (List.filter _ _) as [|r rows]; cbn; repeat split.
Qed.



Lemma loadBalanceFromDB_unknown account currency w :
  List.filter (BalanceService.same_key account currency) (account_balances (w_db w)) = [] ->
  BalanceService.loadBalanceFromDB account currency w = (w, Ok None).
Proof.
  intros H. unfold BalanceService.loadBalanceFromDB, bind, gets. rewrite H. reflexivity.
Qed.




(** * What [updateBalance] touches *)

Lemma recordTransaction_run request ab aa fb fa status msg w :
  BalanceService.recordTransaction request ab aa fb fa status msg w
  = (if existsb (fun r => String.eqb (bt_transaction_id r) (req_transactionId request))
          (balance_transactions (w_db w))
     then w
     else set_db (with_balance_transactions (w_db w)
            (balance_transactions (w_db w) ++
             [mkLedgerRow (req_accountId request) (req_currencyCode request)
                (req_transactionId request) (req_type request) (req_amount request)
                ab aa fb fa status msg])) w,
     Ok tt).
Proof. reflexivity. Qed.

Lemma set_cache_same w : set_cache (w_cache w) w = w.
Proof. destruct w. reflexivity. Qed.

Lemma computeAfter_pure request ab fb w :
  exists r, BalanceService.computeAfter request ab fb w = (w, r).
Proof.
  unfold BalanceService.computeAfter.
  destruct (req_type request); cbv beta zeta;
    try match goal with |- context [if ?b then _ else _] => destruct b end;
    eexists; reflexivity.
Qed.

Lemma cache_update_outcomes now account currency availableDelta frozenDelta w :
  (exists e, BalanceCache.update now account currency availableDelta frozenDelta w
             = (w, Throw e))
  \/ (exists b, BalanceCache.update now account currency availableDelta frozenDelta w
                = (set_cache (<[(account, currency) := b]> (w_cache w)) w, Ok b)).
Proof.
  unfold BalanceCache.update, BalanceCache.getKey, bind, gets.
  destruct (w_cache w !! (account, currency)) as [current|]; [|left; eexists; reflexivity].
  cbv beta zeta.
  destruct (_ <? 0); [left; eexists; reflexivity|].
  destruct (_ <? 0); [left; eexists; reflexivity|].
  right. eexists. reflexivity.
Qed.

(** The outcomes of [updateBalance], up to the entry of the working set. *)
Lemma updateBalance_outcomes env request w :
  (exists (e : Error) (cache' : gmap (Z * string) Balance),
     BalanceService.updateBalance env request w = (set_cache cache' w, Throw e)
     /\ forall k, k <> (req_accountId request, req_currencyCode request) ->
          cache' !! k = w_cache w !! k)
  \/ (exists (cache' : gmap (Z * string) Balance) (ab aa fb fa : Decimal) (success : bool)
        (msg : option Error),
        BalanceService.updateBalance env request w
        = (fst (BalanceService.recordTransaction request ab aa fb fa
                  (if success then SUCCESS else FAILED) msg (set_cache cache' w)),
           Ok (mkResult (req_transactionId request) (req_accountId request)
                 (req_currencyCode request) success ab aa fb fa msg (env_now env)))
        /\ forall k, k <> (req_accountId request, req_currencyCode request) ->
             cache' !! k = w_cache w !! k).
Proof.
  set (key := (req_accountId request, req_currencyCode request)).
  (* 1, 2: the balance the request works on, and the working set then *)
  assert (Hcurrent :
    (exists (e : Error) (c : gmap (Z * string) Balance),
       BalanceService.updateBalance env request w = (set_cache c w, Throw e)
       /\ forall k, k <> key -> c !! k = w_cache w !! k)
    \/ exists (c : gmap (Z * string) Balance) (current : Balance),
         (forall k, k <> key -> c !! k = w_cache w !! k)
         /\ BalanceService.updateBalance env request w
            = (let* after := BalanceService.computeAfter request (available current)
                               (frozen current) in
               try_catch
                 (BalanceCache.update (env_now env) (req_accountId request)
                    (req_currencyCode request) (fst after - available current)
                    (snd after - frozen current) >>
                  BalanceService.recordTransaction request (available current) (fst after)
                    (frozen current) (snd after) SUCCESS None >>
                  ret (mkResult (req_transactionId request) (req_accountId request)
                         (req_currencyCode request) true (available current) (fst after)
                         (frozen current) (snd after) None (env_now env)))
                 (fun error =>
                  BalanceService.recordTransaction request (available current)
                    (available current) (frozen current) (frozen current) FAILED (Some error) >>
                  ret (mkResult (req_transactionId request) (req_accountId request)
                         (req_currencyCode request) false (available current)
                         (available current) (frozen current) (frozen current) (Some error)
                         (env_now env)))) (set_cache c w)).
  { unfold BalanceService.updateBalance, BalanceService.getBalance.
    destruct (List.filter (BalanceService.same_key (req_accountId request)
                             (req_currencyCode request))
                (account_balances (w_db w))) as [|r rows] eqn:Hrows.
    - erewrite bind_ok; [|apply loadBalanceFromDB_unknown; exact Hrows].
      destruct (BalanceService.is_deposit (req_type request) && (0 <=? req_amount request)).
      + right.
        exists (<[key := mkBalance (req_accountId request) (req_currencyCode request) 0 0 0
                           (env_now env)]> (w_cache w)),
          (mkBalance (req_accountId request) (req_currencyCode request) 0 0 0 (env_now env)).
        split; [intros k Hk; apply lookup_insert_ne; congruence|].
        erewrite bind_ok; [|reflexivity]. reflexivity.
      + left. exists (BalanceNotFound (req_accountId request) (req_currencyCode request)),
          (w_cache w).
        split; [rewrite set_cache_same; reflexivity | reflexivity].
    - right.
      exists (<[key := balance_of_row r]> (w_cache w)), (balance_of_row r).
      split; [intros k Hk; apply lookup_insert_ne; congruence|].
      erewrite bind_ok;
        [|apply (loadBalanceFromDB_existing w request r); unfold existing_balance;
          rewrite Hrows; reflexivity].
      erewrite bind_ok; [|reflexivity]. reflexivity. }
  destruct Hcurrent as [Hthrow | (c & current & Hc & ->)]; [left; exact Hthrow|].
  (* 3 *)
  destruct (computeAfter_pure request (available current) (frozen current) (set_cache c w))
    as [[after|e] Hafter].
  2: { left. exists e, c. split; [|exact Hc]. erewrite bind_throw; [reflexivity|exact Hafter]. }
  erewrite bind_ok; [|exact Hafter].
  (* 4, 5 *)
  right.
  destruct (cache_update_outcomes (env_now env) (req_accountId request)
              (req_currencyCode request) (fst after - available current)
              (snd after - frozen current) (set_cache c w)) as [[e Hupdate] | [b Hupdate]].
  - exists c, (available current), (available current), (frozen current), (frozen current),
      false, (Some e).
    split; [|exact Hc].
    erewrite try_catch_throw; [|erewrite bind_throw; [reflexivity|exact Hupdate]].
    reflexivity.
  - exists (<[key := b]> c), (available current), (fst after), (frozen current), (snd after),
      true, None.
    split.
    + erewrite try_catch_ok; [reflexivity|].
      erewrite bind_ok; [|exact Hupdate]. reflexivity.
    + intros k Hk. rewrite lookup_insert_ne by congruence. apply Hc, Hk.
Qed.

(** X11. What [updateBalance] touches, on every path.  Of the tables only the
    ledger can change, by one row appended for the request's transaction
    id, and only when the call returns a result and the ledger held no row
    for that id: the row then records the before- and after-values, the
    status and the error message of the result returned.  A call that
    throws writes no table.  In the working set only the entry of the
    request's account and currency can change. *)
Theorem updateBalance_footprint (env : Env) (request : BalanceChangeRequest) (w : World) :
  let w' := fst (BalanceService.updateBalance env request w) in
  let ledger := balance_transactions (w_db w) in
  ledger_extended_for request (w_db w) (w_db w')
  /\ (forall k, k <> (req_accountId request, req_currencyCode request) ->
        w_cache w' !! k = w_cache w !! k)
  /\ match snd (BalanceService.updateBalance env request w) with
     | Throw _ => w_db w' = w_db w
     | Ok result =>
         balance_transactions (w_db w')
         = if existsb (fun r => String.eqb (bt_transaction_id r) (req_transactionId request))
                ledger
           then ledger
           else ledger ++
                [mkLedgerRow (req_accountId request) (req_currencyCode request)
                   (req_transactionId request) (req_type request) (req_amount request)
                   (res_availableBefore result) (res_availableAfter result)
                   (res_frozenBefore result) (res_frozenAfter result)
                   (if res_success result then SUCCESS else FAILED)
                   (res_errorMessage result)]
     end.
Proof.
  intros w' ledger. subst w' ledger.
  destruct (updateBalance_outcomes env request w)
    as [(e & cache' & -> & Hcache) | (cache' & ab & aa & fb & fa & success & msg & -> & Hcache)].
  - cbn [fst snd w_db w_cache set_cache]. split; [|split; [exact Hcache | reflexivity]].
    unfold ledger_extended_for. repeat split. left. reflexivity.
  - rewrite recordTransaction_run. cbn [fst snd].
    change (w_db (set_cache cache' w)) with (w_db w).
    destruct (existsb _ (balance_transactions (w_db w))) eqn:Hknown.
    + cbn [w_db w_cache set_cache]. split; [|split; [exact Hcache | reflexivity]].
      unfold ledger_extended_for. repeat split. left. reflexivity.
    + cbn. split; [|split; [exact Hcache | reflexivity]].
      unfold ledger_extended_for. cbn. repeat split. right.
      eexists. split; [|split; [exact Hknown | reflexivity]]. reflexivity.
Qed.

(** * The batch operations of the working set *)

Lemma batchUpdate_app now updates1 updates2 results w :
  BalanceCacheBatch.batchUpdate now (updates1 ++ updates2) results w
  = (let* results1 := BalanceCacheBatch.batchUpdate now updates1 results in
     BalanceCacheBatch.batchUpdate now updates2 results1) w.
Proof.
  revert results w. induction updates1 as [|update updates1 IH]; intros results w.
  - reflexivity.
  - cbn [app BalanceCacheBatch.batchUpdate]. unfold bind.
    destruct (BalanceCache.update _ _ _ _ _ w) as [w1 [balance|e]]; [|reflexivity].
    rewrite IH. reflexivity.
Qed.

Lemma batchUpdate_length now updates results w w' results' :
  BalanceCacheBatch.batchUpdate now updates results w = (w', Ok results') ->
  length results' = (length results + length updates)%nat.
Proof.
  revert results w. induction updates as [|update updates IH]; intros results w.
  - cbn. intros E. inversion E. subst. lia.
  - cbn [BalanceCacheBatch.batchUpdate]. unfold bind at 1.
    destruct (BalanceCache.update _ _ _ _ _ w) as [w1 [balance|e]]; [|discriminate].
    intros E. apply IH in E. rewrite E, length_app. cbn. lia.
Qed.

Lemma batchUpdate_db now updates results w :
  w_db (fst (BalanceCacheBatch.batchUpdate now updates results w)) = w_db w.
Proof.
  revert results w. induction updates as [|update updates IH]; intros results w.
  - reflexivity.
  - cbn [BalanceCacheBatch.batchUpdate]. unfold bind at 1.
    destruct (cache_update_outcomes now (BalanceCacheBatch.cu_accountId update) (BalanceCacheBatch.cu_currencyCode update)
                (BalanceCacheBatch.cu_availableDelta update) (default 0 (BalanceCacheBatch.cu_frozenDelta update)) w)
      as [[e ->] | [b ->]]; [reflexivity|].
    rewrite IH. reflexivity.
Qed.

(** X12. [batchUpdate] is not all-or-nothing.  When the updates before a
    failing one succeed, the call throws the error of the failing one, the
    updates after it are not looked at, and the working set stays as the
    successful ones left it; no table is touched.  A call that returns
    gives one balance per update. *)
Theorem batchUpdate_stops_at_first_failure (now : Z)
  (done : list BalanceCacheBatch.CacheUpdate) (failing : BalanceCacheBatch.CacheUpdate)
  (rest : list BalanceCacheBatch.CacheUpdate) (w w1 : World) (results : list Balance)
  (e : Error) :
  BalanceCacheBatch.batchUpdate now done [] w = (w1, Ok results) ->
  snd (BalanceCache.update now (BalanceCacheBatch.cu_accountId failing) (BalanceCacheBatch.cu_currencyCode failing)
         (BalanceCacheBatch.cu_availableDelta failing) (default 0 (BalanceCacheBatch.cu_frozenDelta failing)) w1) = Throw e ->
  BalanceCacheBatch.batchUpdate now (done ++ failing :: rest) [] w = (w1, Throw e)
  /\ length results = length done
  /\ w_db w1 = w_db w.
Proof.
  intros Hdone Hfailing. split; [|split].
  - rewrite batchUpdate_app. erewrite bind_ok; [|exact Hdone].
    cbn [BalanceCacheBatch.batchUpdate].
    destruct (cache_update_outcomes now (BalanceCacheBatch.cu_accountId failing) (BalanceCacheBatch.cu_currencyCode failing)
                (BalanceCacheBatch.cu_availableDelta failing) (default 0 (BalanceCacheBatch.cu_frozenDelta failing)) w1)
      as [[e' H] | [b H]]; rewrite H in Hfailing; cbn in Hfailing; [|discriminate].
    inversion Hfailing. subst e'. erewrite bind_throw; [reflexivity|exact H].
  - apply batchUpdate_length in Hdone. exact Hdone.
  - rewrite <- (batchUpdate_db now done [] w), Hdone. reflexivity.
Qed.

Lemma batchUpdate_stops_at_first_failure_witness :
  snd (BalanceCacheBatch.batchUpdate 1000
         ([BalanceCacheBatch.mkCacheUpdate 1 "USDT" (-30) None]
          ++ BalanceCacheBatch.mkCacheUpdate 1 "USDT" (-100) None
          :: [BalanceCacheBatch.mkCacheUpdate 1 "USDT" 500 None]) [] cached_world)
  = Throw (CacheInsufficientBalance (-30))
  /\ w_cache (fst (BalanceCacheBatch.batchUpdate 1000
                     ([BalanceCacheBatch.mkCacheUpdate 1 "USDT" (-30) None]
                      ++ BalanceCacheBatch.mkCacheUpdate 1 "USDT" (-100) None
                      :: [BalanceCacheBatch.mkCacheUpdate 1 "USDT" 500 None]) [] cached_world))
       !! (1, "USDT")
     = Some (mkBalance 1 "USDT" 70 0 2 1000).
Proof.
  destruct (batchUpdate_stops_at_first_failure 1000
              [BalanceCacheBatch.mkCacheUpdate 1 "USDT" (-30) None]
              (BalanceCacheBatch.mkCacheUpdate 1 "USDT" (-100) None)
              [BalanceCacheBatch.mkCacheUpdate 1 "USDT" 500 None]
              cached_world
              (set_cache {[ (1, "USDT") := mkBalance 1 "USDT" 70 0 2 1000 ]} empty_world)
              [mkBalance 1 "USDT" 70 0 2 1000]
              (CacheInsufficientBalance (-30))) as (H & _ & _).
  - vm_compute. reflexivity.
  - vm_compute. reflexivity.
  - rewrite H. split; reflexivity.
Defined.

Lemma batchSet_run balances w :
  BalanceCacheBatch.batchSet balances w
  = (set_cache (fold_left (fun c b => <[(accountId b, currencyCode b) := b]> c) balances
                  (w_cache w)) w,
     Ok tt).
Proof.
  unfold BalanceCacheBatch.batchSet. revert w.
  induction balances as [|b balances IH]; intros w.
  - cbn. rewrite set_cache_same. reflexivity.
  - cbn [for_each fold_left]. erewrite bind_ok; [|reflexivity]. rewrite IH. reflexivity.
Qed.

Lemma fold_insert_other (balances : list Balance) (c : gmap (Z * string) Balance) k :
  (forall b, In b balances -> (accountId b, currencyCode b) <> k) ->
  fold_left (fun c b => <[(accountId b, currencyCode b) := b]> c) balances c !! k = c !! k.
Proof.
  revert c. induction balances as [|b balances IH]; intros c Hk; [reflexivity|].
  cbn [fold_left]. rewrite IH by (intros b' Hb'; apply Hk; right; exact Hb').
  apply lookup_insert_ne. apply Hk. left. reflexivity.
Qed.

Lemma fold_insert_member (balances : list Balance) (c : gmap (Z * string) Balance) b :
  NoDup (map (fun b => (accountId b, currencyCode b)) balances) ->
  In b balances ->
  fold_left (fun c b => <[(accountId b, currencyCode b) := b]> c) balances c
    !! (accountId b, currencyCode b) = Some b.
Proof.
  revert c. induction balances as [|b0 balances IH]; intros c Hnd Hin; [destruct Hin|].
  cbn [map] in Hnd. apply NoDup_cons in Hnd. destruct Hnd as [Hnotin Hnd].
  cbn [fold_left]. destruct Hin as [-> | Hin].
  - rewrite fold_insert_other; [apply lookup_insert_eq|].
    intros b' Hb' E. apply Hnotin. rewrite <- E.
    apply list_elem_of_In, (in_map (fun b => (accountId b, currencyCode b))), Hb'.
  - apply IH; assumption.
Qed.

Lemma NoDup_map_filter {A B} (f : A -> B) (p : A -> bool) (l : list A) :
  NoDup (map f l) -> NoDup (map f (List.filter p l)).
Proof.
  induction l as [|a l IH]; [intros H; exact H|].
  cbn [map List.filter]. intros H. apply NoDup_cons in H. destruct H as [Hnotin Hnd].
  destruct (p a); [|apply IH, Hnd].
  cbn [map]. apply NoDup_cons. split; [|apply IH, Hnd].
  intros Hin. apply Hnotin. apply list_elem_of_In in Hin. apply list_elem_of_In.
  apply in_map_iff in Hin. destruct Hin as (a' & E & Hin).
  apply in_map_iff. exists a'. split; [exact E|]. apply List.filter_In in Hin. tauto.
Qed.

(** X13. [loadBalancesToCache] over a table that respects its unique key
    (account, currency).  With an empty list of accounts or of currencies
    the statement is rejected and the call throws, the working set
    untouched.  Otherwise it answers the number of rows selected, every
    selected row is in the working set under its key afterwards, exactly
    as stored, every other entry of the working set is as before, and no
    table is written. *)
Theorem loadBalancesToCache_loads_the_selected_rows (accountIds : list Z)
  (currencyCodes : list string) (w : World) :
  NoDup (map balance_key (account_balances (w_db w))) ->
  let w' := fst (BalanceQueries.loadBalancesToCache accountIds currencyCodes w) in
  let answer := snd (BalanceQueries.loadBalancesToCache accountIds currencyCodes w) in
  w_db w' = w_db w
  /\ match accountIds, currencyCodes with
     | [], _ | _, [] => answer = Throw ConnectionError /\ w_cache w' = w_cache w
     | _, _ =>
         answer
         = Ok (length (List.filter (BalanceQueries.selected accountIds currencyCodes)
                         (account_balances (w_db w))))
         /\ (forall r, In r (account_balances (w_db w)) ->
               BalanceQueries.selected accountIds currencyCodes r = true ->
               w_cache w' !! balance_key r = Some (balance_of_row r))
         /\ (forall k,
               (forall r, In r (account_balances (w_db w)) ->
                  BalanceQueries.selected accountIds currencyCodes r = true ->
                  balance_key r <> k) ->
               w_cache w' !! k = w_cache w !! k)
     end.
Proof.
  intros Hnd w' answer. subst w' answer.
  assert (Hrun : forall a accountIds' c currencyCodes',
    accountIds = a :: accountIds' -> currencyCodes = c :: currencyCodes' ->
    BalanceQueries.loadBalancesToCache accountIds currencyCodes w
    = (set_cache
         (fold_left (fun c b => <[(accountId b, currencyCode b) := b]> c)
            (map balance_of_row
               (List.filter (BalanceQueries.selected accountIds currencyCodes)
                  (account_balances (w_db w))))
            (w_cache w)) w,
       Ok (length (List.filter (BalanceQueries.selected accountIds currencyCodes)
                     (account_balances (w_db w)))))).
  { intros a accountIds' c currencyCodes' -> ->.
    unfold BalanceQueries.loadBalancesToCache.
    erewrite bind_ok; [|reflexivity].
    erewrite bind_ok; [|apply batchSet_run].
    unfold ret. rewrite length_map. reflexivity. }
  destruct accountIds as [|a accountIds']; [split; [reflexivity | split; reflexivity]|].
  destruct currencyCodes as [|c currencyCodes']; [split; [reflexivity | split; reflexivity]|].
  rewrite (Hrun a accountIds' c currencyCodes' eq_refl eq_refl).
  cbn [fst snd w_db w_cache set_cache].
  set (rows := List.filter (BalanceQueries.selected (a :: accountIds') (c :: currencyCodes'))
                 (account_balances (w_db w))).
  split; [reflexivity|]. split; [reflexivity|]. split.
  - intros r Hin Hsel.
    apply (fold_insert_member (map balance_of_row rows) (w_cache w) (balance_of_row r)).
    + rewrite map_map. apply (NoDup_map_filter balance_key), Hnd.
    + apply in_map. apply List.filter_In. split; assumption.
  - intros k Hk. apply fold_insert_other.
    intros b Hb. apply in_map_iff in Hb. destruct Hb as (r & <- & Hr).
    apply List.filter_In in Hr. destruct Hr as [Hin Hsel]. exact (Hk r Hin Hsel).
Qed.

Lemma loadBalancesToCache_loads_the_selected_rows_witness :
  snd (BalanceQueries.loadBalancesToCache [1; 2] ["USDT"] stored_world) = Ok 1%nat
  /\ w_cache (fst (BalanceQueries.loadBalancesToCache [1; 2] ["USDT"] stored_world))
       !! (1, "USDT")
     = Some (mkBalance 1 "USDT" 100 0 1 0).
Proof.
  destruct (loadBalancesToCache_loads_the_selected_rows [1; 2] ["USDT"] stored_world)
    as (_ & Hanswer & Hrows & _).
  - apply (bool_decide_unpack _). vm_compute. reflexivity.
  - split; [exact Hanswer|].
    apply (Hrows (mkBalanceRow 1 "USDT" 100 0 1 0)); [left; reflexivity | reflexivity].
Defined.

(** * The commit *)

Lemma leaderCheck_db env w :
  w_db (fst (BatchConsumer.leaderCheck env w)) = w_db w.
Proof.
  unfold BatchConsumer.leaderCheck, bind.
  destruct (checkLockInTransaction_run env w) as (_ & Hdb & _).
  destruct (LeaderElection.checkLockInTransaction env w) as [w' [[|]|e]]; exact Hdb.
Qed.

(** The steps of the transaction after the leader check. *)
Lemma write_steps env updates (callback : M unit) w w1 :
  callback w = (w1, Ok tt) ->
  w_db w1 = w_db w ->
  let r := MySQLBatchWriter.transaction
    (callback >>
     (if env_writeFault env then throw ConnectionError else ret tt) >>
     modify (fun w => set_db (with_account_balances (w_db w)
       (map (MySQLBatchWriter.update_existing (env_now env)
               (map MySQLBatchWriter.values updates)) (account_balances (w_db w)))) w) >>
     modify (fun w => set_db (with_account_balances (w_db w)
       (MySQLBatchWriter.insert_missing (env_now env) (map MySQLBatchWriter.values updates)
          (account_balances (w_db w)))) w) >>
     modify (fun w => set_db (with_balance_transactions (w_db w)
       (fold_left MySQLBatchWriter.insert_ledger (map MySQLBatchWriter.values updates)
          (balance_transactions (w_db w)))) w) >>
     logger (LogBatchWritten (length updates))) w in
  snd r = (if env_writeFault env then Throw ConnectionError else Ok tt)
  /\ w_db (fst r) = (if env_writeFault env then w_db w else committed env updates (w_db w)).
Proof.
  intros Hcb Hdb r. subst r. unfold MySQLBatchWriter.transaction.
  erewrite bind_ok; [|exact Hcb].
  destruct (env_writeFault env).
  - erewrite bind_throw; [|reflexivity]. split; reflexivity.
  - cbn. rewrite Hdb. split; reflexivity.
Qed.

Lemma commitUpdates_cases env u updates w :
  snd (BatchConsumer.commitUpdates env (u :: updates) w)
  = (if fenced_out env w then Throw LostLeaderLock
     else if env_writeFault env then Throw ConnectionError
     else Ok tt)
  /\ w_db (fst (BatchConsumer.commitUpdates env (u :: updates) w))
     = (if fenced_out env w || env_writeFault env then w_db w
        else committed env (u :: updates) (w_db w)).
Proof.
  unfold BatchConsumer.commitUpdates, LeaderElection.isLeaderElectionEnabled.
  erewrite bind_ok; [|reflexivity].
  assert (Henabled :
    w_leaderElectionEnabled w
    && match w_leaderElectionInstance w with
       | Some le => LeaderElection.isCurrentLeader le
       | None => false
       end
    = w_leaderElectionEnabled w && isLeader (instance_of env w)).
  { unfold instance_of. destruct (w_leaderElectionInstance w); reflexivity. }
  rewrite Henabled. unfold fenced_out.
  destruct (w_leaderElectionEnabled w && isLeader (instance_of env w)) eqn:Hen.
  - unfold MySQLBatchWriter.batchWriteBalanceUpdates. cbn [andb].
    pose proof (leaderCheck_run env w) as Hrun.
    pose proof (leaderCheck_db env w) as Hdb.
    destruct (BatchConsumer.leaderCheck env w) as [w1 r] eqn:Hcheck.
    cbn [fst snd] in Hrun, Hdb.
    destruct (held_by _ _ _); subst r; cbn [negb orb].
    + apply write_steps with (w1 := w1); assumption.
    + unfold MySQLBatchWriter.transaction.
      erewrite bind_throw; [|exact Hcheck]. split; reflexivity.
  - cbn [andb orb]. unfold MySQLBatchWriter.batchWriteBalanceUpdates.
    apply write_steps with (w1 := w); reflexivity.
Qed.


(** The tables after a commit, whatever its outcome. *)
Lemma commitUpdates_db env updates w :
  w_db (fst (BatchConsumer.commitUpdates env updates w)) = w_db w
  \/ w_db (fst (BatchConsumer.commitUpdates env updates w)) = committed env updates (w_db w).
Proof.
  destruct updates as [|u updates]; [left; reflexivity|].
  destruct (commitUpdates_cases env u updates w) as [_ ->].
  destruct (fenced_out env w || env_writeFault env); [left | right]; reflexivity.
Qed.

Lemma joins_spec ab t :
  MySQLBatchWriter.joins ab t = true
  <-> balance_key ab = (MySQLBatchWriter.t_account_id t, MySQLBatchWriter.t_currency_code t).
Proof.
  unfold MySQLBatchWriter.joins, balance_key.
  rewrite andb_true_iff, Z.eqb_eq, String.eqb_eq.
  split; [intros [-> ->]; reflexivity | intros E; inversion E; auto].
Qed.

Lemma update_existing_key now temp ab :
  balance_key (MySQLBatchWriter.update_existing now temp ab) = balance_key ab.
Proof.
  unfold MySQLBatchWriter.update_existing. destruct (List.find _ _); reflexivity.
Qed.

Lemma update_existing_step now temp ab :
  balance_row_step ab (MySQLBatchWriter.update_existing now temp ab).
Proof.
  split; [apply update_existing_key|].
  unfold MySQLBatchWriter.update_existing. destruct (List.find _ _); [right | left]; reflexivity.
Qed.

Lemma existsb_joins_false balances t :
  existsb (fun ab => MySQLBatchWriter.joins ab t) balances = false ->
  (MySQLBatchWriter.t_account_id t, MySQLBatchWriter.t_currency_code t)
    ∉ map balance_key balances.
Proof.
  intros Hex Hin. apply list_elem_of_In in Hin. apply in_map_iff in Hin.
  destruct Hin as (ab & Hkey & Hin).
  assert (existsb (fun ab => MySQLBatchWriter.joins ab t) balances = true)
    by (apply existsb_exists; exists ab; split; [exact Hin | apply joins_spec, Hkey]).
  congruence.
Qed.

(** Step 5.2 only appends rows, at version 0 and with the after-values of a
    staged row, and never under a key the table holds. *)
Lemma insert_rows now temp' balances :
  exists news,
    fold_left (MySQLBatchWriter.insert_ignore now) temp' balances = balances ++ news
    /\ Forall (fun r => exists t, In t temp'
                 /\ r = mkBalanceRow (MySQLBatchWriter.t_account_id t)
                          (MySQLBatchWriter.t_currency_code t)
                          (MySQLBatchWriter.t_available_after t)
                          (MySQLBatchWriter.t_frozen_after t) 0 now) news
    /\ (NoDup (map balance_key balances) -> NoDup (map balance_key (balances ++ news))).
Proof.
  revert balances. induction temp' as [|t temp' IH]; intros balances.
  - exists []. rewrite app_nil_r. split; [reflexivity|]. split; [constructor | auto].
  - cbn [fold_left]. unfold MySQLBatchWriter.insert_ignore at 2.
    destruct (existsb (fun ab => MySQLBatchWriter.joins ab t) balances) eqn:Hex.
    + destruct (IH balances) as (news & E & Hnews & Hnd).
      exists news. split; [exact E|]. split; [|exact Hnd].
      eapply List.Forall_impl; [|exact Hnews].
      intros r (t' & Hin & Hr). exists t'. split; [right; exact Hin | exact Hr].
    + set (row := mkBalanceRow (MySQLBatchWriter.t_account_id t)
                    (MySQLBatchWriter.t_currency_code t)
                    (MySQLBatchWriter.t_available_after t)
                    (MySQLBatchWriter.t_frozen_after t) 0 now).
      destruct (IH (balances ++ [row])) as (news & E & Hnews & Hnd).
      exists (row :: news). rewrite E, <- app_assoc. split; [reflexivity|]. split.
      * constructor; [exists t; split; [left; reflexivity | reflexivity]|].
        eapply List.Forall_impl; [|exact Hnews].
        intros r (t' & Hin & Hr). exists t'. split; [right; exact Hin | exact Hr].
      * intros Hb. rewrite <- app_assoc in Hnd. apply Hnd.
        rewrite map_app. apply NoDup_app. split; [exact Hb|]. split.
        -- intros k Hk Hk'. cbn in Hk'. apply list_elem_of_singleton in Hk'. subst k.
           exact (existsb_joins_false balances t Hex Hk).
        -- cbn. apply NoDup_singleton.
Qed.

Lemma committed_balances env updates d :
  exists news,
    account_balances (committed env updates d)
    = map (MySQLBatchWriter.update_existing (env_now env) (map MySQLBatchWriter.values updates))
        (account_balances d) ++ news
    /\ Forall (fun r => exists u, In u updates
                 /\ r = mkBalanceRow (req_accountId (u_request u))
                          (req_currencyCode (u_request u)) (u_availableAfter u)
                          (u_frozenAfter u) 0 (env_now env)) news
    /\ (NoDup (map balance_key (account_balances d)) ->
        NoDup (map balance_key (account_balances (committed env updates d)))).
Proof.
  unfold committed. cbn [account_balances with_balance_transactions with_account_balances].
  unfold MySQLBatchWriter.insert_missing.
  set (temp := map MySQLBatchWriter.values updates).
  set (updated := map (MySQLBatchWriter.update_existing (env_now env) temp) (account_balances d)).
  destruct (insert_rows (env_now env) (List.filter (MySQLBatchWriter.missing updated) temp)
              updated) as (news & E & Hnews & Hnd).
  exists news. rewrite E. split; [reflexivity|]. split.
  - eapply List.Forall_impl; [|exact Hnews].
    intros r (t & Hin & ->). apply List.filter_In in Hin. destruct Hin as [Hin _].
    apply in_map_iff in Hin. destruct Hin as (u & <- & Hu).
    exists u. split; [exact Hu | reflexivity].
  - intros Hb. apply Hnd. unfold updated. rewrite map_map.
    erewrite map_ext; [exact Hb|]. intros ab. apply update_existing_key.
Qed.

(** X15. A commit never deletes a balance row and never moves one: whatever
    its outcome, the table afterwards consists of the rows it held, in
    order, each with its key and either unchanged or with its version
    raised by exactly one (however many updates of the batch address it),
    followed by new rows at version 0 that carry the after-values of an
    update of the batch. *)
Theorem commit_never_drops_a_balance_row (env : Env) (updates : list Update) (w : World) :
  exists kept news,
    account_balances (w_db (fst (BatchConsumer.commitUpdates env updates w))) = kept ++ news
    /\ Forall2 balance_row_step (account_balances (w_db w)) kept
    /\ Forall (fun r => exists u, In u updates
                 /\ balance_key r = update_key u
                 /\ ab_available r = u_availableAfter u
                 /\ ab_frozen r = u_frozenAfter u
                 /\ ab_version r = 0) news.
Proof.
  destruct (commitUpdates_db env updates w) as [-> | ->].
  - exists (account_balances (w_db w)), []. rewrite app_nil_r.
    split; [reflexivity|]. split; [|constructor].
    induction (account_balances (w_db w)) as [|r rows IH]; constructor; [|exact IH].
    split; [reflexivity | left; reflexivity].
  - destruct (committed_balances env updates (w_db w)) as (news & -> & Hnews & _).
    eexists _, news. split; [reflexivity|]. split.
    + induction (account_balances (w_db w)) as [|r rows IH]; constructor; [|exact IH].
      apply update_existing_step.
    + eapply List.Forall_impl; [|exact Hnews].
      intros r (u & Hu & ->). exists u. repeat split. exact Hu.
Qed.

Lemma insert_ledger_ids ledger t :
  map bt_transaction_id (MySQLBatchWriter.insert_ledger ledger t)
  = if existsb (fun r => String.eqb (bt_transaction_id r) (MySQLBatchWriter.t_transaction_id t))
         ledger
    then map bt_transaction_id ledger
    else map bt_transaction_id ledger ++ [MySQLBatchWriter.t_transaction_id t].
Proof.
  unfold MySQLBatchWriter.insert_ledger. destruct (existsb _ ledger).
  - rewrite map_map. apply map_ext. intros r. destruct (String.eqb _ _); reflexivity.
  - rewrite map_app. reflexivity.
Qed.

Lemma existsb_id_false ledger id :
  existsb (fun r => String.eqb (bt_transaction_id r) id) ledger = false ->
  id ∉ map bt_transaction_id ledger.
Proof.
  intros Hex Hin. apply list_elem_of_In in Hin. apply in_map_iff in Hin.
  destruct Hin as (r & Hid & Hin).
  assert (existsb (fun r => String.eqb (bt_transaction_id r) id) ledger = true)
    by (apply existsb_exists; exists r; split; [exact Hin | apply String.eqb_eq, Hid]).
  congruence.
Qed.

Lemma insert_ledger_NoDup temp ledger :
  NoDup (map bt_transaction_id ledger) ->
  NoDup (map bt_transaction_id (fold_left MySQLBatchWriter.insert_ledger temp ledger)).
Proof.
  revert ledger. induction temp as [|t temp IH]; intros ledger Hnd; [exact Hnd|].
  cbn [fold_left]. apply IH. rewrite insert_ledger_ids.
  destruct (existsb _ ledger) eqn:Hex; [exact Hnd|].
  apply NoDup_app. split; [exact Hnd|]. split; [|apply NoDup_singleton].
  intros id Hid Hid'. apply list_elem_of_singleton in Hid'. subst id.
  exact (existsb_id_false _ _ Hex Hid).
Qed.






(** X16. A commit keeps the unique keys of both tables: when no two balance
    rows share (account, currency) and no two ledger rows share a
    transaction id, the same holds afterwards, whatever the batch holds
    (repeated keys, repeated transaction ids) and whatever the outcome. *)
Theorem commit_keeps_the_unique_keys (env : Env) (updates : list Update) (w : World) :
  NoDup (map balance_key (account_balances (w_db w))) ->
  NoDup (map bt_transaction_id (balance_transactions (w_db w))) ->
  NoDup (map balance_key
           (account_balances (w_db (fst (BatchConsumer.commitUpdates env updates w)))))
  /\ NoDup (map bt_transaction_id
              (balance_transactions (w_db (fst (BatchConsumer.commitUpdates env updates w))))).
Proof.
  intros Hbalances Hledger.
  destruct (commitUpdates_db env updates w) as [-> | ->]; [split; assumption|].
  split.
  - destruct (committed_balances env updates (w_db w)) as (_ & _ & _ & H). apply H, Hbalances.
  - apply insert_ledger_NoDup, Hledger.
Qed.

Lemma commit_keeps_the_unique_keys_witness :
  NoDup (map balance_key
           (account_balances
              (w_db (fst (BatchConsumer.commitUpdates example_env
                            [mkUpdate (example_request "t1" DEPOSIT 5) 100 105 0 0 SUCCESS;
                             mkUpdate (example_request "t1" DEPOSIT 5) 100 105 0 0 SUCCESS;
                             mkUpdate (mkRequest "t2" 2 "user-2" "USDT" DEPOSIT 7) 0 7 0 0 SUCCESS;
                             mkUpdate (mkRequest "t3" 2 "user-2" "USDT" DEPOSIT 1) 0 1 0 0 SUCCESS]
                            funded_world))))).
Proof.
  apply (commit_keeps_the_unique_keys example_env
           [mkUpdate (example_request "t1" DEPOSIT 5) 100 105 0 0 SUCCESS;
            mkUpdate (example_request "t1" DEPOSIT 5) 100 105 0 0 SUCCESS;
            mkUpdate (mkRequest "t2" 2 "user-2" "USDT" DEPOSIT 7) 0 7 0 0 SUCCESS;
            mkUpdate (mkRequest "t3" 2 "user-2" "USDT" DEPOSIT 1) 0 1 0 0 SUCCESS]
           funded_world).
  - apply (bool_decide_unpack _). vm_compute. reflexivity.
  - apply (bool_decide_unpack _). vm_compute. reflexivity.
Defined.


(** * The consumer: which records are processed, retried and dead-lettered *)

Lemma filterProcessed_result ids requests : forall w,
  snd (BatchConsumer.filterProcessed ids requests w)
  = Ok (List.filter (fun request => negb (existsb (String.eqb (req_transactionId request)) ids))
          requests).
Proof.
  induction requests as [|request requests IH]; intros w; [reflexivity|].
  cbn [BatchConsumer.filterProcessed List.filter].
  destruct (existsb (String.eqb (req_transactionId request)) ids); cbn [negb].
  - unfold bind, logger, modify. apply IH.
  - unfold bind. specialize (IH w).
    destruct (BatchConsumer.filterProcessed ids requests w) as [w' [rs|e]]; cbn [snd] in *.
    + injection IH as ->. reflexivity.
    + discriminate IH.
Qed.

Lemma filterProcessed_db ids requests : forall w,
  w_db (fst (BatchConsumer.filterProcessed ids requests w)) = w_db w.
Proof.
  induction requests as [|request requests IH]; intros w; [reflexivity|].
  cbn [BatchConsumer.filterProcessed].
  destruct (existsb (String.eqb (req_transactionId request)) ids).
  - unfold bind, logger, modify. rewrite IH. reflexivity.
  - unfold bind. specialize (IH w).
    destruct (BatchConsumer.filterProcessed ids requests w) as [w' [rs|e]]; exact IH.
Qed.

Lemma processedIds_spec ids ledger id :
  In id ids ->
  existsb (String.eqb id) (BatchConsumer.processedIds ids ledger)
  = existsb (fun r => String.eqb (bt_transaction_id r) id
                      && negb (BatchConsumer.is_INIT (bt_status r))) ledger.
Proof.
  intros Hid. unfold BatchConsumer.processedIds.
  induction ledger as [|r ledger IH]; [reflexivity|].
  cbn [List.filter existsb].
  destruct (String.eqb (bt_transaction_id r) id) eqn:E.
  - apply String.eqb_eq in E.
    assert (Hex : existsb (String.eqb (bt_transaction_id r)) ids = true)
      by (apply existsb_exists; exists id; split; [exact Hid | apply String.eqb_eq, E]).
    rewrite Hex. cbn [andb]. destruct (negb _); cbn [map existsb].
    + rewrite E, String.eqb_refl. reflexivity.
    + exact IH.
  - cbn [andb orb]. destruct (_ && _); [|exact IH].
    cbn [map existsb]. rewrite String.eqb_sym, E. exact IH.
Qed.

Lemma deduplicateMessages_run env messages w :
  snd (BatchConsumer.deduplicateMessages env messages w)
  = match omap msg_value messages with
    | [] => Ok []
    | requests =>
        if env_dedupFault env then Throw ConnectionError
        else Ok (List.filter (fun request =>
                                negb (processed (balance_transactions (w_db w)) request))
                   requests)
    end
  /\ w_db (fst (BatchConsumer.deduplicateMessages env messages w)) = w_db w.
Proof.
  unfold BatchConsumer.deduplicateMessages.
  pose proof (parseMessages_result messages w) as Hr.
  pose proof (parseMessages_db messages w) as Hdb.
  destruct (BatchConsumer.parseMessages messages w) as [w1 result] eqn:Hparse.
  cbn [fst snd] in Hr, Hdb. subst result.
  rewrite (bind_ok _ _ _ _ _ Hparse).
  destruct (omap msg_value messages) as [|r rs] eqn:Hparsed; [split; [reflexivity | exact Hdb]|].
  destruct (remove_dups (map req_transactionId (r :: rs))) as [|i ids] eqn:Hids.
  { exfalso. cbn [map remove_dups] in Hids.
    destruct (decide_rel _ _ _) as [Hin|_]; [|discriminate Hids].
    apply elem_of_remove_dups in Hin. rewrite Hids in Hin. inversion Hin. }
  destruct (env_dedupFault env).
  - erewrite bind_throw; [|reflexivity]. split; [reflexivity | exact Hdb].
  - erewrite bind_ok; [|reflexivity]. erewrite bind_ok; [|reflexivity].
    rewrite filterProcessed_result, filterProcessed_db, Hdb. split; [|reflexivity].
    f_equal. apply List.filter_ext_in. intros request Hin. f_equal.
    rewrite <- Hids. unfold processed. apply processedIds_spec.
    apply list_elem_of_In, elem_of_remove_dups, list_elem_of_In.
    apply (in_map req_transactionId), Hin.
Qed.

(** X18. What [deduplicateMessages] returns: the records that parse, in the
    order of the batch, without those whose transaction id has a ledger
    row past INIT; a record is dropped for no other reason, so a
    transaction id that occurs twice in the batch is returned twice.
    Without a record that parses the ledger is not queried.  When the
    query fails the call throws.  No table is written. *)
Theorem deduplicateMessages_drops_exactly_the_processed (env : Env) (messages : list Message)
  (w : World) :
  snd (BatchConsumer.deduplicateMessages env messages w)
  = match omap msg_value messages with
    | [] => Ok []
    | requests =>
        if env_dedupFault env then Throw ConnectionError
        else Ok (List.filter (fun request =>
                                negb (processed (balance_transactions (w_db w)) request))
                   requests)
    end
  /\ w_db (fst (BatchConsumer.deduplicateMessages env messages w)) = w_db w.
Proof. exact (deduplicateMessages_run env messages w). Qed.

Lemma parseMessages_unparsable messages : forall w,
  Forall (fun m => msg_value m = None) messages ->
  BatchConsumer.parseMessages messages w
  = (set_log (w_log w ++ map (fun m => LogParseFailed (msg_offset m)) messages) w, Ok []).
Proof.
  induction messages as [|m messages IH]; intros w Hnone.
  - cbn. rewrite app_nil_r. destruct w. reflexivity.
  - inversion Hnone as [|? ? Hm Hrest]; subst.
    cbn [BatchConsumer.parseMessages]. rewrite Hm.
    erewrite bind_ok; [|reflexivity]. rewrite (IH _ Hrest).
    cbn. rewrite <- app_assoc. reflexivity.
Qed.

(** X19. Records that do not parse are dropped for good.  A batch made of
    such records only is answered normally by a running consumer: each
    record is logged as a parse failure, nothing is retried or
    dead-lettered, no table and no balance is touched, the ledger is not
    even queried (so a failing database goes unnoticed), and the offset of
    every record is resolved. *)
Theorem unparsable_records_are_dropped (env : Env) (messages : list Message) (partition : Z)
  (w : World) :
  w_running w = true ->
  Forall (fun m => msg_value m = None) messages ->
  BatchConsumer.eachBatch env messages partition w
  = (set_resolved (w_resolved w ++ map msg_offset messages)
       (set_log (w_log w ++ map (fun m => LogParseFailed (msg_offset m)) messages) w),
     Ok tt).
Proof.
  intros Hrunning Hnone. unfold BatchConsumer.eachBatch.
  erewrite bind_ok; [|reflexivity]. rewrite Hrunning. cbn [negb].
  destruct messages as [|m messages].
  - cbn. rewrite !app_nil_r. destruct w. reflexivity.
  - assert (Hbatch : BatchConsumer.processBatch env (m :: messages) partition w
                     = (set_log (w_log w ++ map (fun m => LogParseFailed (msg_offset m))
                                             (m :: messages)) w, Ok tt)).
    { unfold BatchConsumer.processBatch, BatchConsumer.deduplicateMessages.
      erewrite bind_ok; [|erewrite bind_ok; [|apply parseMessages_unparsable, Hnone];
                          reflexivity].
      reflexivity. }
    erewrite bind_ok; [|exact Hbatch]. rewrite resolve_all. reflexivity.
Qed.

Lemma unparsable_records_are_dropped_witness :
  BatchConsumer.eachBatch unreachable_env
    [mkMessage 7 "user-1" None; mkMessage 8 "user-2" None] 0 funded_world
  = (set_resolved [7; 8] (set_log [LogParseFailed 7; LogParseFailed 8] funded_world), Ok tt).
Proof.
  apply (unparsable_records_are_dropped unreachable_env
           [mkMessage 7 "user-1" None; mkMessage 8 "user-2" None] 0 funded_world).
  - reflexivity.
  - repeat constructor.
Defined.



(** X21. The failure that holds the offsets back.  When the ledger query of
    [deduplicateMessages] fails on a batch with at least one record that
    parses, the handler of a running consumer throws: no offset of the
    batch is resolved and no table is written, so the batch is delivered
    again. *)
Theorem failed_dedup_query_holds_the_offsets (env : Env) (messages : list Message)
  (partition : Z) (w : World) :
  w_running w = true ->
  env_dedupFault env = true ->
  omap msg_value messages <> [] ->
  snd (BatchConsumer.eachBatch env messages partition w) = Throw ConnectionError
  /\ w_resolved (fst (BatchConsumer.eachBatch env messages partition w)) = w_resolved w
  /\ w_db (fst (BatchConsumer.eachBatch env messages partition w)) = w_db w.
Proof.
  intros Hrunning Hfault Hparsed.
  destruct (deduplicateMessages_run env messages w) as [Hr Hdb].
  rewrite Hfault in Hr.
  destruct (omap msg_value messages) as [|request requests] eqn:Hm; [contradiction|].
  destruct messages as [|m messages]; [discriminate Hm|].
  destruct (BatchConsumer.deduplicateMessages env (m :: messages) w) as [w1 r] eqn:Hdedup.
  cbn [fst snd] in Hr, Hdb. subst r.
  assert (Hbatch : BatchConsumer.eachBatch env (m :: messages) partition w
                   = (w1, Throw ConnectionError)).
  { unfold BatchConsumer.eachBatch. erewrite bind_ok; [|reflexivity].
    rewrite Hrunning. cbn [negb].
    erewrite bind_throw; [reflexivity|].
    unfold BatchConsumer.processBatch. erewrite bind_throw; [reflexivity | exact Hdedup]. }
  pose proof (eachBatch_resolved env (m :: messages) partition w) as Hres.
  rewrite Hbatch in Hres |- *. cbn [fst snd]. split; [reflexivity|]. split; assumption.
Qed.

Lemma failed_dedup_query_holds_the_offsets_witness :
  snd (BatchConsumer.eachBatch unreachable_env [mkMessage 7 "user-1" None; deposit_5] 0
         funded_world) = Throw ConnectionError
  /\ w_resolved (fst (BatchConsumer.eachBatch unreachable_env
                        [mkMessage 7 "user-1" None; deposit_5] 0 funded_world)) = [].
Proof.
  destruct (failed_dedup_query_holds_the_offsets unreachable_env
              [mkMessage 7 "user-1" None; deposit_5] 0 funded_world) as (H1 & H2 & _).
  - reflexivity.
  - reflexivity.
  - discriminate.
  - split; [exact H1 | exact H2].
Defined.

(** * The way in: the REST handler and the outbox *)





(** * The snapshot store: last write wins *)

Lemma LWW_SCRIPT_timestamp k v t store k' :
  RedisCache.stored_timestamp (fst (RedisCache.LWW_SCRIPT k v t store)) k'
  = if decide (k' = k) then Z.max (RedisCache.stored_timestamp store k) t
    else RedisCache.stored_timestamp store k'.
Proof.
  unfold RedisCache.LWW_SCRIPT.
  destruct (RedisCache.stored_timestamp store k <? t) eqn:Hlt; cbn [fst].
  - apply Z.ltb_lt in Hlt. unfold RedisCache.stored_timestamp at 1.
    destruct (decide (k' = k)) as [-> | Hne].
    + rewrite lookup_insert_eq. lia.
    + rewrite lookup_insert_ne by congruence. reflexivity.
  - apply Z.ltb_ge in Hlt. destruct (decide (k' = k)) as [-> | Hne]; [lia | reflexivity].
Qed.

Lemma LWW_SCRIPT_stale k v t store :
  t <= RedisCache.stored_timestamp store k ->
  RedisCache.LWW_SCRIPT k v t store = (store, 0).
Proof.
  intros H. unfold RedisCache.LWW_SCRIPT.
  assert (E : (RedisCache.stored_timestamp store k <? t) = false) by (apply Z.ltb_ge; lia).
  rewrite E. reflexivity.
Qed.

Lemma LWW_SCRIPT_other k v t store k' :
  k' <> k -> fst (RedisCache.LWW_SCRIPT k v t store) !! k' = store !! k'.
Proof.
  intros Hne. unfold RedisCache.LWW_SCRIPT.
  destruct (_ <? t); cbn [fst]; [apply lookup_insert_ne; congruence | reflexivity].
Qed.

Lemma batchUpdateBalances_grows updates : forall store k,
  RedisCache.stored_timestamp store k
  <= RedisCache.stored_timestamp (fst (RedisCache.batchUpdateBalances updates store)) k.
Proof.
  induction updates as [|u updates IH]; intros store k; [cbn; lia|].
  cbn [RedisCache.batchUpdateBalances fst].
  etransitivity; [|apply IH]. rewrite LWW_SCRIPT_timestamp.
  destruct (decide _) as [-> | _]; lia.
Qed.

Lemma batchUpdateBalances_stale updates : forall store,
  (forall u, In u updates ->
     RedisCache.ru_timestamp u <= RedisCache.stored_timestamp store (RedisCache.key u)) ->
  RedisCache.batchUpdateBalances updates store = (store, 0%nat).
Proof.
  induction updates as [|u updates IH]; intros store Hstale; [reflexivity|].
  cbn [RedisCache.batchUpdateBalances].
  rewrite LWW_SCRIPT_stale by (apply Hstale; left; reflexivity).
  cbn [fst snd]. rewrite IH by (intros u' Hu'; apply Hstale; right; exact Hu').
  reflexivity.
Qed.

Lemma batchUpdateBalances_reaches updates : forall store u,
  In u updates ->
  RedisCache.ru_timestamp u
  <= RedisCache.stored_timestamp (fst (RedisCache.batchUpdateBalances updates store))
       (RedisCache.key u).
Proof.
  induction updates as [|u0 updates IH]; intros store u Hu; [destruct Hu|].
  cbn [RedisCache.batchUpdateBalances fst]. destruct Hu as [-> | Hu]; [|apply IH, Hu].
  etransitivity; [|apply batchUpdateBalances_grows]. rewrite LWW_SCRIPT_timestamp.
  destruct (decide _) as [_ | Hne]; [lia | contradiction].
Qed.

Lemma batchUpdateBalances_count updates : forall store,
  (snd (RedisCache.batchUpdateBalances updates store) <= length updates)%nat.
Proof.
  induction updates as [|u updates IH]; intros store; [cbn; lia|].
  cbn [RedisCache.batchUpdateBalances snd length].
  specialize (IH (fst (RedisCache.LWW_SCRIPT (RedisCache.key u) (RedisCache.ru_balance u)
                         (RedisCache.ru_timestamp u) store))).
  destruct (_ =? 1); lia.
Qed.

Lemma batchUpdateBalances_untouched updates : forall store k,
  (forall u, In u updates -> RedisCache.key u = k ->
     RedisCache.ru_timestamp u <= RedisCache.stored_timestamp store k) ->
  fst (RedisCache.batchUpdateBalances updates store) !! k = store !! k.
Proof.
  induction updates as [|u updates IH]; intros store k Hstale; [reflexivity|].
  cbn [RedisCache.batchUpdateBalances fst].
  destruct (decide (RedisCache.key u = k)) as [Hk | Hk].
  - rewrite LWW_SCRIPT_stale by (rewrite Hk; apply Hstale; [left; reflexivity | exact Hk]).
    cbn [fst]. apply IH. intros u' Hu'. apply Hstale. right. exact Hu'.
  - rewrite IH.
    + apply LWW_SCRIPT_other. congruence.
    + intros u' Hu' Hk'. rewrite LWW_SCRIPT_timestamp.
      destruct (decide _) as [E | _]; [congruence|]. apply Hstale; [right; exact Hu' | exact Hk'].
Qed.

(** X24. Last write wins, as the script has it.  After a batch of updates
    the stored timestamp of every key is at least what it was and at least
    the timestamp of every update of the batch for that key; a key for
    which every update is stale (its timestamp is not above the stored
    one, 0 for a key never written) keeps its value and timestamp; the
    number answered is at most the number of updates. *)
Theorem stored_timestamps_never_go_back (updates : list RedisCache.RedisUpdate)
  (store : gmap (Z * string) (RedisCache.Snapshot * Z)) :
  let store' := fst (RedisCache.batchUpdateBalances updates store) in
  (forall k, RedisCache.stored_timestamp store k <= RedisCache.stored_timestamp store' k)
  /\ (forall u, In u updates ->
        RedisCache.ru_timestamp u <= RedisCache.stored_timestamp store' (RedisCache.key u))
  /\ (forall k,
        (forall u, In u updates -> RedisCache.key u = k ->
           RedisCache.ru_timestamp u <= RedisCache.stored_timestamp store k) ->
        store' !! k = store !! k)
  /\ (snd (RedisCache.batchUpdateBalances updates store) <= length updates)%nat.
Proof.
  intros store'. subst store'. split; [|split; [|split]].
  - intros k. apply batchUpdateBalances_grows.
  - intros u Hu. apply batchUpdateBalances_reaches, Hu.
  - intros k Hk. apply batchUpdateBalances_untouched, Hk.
  - apply batchUpdateBalances_count.
Qed.

(** X25. A message handled twice by the snapshot worker: the second handling
    reports every update as processed and none as updated, and leaves the
    store exactly as the first one left it. *)
Theorem replayed_message_updates_nothing (updates : list RedisUpdater.QueuedUpdate)
  (store : gmap (Z * string) (RedisCache.Snapshot * Z)) :
  let store' := fst (RedisUpdater.onMessage updates store) in
  RedisUpdater.onMessage updates store' = (store', (length updates, 0%nat)).
Proof.
  intros store'. subst store'. unfold RedisUpdater.onMessage. cbn [fst].
  rewrite batchUpdateBalances_stale; [reflexivity|].
  intros u Hu. apply batchUpdateBalances_reaches, Hu.
Qed.

Lemma stored_timestamp_insert_eq (k : Z * string) (v : RedisCache.Snapshot) (t : Z)
  (store : gmap (Z * string) (RedisCache.Snapshot * Z)) :
  RedisCache.stored_timestamp (<[k := (v, t)]> store) k = t.
Proof. unfold RedisCache.stored_timestamp. rewrite lookup_insert_eq. reflexivity. Qed.

Lemma stored_timestamp_insert_ne (k k' : Z * string) (v : RedisCache.Snapshot) (t : Z)
  (store : gmap (Z * string) (RedisCache.Snapshot * Z)) :
  k' <> k ->
  RedisCache.stored_timestamp (<[k := (v, t)]> store) k' = RedisCache.stored_timestamp store k'.
Proof.
  intros H. unfold RedisCache.stored_timestamp. rewrite lookup_insert_ne by congruence.
  reflexivity.
Qed.

(** Two script calls commute unless they carry the same key and the same
    timestamp. *)
Lemma LWW_SCRIPT_commute k1 v1 t1 k2 v2 t2 store :
  (k1, t1) <> (k2, t2) ->
  fst (RedisCache.LWW_SCRIPT k2 v2 t2 (fst (RedisCache.LWW_SCRIPT k1 v1 t1 store)))
  = fst (RedisCache.LWW_SCRIPT k1 v1 t1 (fst (RedisCache.LWW_SCRIPT k2 v2 t2 store))).
Proof.
  intros Hne. unfold RedisCache.LWW_SCRIPT.
  destruct (decide (k2 = k1)) as [-> | Hk].
  - assert (Ht : t1 <> t2) by congruence.
    destruct (Z.ltb_spec (RedisCache.stored_timestamp store k1) t1) as [E1 | E1];
      destruct (Z.ltb_spec (RedisCache.stored_timestamp store k1) t2) as [E2 | E2];
      cbn [fst]; rewrite ?stored_timestamp_insert_eq.
    + destruct (Z.ltb_spec t1 t2); destruct (Z.ltb_spec t2 t1); cbn [fst]; try lia.
      * apply insert_insert_eq.
      * symmetry. apply insert_insert_eq.
    + destruct (Z.ltb_spec t1 t2); [lia|].
      destruct (Z.ltb_spec (RedisCache.stored_timestamp store k1) t1); [reflexivity | lia].
    + destruct (Z.ltb_spec t2 t1); [lia|].
      destruct (Z.ltb_spec (RedisCache.stored_timestamp store k1) t2); [reflexivity | lia].
    + destruct (Z.ltb_spec (RedisCache.stored_timestamp store k1) t1); [lia|].
      destruct (Z.ltb_spec (RedisCache.stored_timestamp store k1) t2); [lia | reflexivity].
  - destruct (Z.ltb_spec (RedisCache.stored_timestamp store k1) t1) as [E1 | E1];
      destruct (Z.ltb_spec (RedisCache.stored_timestamp store k2) t2) as [E2 | E2];
      cbn [fst];
      rewrite ?(stored_timestamp_insert_ne k1 k2) by exact Hk;
      rewrite ?(stored_timestamp_insert_ne k2 k1) by congruence.
    + destruct (Z.ltb_spec (RedisCache.stored_timestamp store k2) t2); [|lia].
      destruct (Z.ltb_spec (RedisCache.stored_timestamp store k1) t1); [|lia].
      cbn [fst]. apply insert_insert_ne. congruence.
    + destruct (Z.ltb_spec (RedisCache.stored_timestamp store k2) t2); [lia|].
      destruct (Z.ltb_spec (RedisCache.stored_timestamp store k1) t1); [reflexivity | lia].
    + destruct (Z.ltb_spec (RedisCache.stored_timestamp store k2) t2); [|lia].
      destruct (Z.ltb_spec (RedisCache.stored_timestamp store k1) t1); [lia | reflexivity].
    + destruct (Z.ltb_spec (RedisCache.stored_timestamp store k2) t2); [lia|].
      destruct (Z.ltb_spec (RedisCache.stored_timestamp store k1) t1); [lia | reflexivity].
Qed.

Lemma batchUpdateBalances_permutation updates updates' :
  Permutation updates updates' ->
  NoDup (map (fun u => (RedisCache.key u, RedisCache.ru_timestamp u)) updates) ->
  forall store,
    fst (RedisCache.batchUpdateBalances updates store)
    = fst (RedisCache.batchUpdateBalances updates' store).
Proof.
  induction 1 as [|u updates updates' Hperm IH|u1 u2 updates|l1 l2 l3 H12 IH12 H23 IH23];
    intros Hnd store.
  - reflexivity.
  - cbn [RedisCache.batchUpdateBalances fst]. apply IH.
    cbn [map] in Hnd. apply NoDup_cons in Hnd. tauto.
  - cbn [RedisCache.batchUpdateBalances fst]. f_equal. f_equal.
    apply LWW_SCRIPT_commute.
    cbn [map] in Hnd. apply NoDup_cons in Hnd. destruct Hnd as [Hnotin _].
    intros E. apply Hnotin. rewrite E. left.
  - rewrite IH12 by exact Hnd. apply IH23.
    rewrite <- (Permutation_map
                  (fun u => (RedisCache.key u, RedisCache.ru_timestamp u)) H12).
    exact Hnd.
Qed.

(** X26. The snapshot store does not depend on the order in which updates
    arrive: for updates no two of which carry both the same key and the
    same timestamp, every reordering of a batch leaves the same store.
    (The number answered does depend on the order.) *)
Theorem snapshot_is_independent_of_arrival_order
  (updates updates' : list RedisCache.RedisUpdate)
  (store : gmap (Z * string) (RedisCache.Snapshot * Z)) :
  Permutation updates updates' ->
  NoDup (map (fun u => (RedisCache.key u, RedisCache.ru_timestamp u)) updates) ->
  fst (RedisCache.batchUpdateBalances updates store)
  = fst (RedisCache.batchUpdateBalances updates' store).
Proof.
  intros Hperm Hnd. apply batchUpdateBalances_permutation; assumption.
Qed.

Lemma snapshot_is_independent_of_arrival_order_witness :
  fst (RedisCache.batchUpdateBalances
         [RedisCache.mkRedisUpdate 1 "USDT" (RedisCache.mkSnapshot 105 0 2) 2000;
          RedisCache.mkRedisUpdate 1 "USDT" (RedisCache.mkSnapshot 100 0 1) 1000] ∅)
  = fst (RedisCache.batchUpdateBalances
           [RedisCache.mkRedisUpdate 1 "USDT" (RedisCache.mkSnapshot 100 0 1) 1000;
            RedisCache.mkRedisUpdate 1 "USDT" (RedisCache.mkSnapshot 105 0 2) 2000] ∅)
  /\ snd (RedisCache.batchUpdateBalances
            [RedisCache.mkRedisUpdate 1 "USDT" (RedisCache.mkSnapshot 105 0 2) 2000;
             RedisCache.mkRedisUpdate 1 "USDT" (RedisCache.mkSnapshot 100 0 1) 1000] ∅) = 1%nat
  /\ snd (RedisCache.batchUpdateBalances
            [RedisCache.mkRedisUpdate 1 "USDT" (RedisCache.mkSnapshot 100 0 1) 1000;
             RedisCache.mkRedisUpdate 1 "USDT" (RedisCache.mkSnapshot 105 0 2) 2000] ∅) = 2%nat.
Proof.
  split; [|split; reflexivity].
  apply (snapshot_is_independent_of_arrival_order
           [RedisCache.mkRedisUpdate 1 "USDT" (RedisCache.mkSnapshot 105 0 2) 2000;
            RedisCache.mkRedisUpdate 1 "USDT" (RedisCache.mkSnapshot 100 0 1) 1000]
           [RedisCache.mkRedisUpdate 1 "USDT" (RedisCache.mkSnapshot 100 0 1) 1000;
            RedisCache.mkRedisUpdate 1 "USDT" (RedisCache.mkSnapshot 105 0 2) 2000] ∅).
  - apply perm_swap.
  - apply (bool_decide_unpack _). vm_compute. reflexivity.
Defined.

(** * The snapshot updater: sharding the queue *)

Lemma distribute_run workerCount queue : forall shardedUpdates,
  0 < workerCount ->
  length shardedUpdates = Z.to_nat workerCount ->
  Forall (fun update => 0 <= RedisUpdater.qu_accountId update) queue ->
  RedisUpdater.distribute workerCount queue shardedUpdates
  = Some (imap (fun i shard => shard ++ shard_of workerCount i queue) shardedUpdates).
Proof.
  induction queue as [|update queue IH]; intros shardedUpdates Hcount Hlength Hids.
  - cbn. f_equal. apply list_eq. intros i. rewrite list_lookup_imap.
    destruct (shardedUpdates !! i) as [shard|]; [|reflexivity]. cbn.
    unfold shard_of. cbn. rewrite app_nil_r. reflexivity.
  - inversion Hids as [|? ? Hid Hrest]; subst.
    cbn [RedisUpdater.distribute].
    assert (Hrem : 0 <= Z.rem (RedisUpdater.qu_accountId update) workerCount < workerCount)
      by (apply Z.rem_bound_pos; lia).
    assert (E0 : (workerCount =? 0) = false) by (apply Z.eqb_neq; lia).
    assert (E1 : (Z.rem (RedisUpdater.qu_accountId update) workerCount <? 0) = false)
      by (apply Z.ltb_ge; lia).
    rewrite E0, E1. cbn [orb].
    set (index := Z.to_nat (Z.rem (RedisUpdater.qu_accountId update) workerCount)).
    assert (Hindex : (index < length shardedUpdates)%nat) by (unfold index; lia).
    destruct (lookup_lt_is_Some_2 shardedUpdates index Hindex) as [shard Hshard].
    rewrite Hshard. rewrite IH; [|exact Hcount | rewrite length_insert; exact Hlength | exact Hrest].
    f_equal. apply list_eq. intros i.
    rewrite !list_lookup_imap.
    destruct (decide (i = index)) as [-> | Hne].
    + rewrite list_lookup_insert_eq by exact Hindex. rewrite Hshard. cbn.
      unfold shard_of. cbn [List.filter]. fold index. rewrite Nat.eqb_refl.
      rewrite <- app_assoc. reflexivity.
    + rewrite list_lookup_insert_ne by congruence.
      destruct (shardedUpdates !! i) as [s|]; [|reflexivity]. cbn.
      unfold shard_of. cbn [List.filter]. fold index.
      assert (E : Nat.eqb index i = false) by (apply Nat.eqb_neq; congruence).
      rewrite E. reflexivity.
Qed.

Lemma omap_ext_in {A B} (f g : A -> option B) (l : list A) :
  (forall x, In x l -> f x = g x) -> omap f l = omap g l.
Proof.
  induction l as [|x l IH]; intros H; [reflexivity|].
  cbn [omap list_omap]. rewrite (H x) by (left; reflexivity).
  rewrite IH by (intros y Hy; apply H; right; exact Hy). reflexivity.
Qed.

(** X27. [flush] with a positive worker count and account ids that are not
    negative.  The queue is emptied, and worker [i] is sent, in one
    message, the queued updates whose account id is [i] modulo the worker
    count, in the order they were queued; a worker without updates is sent
    nothing.  So every queued update is sent once, to the worker of its
    account.  When the pool has created no worker (development, compiled
    file absent) the queue is emptied all the same and nothing is sent:
    the updates are lost. *)
Theorem flush_shards_by_account (pool : RedisUpdater.Pool) :
  0 < RedisUpdater.workerCount pool ->
  Forall (fun update => 0 <= RedisUpdater.qu_accountId update) (RedisUpdater.updateQueue pool) ->
  RedisUpdater.flush pool
  = Some (RedisUpdater.mkPool (RedisUpdater.initialized pool) (RedisUpdater.workerCount pool) [],
          omap (fun i =>
                  match shard_of (RedisUpdater.workerCount pool) i
                          (RedisUpdater.updateQueue pool) with
                  | [] => None
                  | shard => Some (i, shard)
                  end) (seq 0 (RedisUpdater.workers pool))).
Proof.
  intros Hcount Hids. unfold RedisUpdater.flush.
  destruct (RedisUpdater.updateQueue pool) as [|update queue] eqn:Hqueue.
  - f_equal. f_equal; [destruct pool; cbn in *; subst; reflexivity|].
    induction (seq 0 (RedisUpdater.workers pool)) as [|i l IH]; [reflexivity | exact IH].
  - rewrite distribute_run; [|exact Hcount | apply length_replicate | exact Hids].
    f_equal. f_equal. unfold RedisUpdater.postMessages. apply omap_ext_in.
    intros i Hi. apply in_seq in Hi. rewrite list_lookup_imap.
    assert (Hlt : (i < Z.to_nat (RedisUpdater.workerCount pool))%nat).
    { unfold RedisUpdater.workers in Hi. destruct (RedisUpdater.initialized pool); lia. }
    rewrite lookup_replicate_2 by exact Hlt. cbn -[shard_of].
    destruct (shard_of (RedisUpdater.workerCount pool) i (update :: queue)); reflexivity.
Qed.

Lemma flush_shards_by_account_witness :
  RedisUpdater.flush
    (RedisUpdater.mkPool true 4
       [RedisUpdater.mkQueuedUpdate 1 "USDT" (mkBalance 1 "USDT" 100 0 1 0);
        RedisUpdater.mkQueuedUpdate 6 "USDT" (mkBalance 6 "USDT" 7 0 1 0);
        RedisUpdater.mkQueuedUpdate 5 "USDT" (mkBalance 5 "USDT" 3 0 1 0);
        RedisUpdater.mkQueuedUpdate 1 "USDT" (mkBalance 1 "USDT" 105 0 2 9)])
  = Some (RedisUpdater.mkPool true 4 [],
          [(1%nat, [RedisUpdater.mkQueuedUpdate 1 "USDT" (mkBalance 1 "USDT" 100 0 1 0);
                    RedisUpdater.mkQueuedUpdate 5 "USDT" (mkBalance 5 "USDT" 3 0 1 0);
                    RedisUpdater.mkQueuedUpdate 1 "USDT" (mkBalance 1 "USDT" 105 0 2 9)]);
           (2%nat, [RedisUpdater.mkQueuedUpdate 6 "USDT" (mkBalance 6 "USDT" 7 0 1 0)])]).
Proof.
  apply (flush_shards_by_account
           (RedisUpdater.mkPool true 4
              [RedisUpdater.mkQueuedUpdate 1 "USDT" (mkBalance 1 "USDT" 100 0 1 0);
               RedisUpdater.mkQueuedUpdate 6 "USDT" (mkBalance 6 "USDT" 7 0 1 0);
               RedisUpdater.mkQueuedUpdate 5 "USDT" (mkBalance 5 "USDT" 3 0 1 0);
               RedisUpdater.mkQueuedUpdate 1 "USDT" (mkBalance 1 "USDT" 105 0 2 9)])).
  - reflexivity.
  - repeat constructor; discriminate.
Defined.

(** * The metrics registry *)

Lemma observeHistogram_lookup name labels value histograms :
  Metrics.observeHistogram name labels value histograms !! Metrics.getKey name labels
  = Some (let values := default [] (histograms !! Metrics.getKey name labels) ++ [value] in
          if (1000 <? length values)%nat then tail values else values).
Proof. unfold Metrics.observeHistogram. apply lookup_insert_eq. Qed.

Lemma push_and_shift (old : list Z) (value : Z) :
  (length old <= 1000)%nat ->
  (if (1000 <? length (old ++ [value]))%nat then tail (old ++ [value]) else old ++ [value])
  = drop (length (old ++ [value]) - 1000) (old ++ [value]).
Proof.
  intros Hold. rewrite length_app. cbn [length].
  destruct (Nat.ltb_spec 1000 (length old + 1)) as [Hlt | Hge].
  - replace (length old + 1 - 1000)%nat with 1%nat by lia.
    destruct old as [|v0 old']; [cbn in Hlt; lia | reflexivity].
  - replace (length old + 1 - 1000)%nat with 0%nat by lia. reflexivity.
Qed.

(** X28. A histogram holds the most recent 1000 observations.  Starting from
    a histogram of at most 1000 values, after any number of further
    observations under the same name and labels it holds exactly the last
    1000 values of the whole sequence, in order (all of them while there
    are fewer), and histograms under other keys are untouched. *)
Theorem histogram_keeps_the_last_1000 (name : string) (labels : list (string * string))
  (values : list Z) (histograms : gmap string (list Z)) :
  let k := Metrics.getKey name labels in
  let old := default [] (histograms !! k) in
  let histograms' :=
    fold_left (fun h value => Metrics.observeHistogram name labels value h) values histograms in
  (length old <= 1000)%nat ->
  default [] (histograms' !! k) = drop (length (old ++ values) - 1000) (old ++ values)
  /\ forall k', k' <> k -> histograms' !! k' = histograms !! k'.
Proof.
  intros k old histograms'. subst k old histograms'.
  revert histograms. induction values as [|value values IH]; intros histograms Hold.
  - cbn [fold_left]. rewrite app_nil_r. split; [|reflexivity].
    replace (length (default [] (histograms !! Metrics.getKey name labels)) - 1000)%nat
      with 0%nat by lia. reflexivity.
  - cbn [fold_left].
    pose proof (observeHistogram_lookup name labels value histograms) as Hnew.
    cbv zeta in Hnew.
    set (old := default [] (histograms !! Metrics.getKey name labels)) in *.
    clearbody old. rewrite (push_and_shift old value Hold) in Hnew.
    assert (Hlen : length (old ++ [value]) = S (length old))
      by (rewrite length_app; cbn; lia).
    destruct (IH (Metrics.observeHistogram name labels value histograms)) as [Hvalues Hother].
    + rewrite Hnew. cbn [default id]. rewrite length_drop. lia.
    + split.
      * rewrite Hvalues, Hnew. cbn [default id].
        rewrite <- (drop_app_le (old ++ [value]) values) by lia.
        rewrite drop_drop. rewrite <- app_assoc. cbn [app]. f_equal.
        rewrite length_drop, !length_app. cbn [length]. lia.
      * intros k' Hk'. rewrite Hother by exact Hk'.
        unfold Metrics.observeHistogram. apply lookup_insert_ne. congruence.
Qed.

Lemma histogram_keeps_the_last_1000_witness :
  default [] (fold_left (fun h value => Metrics.observeHistogram "batch_ms" [("partition", "0")]
                                          value h) [12; 7; 31] ∅
              !! Metrics.getKey "batch_ms" [("partition", "0")])
  = [12; 7; 31].
Proof.
  destruct (histogram_keeps_the_last_1000 "batch_ms" [("partition", "0")] [12; 7; 31] ∅)
    as [H _].
  - rewrite lookup_empty. cbn. lia.
  - exact H.
Defined.

(** * One accepted record, from the topic to the tables *)











Lemma filter_processed_nil ledger messages :
  Forall (fun m => forall request, msg_value m = Some request ->
                     processed ledger request = true) messages ->
  List.filter (fun request => negb (processed ledger request)) (omap msg_value messages) = [].
Proof.
  induction messages as [|m messages IH]; intros H; [reflexivity|].
  inversion H as [|? ? Hm Hrest]; subst. cbn [omap list_omap].
  destruct (msg_value m) as [request|]; [|apply IH, Hrest].
  cbn [List.filter]. rewrite (Hm request eq_refl). cbn [negb]. apply IH, Hrest.
Qed.

(** X30. Records delivered again are skipped.  When every record of a batch
    that parses carries a transaction id for which the ledger holds a row
    past INIT, a running consumer answers the batch normally without
    touching anything: tables, working set, retry counts, dead-letter
    topic and snapshot queue are as before, and the offset of every record
    is resolved. *)
Theorem processed_records_are_skipped (env : Env) (messages : list Message) (partition : Z)
  (w : World) :
  w_running w = true ->
  env_dedupFault env = false ->
  Forall (fun m => forall request, msg_value m = Some request ->
                     processed (balance_transactions (w_db w)) request = true) messages ->
  let w' := fst (BatchConsumer.eachBatch env messages partition w) in
  snd (BatchConsumer.eachBatch env messages partition w) = Ok tt
  /\ w_db w' = w_db w
  /\ w_cache w' = w_cache w
  /\ w_retryMap w' = w_retryMap w
  /\ w_dlq w' = w_dlq w
  /\ w_redisQueue w' = w_redisQueue w
  /\ w_resolved w' = w_resolved w ++ map msg_offset messages.
Proof.
  intros Hrunning Hfault Hprocessed w'. subst w'.
  unfold BatchConsumer.eachBatch. erewrite bind_ok; [|reflexivity].
  rewrite Hrunning. cbn [negb].
  destruct messages as [|m messages].
  - cbn. rewrite app_nil_r. repeat split.
  - destruct (deduplicateMessages_run env (m :: messages) w) as [Hresult _].
    rewrite Hfault in Hresult.
    pose proof (filter_processed_nil _ _ Hprocessed) as Hnone.
    pose proof (deduplicateMessages_preserves
                  (fun w' => w_db w' = w_db w /\ w_cache w' = w_cache w
                             /\ w_retryMap w' = w_retryMap w /\ w_dlq w' = w_dlq w
                             /\ w_redisQueue w' = w_redisQueue w
                             /\ w_resolved w' = w_resolved w)
                  (fun _ _ H => H) env (m :: messages) w
                  (conj eq_refl (conj eq_refl (conj eq_refl (conj eq_refl
                     (conj eq_refl eq_refl)))))) as Hframe.
    destruct (BatchConsumer.deduplicateMessages env (m :: messages) w) as [w1 r1] eqn:Hdedup.
    cbn [fst snd] in Hresult, Hframe.
    assert (Hr1 : r1 = Ok []).
    { destruct (omap msg_value (m :: messages)) as [|r rs]; [exact Hresult|].
      rewrite Hnone in Hresult. exact Hresult. }
    clear Hresult. subst r1.
    assert (Hbatch : BatchConsumer.processBatch env (m :: messages) partition w = (w1, Ok tt)).
    { unfold BatchConsumer.processBatch. erewrite bind_ok; [|exact Hdedup]. reflexivity. }
    erewrite bind_ok; [|exact Hbatch]. rewrite resolve_all.
    cbn [fst snd w_db w_cache w_retryMap w_dlq w_redisQueue w_resolved set_resolved].
    destruct Hframe as (H1 & H2 & H3 & H4 & H5 & H6).
    rewrite H1, H2, H3, H4, H5, H6. repeat split.
Qed.

Lemma processed_records_are_skipped_witness :
  w_db (fst (BatchConsumer.eachBatch second_env [deposit_5] 0
               (fst (BatchConsumer.eachBatch example_env [deposit_5] 0 funded_world))))
  = w_db (fst (BatchConsumer.eachBatch example_env [deposit_5] 0 funded_world)).
Proof.
  apply (processed_records_are_skipped second_env [deposit_5] 0
           (fst (BatchConsumer.eachBatch example_env [deposit_5] 0 funded_world))).
  - reflexivity.
  - reflexivity.
  - constructor; [|constructor]. intros request E. inversion E. subst request.
    vm_compute. reflexivity.
Defined.
